(** * Beleg: the LLM-as-judge batch pipeline, embedded and verified

    A shallow embedding of the four scripts under [hallucinations/]:
    - [utils.py]                    ([normalise_logprobs], [append_jsonl])
    - [poll_truth_p2.py]            ([load_done], [extract_label], polling, merge)
    - [poll_truthqa_batches.py]     ([load_done], [extract_label], polling, merge)
    - [submit_truthqa_batches.py]   ([load_done], the request loop)

    Python values are modelled as follows.
    - A [str] is the list of its Unicode code points ([pystr]).
    - A JSON document is a [json] tree; an [int] is a [Z]; a [float] is an
      IEEE binary64 value of [SpecFloat] ([spec_float] with [prec = 53],
      [emax = 1024]), so that [nan == nan] is false as in Python.
    - A raised exception is the [Raise] case of [res].
    - A line-delimited file is the list of its lines.
    The parts of the Python runtime that are tables of the Unicode database,
    or printing algorithms of CPython, are fields of the class [PyRuntime];
    every definition fixes the behaviour on ASCII itself and consults the
    class only outside ASCII.

    Left out are the limits of an interpreter and of a machine: the depth
    of nesting at which [json] gives up, the number of digits beyond which
    [int()] and [str()] refuse an [int], and the errors of the operating
    system and of the network. What the scripts print is left out too. *)

From Stdlib Require Import NArith ZArith List Bool Lia String Ascii.
From Stdlib Require Import SpecFloat DecimalPos.
Import ListNotations.

Set Implicit Arguments.

(* ===================================================================== *)
(** ** Python strings, exceptions and JSON values *)

(** A Python [str]: the sequence of its code points. *)
Definition pystr := list N.

(** An ASCII literal as a [pystr]. *)
Definition str (s : string) : pystr :=
  map N_of_ascii (list_ascii_of_string s).

Fixpoint str_eqb (a b : pystr) : bool :=
  match a, b with
  | [], [] => true
  | x :: a', y :: b' => N.eqb x y && str_eqb a' b'
  | _, _ => false
  end.

(** The exceptions the scripts can raise. *)
Inductive exn :=
| JSONDecodeError
| KeyError
| TypeError
| ValueError
| AttributeError
| IndexError
| RuntimeError
| UnicodeEncodeError.

(** The outcome of an expression that may raise. *)
Inductive res (A : Type) :=
| Ok (a : A)
| Raise (e : exn).
Arguments Ok {A} a.
Arguments Raise {A} e.

Definition bind {A B} (m : res A) (k : A -> res B) : res B :=
  match m with
  | Ok a => k a
  | Raise e => Raise e
  end.

Notation "x <- m ;; k" := (bind m (fun x => k))
  (at level 61, m at next level, right associativity).
Notation "' p <- m ;; k" := (bind m (fun x => let p := x in k))
  (at level 61, p pattern, m at next level, right associativity).

(** binary64 *)
Definition prec : Z := 53.
Definition emax : Z := 1024.

(** What [json.loads] returns. A [dict] keeps its keys in insertion order
    and holds each key once. *)
#[warnings="-register-all"]
Inductive json :=
| JNull
| JBool (b : bool)
| JInt (z : Z)
| JFloat (f : spec_float)
| JStr (s : pystr)
| JArr (l : list json)
| JObj (kvs : list (pystr * json)).

(** Induction on a value, with the property known of the items of a list
    and of the values of a dict. *)
Section JsonInduction.
Variable P : json -> Prop.
Hypothesis Hnull : P JNull.
Hypothesis Hbool : forall b, P (JBool b).
Hypothesis Hint : forall z, P (JInt z).
Hypothesis Hfloat : forall f, P (JFloat f).
Hypothesis Hstr : forall s, P (JStr s).
Hypothesis Harr : forall l, Forall P l -> P (JArr l).
Hypothesis Hobj : forall kvs, Forall (fun kv => P (snd kv)) kvs -> P (JObj kvs).

Fixpoint json_induction (v : json) : P v :=
  match v with
  | JNull => Hnull
  | JBool b => Hbool b
  | JInt z => Hint z
  | JFloat f => Hfloat f
  | JStr s => Hstr s
  | JArr l =>
      Harr ((fix items (l : list json) : Forall P l :=
               match l with
               | [] => Forall_nil P
               | x :: l' => Forall_cons x (json_induction x) (items l')
               end) l)
  | JObj kvs =>
      Hobj ((fix members (kvs : list (pystr * json))
               : Forall (fun kv => P (snd kv)) kvs :=
               match kvs with
               | [] => Forall_nil _
               | kv :: kvs' =>
                   Forall_cons kv (json_induction (snd kv)) (members kvs')
               end) kvs)
  end.

End JsonInduction.

(** The parts of the Python runtime taken as given. *)
Class PyRuntime := {
  (** [str.isalnum] of a code point above U+007F *)
  uni_isalnum : N -> bool;
  (** [str.lower] of a string that holds a code point above U+007F *)
  uni_lower : pystr -> pystr;
  (** the digit value of a decimal digit above U+007F, as [int()] reads it *)
  uni_decimal : N -> option Z;
  (** [float.__repr__] of a finite float *)
  float_repr : spec_float -> pystr;
  (** [str()] of a list or of a dict *)
  container_str : json -> pystr
}.

Module Py.

(** [str.isspace] of one code point; also what [\s] matches in a [str]
    pattern. *)
Definition isspace (c : N) : bool :=
  ((9 <=? c) && (c <=? 13) || (28 <=? c) && (c <=? 32)
   || (c =? 133) || (c =? 160) || (c =? 5760)
   || (8192 <=? c) && (c <=? 8202)
   || (c =? 8232) || (c =? 8233) || (c =? 8239) || (c =? 8287)
   || (c =? 12288))%N.

Definition is_ascii (c : N) : bool := (c <? 128)%N.
Definition is_upper_ascii (c : N) : bool := ((65 <=? c) && (c <=? 90))%N.
Definition is_lower_ascii (c : N) : bool := ((97 <=? c) && (c <=? 122))%N.
Definition is_digit_ascii (c : N) : bool := ((48 <=? c) && (c <=? 57))%N.

Definition lower_ascii (c : N) : N :=
  if is_upper_ascii c then (c + 32)%N else c.

(** Whether [s.encode("utf-8")] returns: the surrogates, which a [str]
    can hold (the escapes of JSON can put them there), have no encoding. *)
Definition encodable (c : N) : bool := negb ((55296 <=? c) && (c <=? 57343))%N.

Definition encodes (s : pystr) : bool := forallb encodable s.

(** [s.lstrip(chars)] *)
Fixpoint lstrip (p : N -> bool) (s : pystr) : pystr :=
  match s with
  | c :: t => if p c then lstrip p t else s
  | [] => []
  end.

(** [s.rstrip(chars)] *)
Definition rstrip (p : N -> bool) (s : pystr) : pystr :=
  rev (lstrip p (rev s)).

(** [s.strip()] *)
Definition strip (s : pystr) : pystr :=
  rstrip isspace (lstrip isspace s).

(** [s.split(sep)] for a separator of one character. *)
Fixpoint split (sep : N) (s : pystr) : list pystr :=
  match s with
  | [] => [[]]
  | c :: t =>
      if (c =? sep)%N then [] :: split sep t
      else match split sep t with
           | w :: ws => (c :: w) :: ws
           | [] => [[c]]
           end
  end.

Section WithRuntime.
Context {RT : PyRuntime}.

(** [str.lower] *)
Definition lower (s : pystr) : pystr :=
  if forallb is_ascii s then map lower_ascii s else uni_lower s.

(** [\w] of a [str] pattern: alphanumeric or underscore. *)
Definition is_word (c : N) : bool :=
  if is_ascii c
  then is_digit_ascii c || is_upper_ascii c || is_lower_ascii c || (c =? 95)%N
  else uni_isalnum c.

End WithRuntime.
End Py.

(* ===================================================================== *)
(** ** The regular expressions of [re], as far as the scripts use them *)

Module Re.

(** The patterns of the scripts are built from one-character tests, greedy
    stars of one-character tests, concatenation, alternation, one capturing
    group and [\b]. *)
Inductive regex :=
| Chr (p : N -> bool)
| Star (p : N -> bool)
| Cat (r1 r2 : regex)
| Alt (r1 r2 : regex)
| Grp (r : regex)
| WordB
| Eps.

(** A matcher state: the character before the position, the text from the
    position on, and the text of group 1 if the group has matched. *)
Record mstate := MState {
  prev : option N;
  rest : pystr;
  grp : option pystr
}.

(** With [re.I], which characters a pattern character matches. For the
    lower-case ASCII letters these are the two cases of the letter and, for
    [i], [s] and [k], the letters U+0130 and U+0131, U+017F, U+212A. *)
Definition ci (l : N) (c : N) : bool :=
  ((c =? l)
   || Py.is_lower_ascii l && (c =? l - 32)
   || (l =? 105) && ((c =? 304) || (c =? 305))
   || (l =? 115) && (c =? 383)
   || (l =? 107) && (c =? 8490))%N.

(** A literal word under [re.I]. *)
Fixpoint lit (w : pystr) : regex :=
  match w with
  | [] => Eps
  | l :: w' => Cat (Chr (ci l)) (lit w')
  end.

(** A character set [[...]]. *)
Definition oneof (cs : pystr) (c : N) : bool :=
  existsb (N.eqb c) cs.

Section Engine.
Context {RT : PyRuntime}.

Definition word_at (c : option N) : bool :=
  match c with
  | Some x => Py.is_word x
  | None => false
  end.

(** [X*]: the longest run first, then the shorter ones. *)
Fixpoint star (p : N -> bool) (pv : option N) (s : pystr) (g : option pystr)
  : list mstate :=
  match s with
  | c :: t =>
      if p c then star p (Some c) t g ++ [MState pv s g] else [MState pv s g]
  | [] => [MState pv s g]
  end.

(** All the ways [r] matches at a state, in the order in which a
    backtracking matcher finds them. *)
Fixpoint rmatch (r : regex) (st : mstate) : list mstate :=
  match r with
  | Chr p =>
      match rest st with
      | c :: t => if p c then [MState (Some c) t (grp st)] else []
      | [] => []
      end
  | Star p => star p (prev st) (rest st) (grp st)
  | Cat r1 r2 => flat_map (rmatch r2) (rmatch r1 st)
  | Alt r1 r2 => rmatch r1 st ++ rmatch r2 st
  | Grp r1 =>
      map (fun st' =>
             MState (prev st') (rest st')
               (Some (firstn (List.length (rest st) - List.length (rest st')) (rest st))))
          (rmatch r1 st)
  | WordB =>
      if xorb (word_at (prev st)) (word_at (hd_error (rest st)))
      then [st] else []
  | Eps => [st]
  end.

(** [re.search]: the first match at the leftmost position that has one. *)
Fixpoint search_from (r : regex) (pv : option N) (s : pystr) : option mstate :=
  match rmatch r (MState pv s None) with
  | st :: _ => Some st
  | [] =>
      match s with
      | c :: t => search_from r (Some c) t
      | [] => None
      end
  end.

Definition search (r : regex) (s : pystr) : option mstate :=
  search_from r None s.

End Engine.
End Re.

(* ===================================================================== *)
(** ** Numbers: [int()], [str()] of an [int], and the value of a float
       literal *)

Module Num.

(** The decimal digits of a natural number, as characters. *)
Fixpoint chars_of_uint (u : Decimal.uint) : pystr :=
  match u with
  | Decimal.Nil => []
  | Decimal.D0 u' => 48%N :: chars_of_uint u'
  | Decimal.D1 u' => 49%N :: chars_of_uint u'
  | Decimal.D2 u' => 50%N :: chars_of_uint u'
  | Decimal.D3 u' => 51%N :: chars_of_uint u'
  | Decimal.D4 u' => 52%N :: chars_of_uint u'
  | Decimal.D5 u' => 53%N :: chars_of_uint u'
  | Decimal.D6 u' => 54%N :: chars_of_uint u'
  | Decimal.D7 u' => 55%N :: chars_of_uint u'
  | Decimal.D8 u' => 56%N :: chars_of_uint u'
  | Decimal.D9 u' => 57%N :: chars_of_uint u'
  end.

(** [str(z)] for an [int] [z]. *)
Definition str_of_int (z : Z) : pystr :=
  match z with
  | Z0 => [48%N]
  | Zpos p => chars_of_uint (Pos.to_uint p)
  | Zneg p => 45%N :: chars_of_uint (Pos.to_uint p)
  end.

(** The number a list of digit values denotes. *)
Definition of_digits (ds : list Z) : Z :=
  fold_left (fun a d => 10 * a + d)%Z ds 0%Z.

Definition digit_val (c : N) : Z := Z.of_N (c - 48).

(** The binary64 nearest to [m * 10^e10] (ties to even), with the sign
    [neg]: the value of a float literal. *)
Definition float_of_decimal (neg : bool) (m : Z) (e10 : Z) : spec_float :=
  match m with
  | Zpos p =>
      match e10 with
      | Zneg k =>
          let '(q, e, l) :=
            SFdiv_core_binary prec emax (Zpos p) 0 (Z.pow_pos 10 k) 0 in
          binary_round_aux prec emax neg q e l
      | _ =>
          match (Zpos p * 10 ^ e10)%Z with
          | Zpos n => binary_round prec emax neg n 0
          | _ => S754_zero neg
          end
      end
  | _ => S754_zero neg
  end.

(** [f == z] for a float [f] and an [int] [z]: the comparison is exact. *)
Definition float_eq_int (f : spec_float) (z : Z) : bool :=
  match f with
  | S754_zero _ => (z =? 0)%Z
  | S754_finite s m e =>
      let v := if s then Zneg m else Zpos m in
      match e with
      | Zneg k => (z * Z.pow_pos 2 k =? v)%Z
      | _ => (z =? v * 2 ^ e)%Z
      end
  | _ => false
  end.

Section WithRuntime.
Context {RT : PyRuntime}.

(** The digit value of a character for [int()]. *)
Definition decimal (c : N) : option Z :=
  if Py.is_digit_ascii c then Some (digit_val c)
  else if Py.is_ascii c then None
  else uni_decimal c.

(** The digits of an [int()] argument after the sign: digits, with single
    underscores between them. [after_digit] tells whether the character
    before was a digit. *)
Fixpoint int_digits (s : pystr) (after_digit : bool) (acc : list Z)
  : option (list Z) :=
  match s with
  | [] => if after_digit then Some (rev acc) else None
  | c :: t =>
      if (c =? 95)%N then
        if after_digit then int_digits t false acc else None
      else
        match decimal c with
        | Some d => int_digits t true (d :: acc)
        | None => None
        end
  end.

(** [int(s)] for a [str] [s]. *)
Definition int_of_str (s : pystr) : res Z :=
  let s := Py.strip s in
  let '(neg, s) :=
    match s with
    | c :: t =>
        if (c =? 45)%N then (true, t)
        else if (c =? 43)%N then (false, t)
        else (false, s)
    | [] => (false, s)
    end in
  match int_digits s false [] with
  | Some ds => Ok (if neg then - of_digits ds else of_digits ds)%Z
  | None => Raise ValueError
  end.

End WithRuntime.
End Num.

(* ===================================================================== *)
(** ** The [json] module: [json.loads] and [json.dumps] *)

Module Json.

(** *** Dictionaries *)

Fixpoint dict_get (k : pystr) (kvs : list (pystr * json)) : option json :=
  match kvs with
  | [] => None
  | (k', v) :: kvs' => if str_eqb k k' then Some v else dict_get k kvs'
  end.

(** [d[k] = v]: an old key keeps its place. *)
Fixpoint dict_set (k : pystr) (v : json) (kvs : list (pystr * json))
  : list (pystr * json) :=
  match kvs with
  | [] => [(k, v)]
  | (k', v') :: kvs' =>
      if str_eqb k k' then (k, v) :: kvs' else (k', v') :: dict_set k v kvs'
  end.

(** [dict(pairs)] *)
Definition dict_of_pairs (pairs : list (pystr * json)) : list (pystr * json) :=
  fold_left (fun d kv => dict_set (fst kv) (snd kv) d) pairs [].

(** *** Scanning *)

Definition is_ws (c : N) : bool :=
  ((c =? 32) || (c =? 9) || (c =? 10) || (c =? 13))%N.

Definition skip_ws (s : pystr) : pystr := Py.lstrip is_ws s.

(** The rest of [s] after the prefix [p], if [s] starts with [p]. *)
Fixpoint after_prefix (p s : pystr) : option pystr :=
  match p, s with
  | [], _ => Some s
  | x :: p', y :: s' => if (x =? y)%N then after_prefix p' s' else None
  | _ :: _, [] => None
  end.

(** The longest prefix of characters that satisfy [p], and the rest. *)
Fixpoint span (p : N -> bool) (s : pystr) : pystr * pystr :=
  match s with
  | c :: t =>
      if p c then let '(a, b) := span p t in (c :: a, b) else ([], s)
  | [] => ([], [])
  end.

Definition hexval (c : N) : option N :=
  if Py.is_digit_ascii c then Some (c - 48)%N
  else if ((97 <=? c) && (c <=? 102))%N then Some (c - 87)%N
  else if ((65 <=? c) && (c <=? 70))%N then Some (c - 55)%N
  else None.

Definition hex4 (a b c d : N) : option N :=
  match hexval a, hexval b, hexval c, hexval d with
  | Some x, Some y, Some z, Some w => Some (((x * 16 + y) * 16 + z) * 16 + w)%N
  | _, _, _, _ => None
  end.

Definition is_high_surrogate (u : N) : bool := ((55296 <=? u) && (u <=? 56319))%N.
Definition is_low_surrogate (u : N) : bool := ((56320 <=? u) && (u <=? 57343))%N.
Definition join_surrogates (hi lo : N) : N :=
  (65536 + (hi - 55296) * 1024 + (lo - 56320))%N.

(** The character a one-letter escape stands for. *)
Definition unescape (e : N) : option N :=
  if (e =? 34)%N then Some 34%N
  else if (e =? 92)%N then Some 92%N
  else if (e =? 47)%N then Some 47%N
  else if (e =? 98)%N then Some 8%N
  else if (e =? 102)%N then Some 12%N
  else if (e =? 110)%N then Some 10%N
  else if (e =? 114)%N then Some 13%N
  else if (e =? 116)%N then Some 9%N
  else None.

(** A string literal from after its opening quote (strict mode): the
    string and the text after the closing quote. *)
Fixpoint scanstring (s : pystr) (acc : pystr) : option (pystr * pystr) :=
  match s with
  | [] => None
  | c :: t =>
      if (c =? 34)%N then Some (rev acc, t)
      else if (c =? 92)%N then
        match t with
        | [] => None
        | e :: t1 =>
            if (e =? 117)%N then
              match t1 with
              | h1 :: h2 :: h3 :: h4 :: t2 =>
                  match hex4 h1 h2 h3 h4 with
                  | None => None
                  | Some u =>
                      if is_high_surrogate u then
                        match t2 with
                        | b :: x :: l1 :: l2 :: l3 :: l4 :: t3 =>
                            if ((b =? 92) && (x =? 117))%N then
                              match hex4 l1 l2 l3 l4 with
                              | None => None
                              | Some u2 =>
                                  if is_low_surrogate u2
                                  then scanstring t3 (join_surrogates u u2 :: acc)
                                  else scanstring t2 (u :: acc)
                              end
                            else scanstring t2 (u :: acc)
                        | _ => scanstring t2 (u :: acc)
                        end
                      else scanstring t2 (u :: acc)
                  end
              | _ => None
              end
            else
              match unescape e with
              | Some x => scanstring t1 (x :: acc)
              | None => None
              end
        end
      else if (c <=? 31)%N then None
      else scanstring t (c :: acc)
  end.

Definition digits_value (ds : pystr) : Z :=
  Num.of_digits (map Num.digit_val ds).

(** The integer part of a number: a zero, or digits that start with none;
    the digits and the text after them. *)
Definition int_part (s : pystr) : option (pystr * pystr) :=
  match s with
  | [] => None
  | d :: t =>
      if ((49 <=? d) && (d <=? 57))%N
      then let '(ds, r) := span Py.is_digit_ascii t in Some (d :: ds, r)
      else if (d =? 48)%N then Some ([d], t)
      else None
  end.

(** The fraction, if there is one: a point and digits. *)
Definition frac_part (r : pystr) : option pystr * pystr :=
  match r with
  | c :: f :: t =>
      if ((c =? 46)%N && Py.is_digit_ascii f)%bool
      then let '(fs, r') := span Py.is_digit_ascii t in (Some (f :: fs), r')
      else (None, r)
  | _ => (None, r)
  end.

(** The digits of an exponent, in the text [t] after [e] and its sign;
    [r] is the text from [e] on, which is left if there is no digit. *)
Definition exp_digits (eneg : bool) (t r : pystr) : option Z * pystr :=
  match span Py.is_digit_ascii t with
  | ([], _) => (None, r)
  | (es, r') => (Some (if eneg then - digits_value es else digits_value es)%Z, r')
  end.

(** The exponent, if there is one: [e] or [E], a sign or none, digits. *)
Definition exp_part (r : pystr) : option Z * pystr :=
  match r with
  | e :: t =>
      if ((e =? 101) || (e =? 69))%N then
        match t with
        | c :: u =>
            if (c =? 45)%N then exp_digits true u r
            else if (c =? 43)%N then exp_digits false u r
            else exp_digits false t r
        | [] => (None, r)
        end
      else (None, r)
  | [] => (None, r)
  end.

(** A number after its sign: an [int] when it has neither fraction nor
    exponent, a [float] otherwise. *)
Definition number_after_sign (neg : bool) (s : pystr) : option (json * pystr) :=
  match int_part s with
  | None => None
  | Some (ipart, r) =>
      let '(frac, r1) := frac_part r in
      let '(expo, r2) := exp_part r1 in
      match frac, expo with
      | None, None =>
          Some (JInt (if neg then - digits_value ipart else digits_value ipart)%Z, r2)
      | _, _ =>
          let fs := match frac with Some fs => fs | None => [] end in
          let e := match expo with Some e => e | None => 0%Z end in
          Some (JFloat (Num.float_of_decimal neg (digits_value (ipart ++ fs))
                          (e - Z.of_nat (List.length fs))), r2)
      end
  end.

(** A number at the start of [s]: its value and the text after it. *)
Definition match_number (s : pystr) : option (json * pystr) :=
  match s with
  | c :: t =>
      if (c =? 45)%N then number_after_sign true t else number_after_sign false s
  | [] => None
  end.

(** The outcome of scanning one value with a bounded number of steps. *)
Inductive presult :=
| POk (v : json) (rest : pystr)
| PErr
| PFuel.

(** One of the words of JSON at the start of [s]. *)
Definition match_word (s : pystr) : option (json * pystr) :=
  match after_prefix (str "null") s with
  | Some r => Some (JNull, r)
  | None =>
  match after_prefix (str "true") s with
  | Some r => Some (JBool true, r)
  | None =>
  match after_prefix (str "false") s with
  | Some r => Some (JBool false, r)
  | None =>
  match after_prefix (str "NaN") s with
  | Some r => Some (JFloat S754_nan, r)
  | None =>
  match after_prefix (str "Infinity") s with
  | Some r => Some (JFloat (S754_infinity false), r)
  | None =>
  match after_prefix (str "-Infinity") s with
  | Some r => Some (JFloat (S754_infinity true), r)
  | None => None
  end end end end end end.

(** One JSON value at the start of [s] ([scan_once]); the items of an
    array after its bracket; the members of an object after its brace. *)
Fixpoint scan_once (fuel : nat) (s : pystr) : presult :=
  match fuel with
  | O => PFuel
  | S f =>
      match s with
      | [] => PErr
      | c :: t =>
          if (c =? 34)%N then
            match scanstring t [] with
            | Some (x, r) => POk (JStr x) r
            | None => PErr
            end
          else if (c =? 123)%N then
            match skip_ws t with
            | [] => PErr
            | c' :: r =>
                if (c' =? 125)%N then POk (JObj []) r
                else object_items f (c' :: r) []
            end
          else if (c =? 91)%N then
            match skip_ws t with
            | [] => PErr
            | c' :: r =>
                if (c' =? 93)%N then POk (JArr []) r
                else array_items f (c' :: r) []
            end
          else
            match match_word s with
            | Some (v, r) => POk v r
            | None =>
                match match_number s with
                | Some (v, r) => POk v r
                | None => PErr
                end
            end
      end
  end

with array_items (fuel : nat) (s : pystr) (acc : list json) : presult :=
  match fuel with
  | O => PFuel
  | S f =>
      match scan_once f s with
      | POk v r =>
          match skip_ws r with
          | [] => PErr
          | c :: r' =>
              if (c =? 93)%N then POk (JArr (rev (v :: acc))) r'
              else if (c =? 44)%N then array_items f (skip_ws r') (v :: acc)
              else PErr
          end
      | e => e
      end
  end

with object_items (fuel : nat) (s : pystr) (acc : list (pystr * json)) : presult :=
  match fuel with
  | O => PFuel
  | S f =>
      match s with
      | [] => PErr
      | q :: t =>
          if negb (q =? 34)%N then PErr
          else
            match scanstring t [] with
            | None => PErr
            | Some (k, r) =>
                match skip_ws r with
                | [] => PErr
                | c :: r1 =>
                    if negb (c =? 58)%N then PErr
                    else
                      match scan_once f (skip_ws r1) with
                      | POk v r2 =>
                          match skip_ws r2 with
                          | [] => PErr
                          | c' :: r' =>
                              if (c' =? 125)%N
                              then POk (JObj (dict_of_pairs (rev ((k, v) :: acc)))) r'
                              else if (c' =? 44)%N
                              then object_items f (skip_ws r') ((k, v) :: acc)
                              else PErr
                          end
                      | e => e
                      end
                end
            end
      end
  end.

(** [json.loads(s)]; [None] stands for [JSONDecodeError]. The steps given
    are enough for every text ([loads_steps_enough] below). *)
Definition loads (s : pystr) : option json :=
  match scan_once (2 * List.length s + 1) (skip_ws s) with
  | POk v r => match skip_ws r with [] => Some v | _ => None end
  | _ => None
  end.

(** *** Printing *)

Definition hexdigit (n : N) : N :=
  if (n <? 10)%N then (48 + n)%N else (87 + n)%N.

(** How [json.dumps(..., ensure_ascii=False)] writes one character of a
    string. *)
Definition escape_char (c : N) : pystr :=
  if (c =? 34)%N then [92; 34]%N
  else if (c =? 92)%N then [92; 92]%N
  else if (c =? 10)%N then [92; 110]%N
  else if (c =? 13)%N then [92; 114]%N
  else if (c =? 9)%N then [92; 116]%N
  else if (c =? 8)%N then [92; 98]%N
  else if (c =? 12)%N then [92; 102]%N
  else if (c <? 32)%N
       then [92; 117; 48; 48; hexdigit (c / 16); hexdigit (c mod 16)]%N
  else [c].

Definition encode_basestring (s : pystr) : pystr :=
  34%N :: flat_map escape_char s ++ [34%N].

(** [sep.join(parts)] *)
Fixpoint join (sep : pystr) (parts : list pystr) : pystr :=
  match parts with
  | [] => []
  | [p] => p
  | p :: ps => p ++ sep ++ join sep ps
  end.

Section WithRuntime.
Context {RT : PyRuntime}.

Definition floatstr (f : spec_float) : pystr :=
  match f with
  | S754_nan => str "NaN"
  | S754_infinity false => str "Infinity"
  | S754_infinity true => str "-Infinity"
  | _ => float_repr f
  end.

(** [json.dumps(v, ensure_ascii=False)]: on one line, items separated by
    a comma and a space, keys from values by a colon and a space. *)
Fixpoint dumps (v : json) : pystr :=
  match v with
  | JNull => str "null"
  | JBool true => str "true"
  | JBool false => str "false"
  | JInt z => Num.str_of_int z
  | JFloat f => floatstr f
  | JStr s => encode_basestring s
  | JArr l => [91%N] ++ join (str ", ") (map dumps l) ++ [93%N]
  | JObj kvs =>
      [123%N]
      ++ join (str ", ")
           (map (fun kv => encode_basestring (fst kv) ++ str ": " ++ dumps (snd kv))
                kvs)
      ++ [125%N]
  end.

End WithRuntime.
End Json.

(* ===================================================================== *)
(** ** Operations of Python on the values the scripts handle *)

Module Val.

(** [v[k]] for a [str] key [k]. *)
Definition getitem (v : json) (k : string) : res json :=
  match v with
  | JObj kvs =>
      match Json.dict_get (str k) kvs with
      | Some x => Ok x
      | None => Raise KeyError
      end
  | _ => Raise TypeError
  end.

(** [v[0]] *)
Definition getitem0 (v : json) : res json :=
  match v with
  | JArr (x :: _) => Ok x
  | JArr [] => Raise IndexError
  | JStr (c :: _) => Ok (JStr [c])
  | JStr [] => Raise IndexError
  | JObj _ => Raise KeyError
  | _ => Raise TypeError
  end.

(** Whether [p] occurs in [s] as a substring. *)
Fixpoint is_substring (p s : pystr) : bool :=
  match Json.after_prefix p s with
  | Some _ => true
  | None =>
      match s with
      | [] => false
      | _ :: t => is_substring p t
      end
  end.

(** [k in v] for a [str] [k]. *)
Definition contains (k : string) (v : json) : res bool :=
  match v with
  | JObj kvs =>
      Ok (match Json.dict_get (str k) kvs with Some _ => true | None => false end)
  | JArr l =>
      Ok (existsb (fun x => match x with JStr s => str_eqb s (str k) | _ => false end) l)
  | JStr s => Ok (is_substring (str k) s)
  | _ => Raise TypeError
  end.

(** The items [for x in v] goes through. *)
Definition iterate (v : json) : res (list json) :=
  match v with
  | JArr l => Ok l
  | JObj kvs => Ok (map (fun kv => JStr (fst kv)) kvs)
  | JStr s => Ok (map (fun c => JStr [c]) s)
  | _ => Raise TypeError
  end.

(** [[f(x) for x in l]], stopping at the first exception. *)
Fixpoint traverse {A B} (f : A -> res B) (l : list A) : res (list B) :=
  match l with
  | [] => Ok []
  | x :: l' => y <- f x ;; ys <- traverse f l' ;; Ok (y :: ys)
  end.

(** Lists and dicts cannot be members of a set or keys of a dict. *)
Definition hashable (v : json) : bool :=
  match v with
  | JArr _ | JObj _ => false
  | _ => true
  end.

(** [a == b] for hashable values: numbers compare by value, whether
    [bool], [int] or [float]. *)
Definition eqb (a b : json) : bool :=
  match a, b with
  | JNull, JNull => true
  | JStr x, JStr y => str_eqb x y
  | JBool x, JBool y => Bool.eqb x y
  | JBool x, JInt y | JInt y, JBool x => (Z.b2z x =? y)%Z
  | JBool x, JFloat y | JFloat y, JBool x => Num.float_eq_int y (Z.b2z x)
  | JInt x, JInt y => (x =? y)%Z
  | JInt x, JFloat y | JFloat y, JInt x => Num.float_eq_int y x
  | JFloat x, JFloat y => SFeqb x y
  | _, _ => false
  end.

(** A tuple of three values, as the scripts use for identities. *)
Definition key := (json * json * json)%type.

Definition key_hashable (k : key) : bool :=
  let '(a, b, c) := k in hashable a && hashable b && hashable c.

Definition key_eqb (k1 k2 : key) : bool :=
  let '(a1, b1, c1) := k1 in
  let '(a2, b2, c2) := k2 in
  eqb a1 a2 && eqb b1 b2 && eqb c1 c2.

(** A [set] of identities, in the order of insertion. *)
Definition keyset := list key.

(** [k in s] *)
Definition set_contains (k : key) (s : keyset) : res bool :=
  if key_hashable k then Ok (existsb (key_eqb k) s) else Raise TypeError.

(** [s.add(k)] *)
Definition set_add (k : key) (s : keyset) : res keyset :=
  present <- set_contains k s ;;
  Ok (if present then s else s ++ [k]).

(** A [dict] from identities to values. *)
Definition keydict := list (key * json).

Fixpoint keydict_set (k : key) (v : json) (d : keydict) : keydict :=
  match d with
  | [] => [(k, v)]
  | (k', v') :: d' =>
      if key_eqb k k' then (k', v) :: d' else (k', v') :: keydict_set k v d'
  end.

(** [d[k]] *)
Fixpoint keydict_find (k : key) (d : keydict) : option json :=
  match d with
  | [] => None
  | (k', v) :: d' => if key_eqb k k' then Some v else keydict_find k d'
  end.

Definition keydict_get (k : key) (d : keydict) : res json :=
  if key_hashable k then
    match keydict_find k d with
    | Some v => Ok v
    | None => Raise KeyError
    end
  else Raise TypeError.

Section WithRuntime.
Context {RT : PyRuntime}.

(** [str(v)], which is also what an f-string writes for [{v}]. *)
Definition to_str (v : json) : pystr :=
  match v with
  | JNull => str "None"
  | JBool true => str "True"
  | JBool false => str "False"
  | JInt z => Num.str_of_int z
  | JFloat S754_nan => str "nan"
  | JFloat (S754_infinity false) => str "inf"
  | JFloat (S754_infinity true) => str "-inf"
  | JFloat f => float_repr f
  | JStr s => s
  | JArr _ | JObj _ => container_str v
  end.

End WithRuntime.
End Val.

(* ===================================================================== *)
(** ** utils.py *)

Module Utils.

(** A text file of lines; [None] when the path does not exist. *)
Definition file := option (list pystr).

Definition lines_of (f : file) : list pystr :=
  match f with
  | Some ls => ls
  | None => []
  end.

(** [normalise_logprobs]: the list it returns. *)
Definition normalise_logprobs (logprobs_obj : json) : res (list json) :=
  has_content <- Val.contains "content" logprobs_obj ;;
  if negb has_content then Ok []
  else
    content <- Val.getitem logprobs_obj "content" ;;
    entries <- Val.iterate content ;;
    Val.traverse
      (fun entry =>
         token <- Val.getitem entry "token" ;;
         logprob <- Val.getitem entry "logprob" ;;
         top_logprobs <- Val.getitem entry "top_logprobs" ;;
         alts <- Val.iterate top_logprobs ;;
         top_alts <-
           Val.traverse
             (fun alt =>
                alt_token <- Val.getitem alt "token" ;;
                Ok (JObj [(str "token", alt_token);
                          (str "logprob", JArr [JStr (str "logprob")])]))
             alts ;;
         Ok (JObj [(str "token", token);
                   (str "logprob", logprob);
                   (str "top_alts", JArr top_alts)]))
      entries.

Section WithRuntime.
Context {RT : PyRuntime}.

(** [append_jsonl]: the exception it raises, if any, and the file after
    it. The file, plain or gzip, is opened for appending, and so exists from
    then on; the line is written unless its text has no encoding in UTF-8,
    in which case [f.write] raises before anything is written. *)
Definition append_jsonl (record : json) (f : file) : option exn * file :=
  let line := Json.dumps record in
  if Py.encodes line then (None, Some (lines_of f ++ [line]))
  else (Some UnicodeEncodeError, Some (lines_of f)).

End WithRuntime.
End Utils.

(* ===================================================================== *)
(** ** What the two pollers share: [load_done], the polling loop and the
       merge loop are the same text in [poll_truth_p2.py] and in
       [poll_truthqa_batches.py]; the scripts differ in [extract_label]. *)

Module Poll.

(** What the script reads from its surroundings. *)
Record env := Env {
  (** [os.getenv("OPEN_API_KEY")] *)
  api_key : option pystr;
  (** the lines of [--answers-file] *)
  answers_file : list pystr;
  (** [job.status] of the successive [client.batches.retrieve] calls *)
  job_statuses : list pystr;
  (** [text.splitlines()] of the downloaded output file *)
  batch_output : list pystr
}.

(** How a run ends. *)
Inductive outcome :=
| Appended (added : nat)
| ExitNoKey
| ExitNoOutput (status : pystr)
| Uncaught (e : exn)
| StillPolling.

Definition loads_or_raise (line : pystr) : res json :=
  match Json.loads line with
  | Some v => Ok v
  | None => Raise JSONDecodeError
  end.

Definition terminal (status : pystr) : bool :=
  existsb (str_eqb status)
    [str "completed"; str "failed"; str "expired"; str "canceled"].

(** The polling loop: the status at which it breaks, if the job gets to
    one while the script polls. *)
Fixpoint poll (statuses : list pystr) : option pystr :=
  match statuses with
  | [] => None
  | status :: later => if terminal status then Some status else poll later
  end.

(** [str.split("|")] of [rec["custom_id"]], unpacked into three names. *)
Definition split_custom_id (custom_id : json) : res (pystr * pystr * pystr) :=
  match custom_id with
  | JStr s =>
      match Py.split 124 s with
      | [qid; model; setting] => Ok (qid, model, setting)
      | _ => Raise ValueError
      end
  | _ => Raise AttributeError
  end.

(** [choice["message"]["content"]] with leading U+FEFF characters and
    then the white space at both ends stripped. *)
Definition clean_content (content : json) : res pystr :=
  match content with
  | JStr s => Ok (Py.strip (Py.lstrip (N.eqb 65279) s))
  | _ => Raise AttributeError
  end.

Section Script.
Context {RT : PyRuntime}.
(** [qid_to_category.get], from the TruthfulQA data set *)
Variable qid_to_category : Z -> option pystr.
Variable extract_label : pystr -> res (option pystr).

(** [load_done]: the set of (Model, Temperature, QID) already written. *)
Fixpoint load_lines (lines : list pystr) (done : Val.keyset) : res Val.keyset :=
  match lines with
  | [] => Ok done
  | line :: later =>
      rec <- loads_or_raise line ;;
      model <- Val.getitem rec "Model" ;;
      temperature <- Val.getitem rec "Temperature" ;;
      question_ind <- Val.getitem rec "Question_ind" ;;
      done' <- Val.set_add (model, temperature, JStr (Val.to_str question_ind)) done ;;
      load_lines later done'
  end.

Definition load_done (f : Utils.file) : res Val.keyset :=
  match f with
  | None => Ok []
  | Some lines => load_lines lines []
  end.

(** The index of the model-generated answers. *)
Fixpoint index_answers (lines : list pystr) (index : Val.keydict) : res Val.keydict :=
  match lines with
  | [] => Ok index
  | line :: later =>
      row <- loads_or_raise line ;;
      qid <- Val.getitem row "qid" ;;
      model <- Val.getitem row "model" ;;
      setting <- Val.getitem row "setting" ;;
      if Val.key_hashable (qid, model, setting)
      then index_answers later (Val.keydict_set (qid, model, setting) row index)
      else Raise TypeError
  end.

Definition category (z : Z) : json :=
  match qid_to_category z with
  | Some c => JStr c
  | None => JNull
  end.

(** One turn of the merge loop up to [append_jsonl]: the record to append,
    [None] where the turn ends in [continue], or the exception raised. *)
Definition new_record (answers_index : Val.keydict) (already_done : Val.keyset)
    (line : pystr) : res (option json) :=
  rec <- loads_or_raise line ;;
  custom_id <- Val.getitem rec "custom_id" ;;
  '(qid, model, setting) <- split_custom_id custom_id ;;
  int_qid <- Num.int_of_str qid ;;
  row <- Val.keydict_get (JInt int_qid, JStr model, JStr setting) answers_index ;;
  temperature <- Val.getitem row "temperature" ;;
  present <- Val.set_contains (JStr model, temperature, JStr qid) already_done ;;
  if present then Ok None
  else
    response <- Val.getitem rec "response" ;;
    body <- Val.getitem response "body" ;;
    choices <- Val.getitem body "choices" ;;
    choice <- Val.getitem0 choices ;;
    message <- Val.getitem choice "message" ;;
    content <- Val.getitem message "content" ;;
    eval_txt <- clean_content content ;;
    logprobs <- Val.getitem choice "logprobs" ;;
    judge_lp <- Utils.normalise_logprobs logprobs ;;
    label <- extract_label eval_txt ;;
    match label with
    | None => Ok None
    | Some classification =>
        answer <- Val.getitem row "answer" ;;
        Ok (Some (JObj [(str "Question_ind", JInt int_qid);
                        (str "Evaluation", JStr eval_txt);
                        (str "Model", JStr model);
                        (str "Temperature", temperature);
                        (str "Candidate Answer", answer);
                        (str "judge_tokens", JArr judge_lp);
                        (str "classification", JStr classification);
                        (str "Category", category int_qid)]))
    end.

(** One turn of the merge loop: the exception it raises, if any, and the
    output file and the counter [added] after it. *)
Definition merge_line (answers_index : Val.keydict) (already_done : Val.keyset)
    (line : pystr) (st : Utils.file * nat) : option exn * (Utils.file * nat) :=
  match new_record answers_index already_done line with
  | Raise e => (Some e, st)
  | Ok None => (None, st)
  | Ok (Some record) =>
      match Utils.append_jsonl record (fst st) with
      | (None, f) => (None, (f, S (snd st)))
      | (Some e, f) => (Some e, (f, snd st))
      end
  end.

(** The merge loop; an exception ends it, with the file as the turns so
    far left it. *)
Fixpoint merge (answers_index : Val.keydict) (already_done : Val.keyset)
    (lines : list pystr) (st : Utils.file * nat) : outcome * Utils.file :=
  match lines with
  | [] => (Appended (snd st), fst st)
  | line :: later =>
      match merge_line answers_index already_done line st with
      | (None, st') => merge answers_index already_done later st'
      | (Some e, st') => (Uncaught e, fst st')
      end
  end.

(** The script from the check of the API key on. *)
Definition main (e : env) (output_file : Utils.file) : outcome * Utils.file :=
  match api_key e with
  | None | Some [] => (ExitNoKey, output_file)
  | Some _ =>
      match index_answers (answers_file e) [] with
      | Raise x => (Uncaught x, output_file)
      | Ok answers_index =>
          match load_done output_file with
          | Raise x => (Uncaught x, output_file)
          | Ok already_done =>
              match poll (job_statuses e) with
              | None => (StillPolling, output_file)
              | Some status =>
                  if negb (str_eqb status (str "completed"))
                  then (ExitNoOutput status, output_file)
                  else merge answers_index already_done (batch_output e)
                         (output_file, 0)
              end
          end
      end
  end.

End Script.
End Poll.

(* ===================================================================== *)
(** ** The patterns of the two [extract_label] *)

Module Pat.

Fixpoint seq (rs : list Re.regex) : Re.regex :=
  match rs with
  | [] => Re.Eps
  | [r] => r
  | r :: rs' => Re.Cat r (seq rs')
  end.

Definition truthful : pystr := str "truthful".
Definition hallucinated : pystr := str "hallucinated".

(** [(truthful|hallucinated)] *)
Definition keyword : Re.regex :=
  Re.Grp (Re.Alt (Re.lit truthful) (Re.lit hallucinated)).

(** The arrow, U+2192. *)
Definition arrow : N := 8594.

(** [\blabel\s*[:=]\s*Q*\s*(truthful|hallucinated)\b], where [Q] is the
    set of the single quote, the double quote and the backquote. *)
Definition label_line : Re.regex :=
  seq [Re.WordB; Re.lit (str "label"); Re.Star Py.isspace;
       Re.Chr (Re.oneof (str ":=")); Re.Star Py.isspace;
       Re.Star (Re.oneof [39; 34; 96]%N); Re.Star Py.isspace;
       keyword; Re.WordB].

(** [<arrow>\s*[*_`~]*\s*(truthful|hallucinated)\b] *)
Definition arrow_label : Re.regex :=
  seq [Re.Chr (Re.ci arrow); Re.Star Py.isspace;
       Re.Star (Re.oneof (str "*_`~")); Re.Star Py.isspace;
       keyword; Re.WordB].

(** [\b(truthful|hallucinated)\b] *)
Definition word : Re.regex :=
  seq [Re.WordB; keyword; Re.WordB].

Section WithRuntime.
Context {RT : PyRuntime}.

(** [m.group(1).lower()] *)
Definition group1_lower (m : Re.mstate) : res (option pystr) :=
  match Re.grp m with
  | Some g => Ok (Some (Py.lower g))
  | None => Raise AttributeError
  end.

End WithRuntime.
End Pat.

(* ===================================================================== *)
(** ** poll_truth_p2.py *)

Module PollTruthP2.
Section WithRuntime.
Context {RT : PyRuntime}.

(** What the [try] block returns or raises, or [None] when control goes
    on to the patterns. *)
Definition label_of_json (eval_txt : pystr) : option (res (option pystr)) :=
  match Json.loads eval_txt with
  | Some (JObj kvs) =>
      match Json.dict_get (str "label") kvs with
      | Some (JStr l) => Some (Ok (Some (Py.lower (Py.strip l))))
      | Some _ => Some (Raise AttributeError)
      | None => None
      end
  | _ => None
  end.

Definition extract_label (eval_txt : pystr) : res (option pystr) :=
  match label_of_json eval_txt with
  | Some r => r
  | None =>
      match Re.search Pat.label_line eval_txt with
      | Some label_line => Pat.group1_lower label_line
      | None =>
          match Re.search Pat.arrow_label eval_txt with
          | Some arrow => Pat.group1_lower arrow
          | None => Ok None
          end
      end
  end.

Definition load_done := Poll.load_done.

Definition main (qid_to_category : Z -> option pystr) :=
  Poll.main qid_to_category extract_label.

End WithRuntime.
End PollTruthP2.

(* ===================================================================== *)
(** ** poll_truthqa_batches.py *)

Module PollTruthqaBatches.
Section WithRuntime.
Context {RT : PyRuntime}.

Definition extract_label (eval_txt : pystr) : res (option pystr) :=
  match Re.search Pat.arrow_label eval_txt with
  | Some arrow_re => Pat.group1_lower arrow_re
  | None =>
      match Re.search Pat.word eval_txt with
      | Some word_re => Pat.group1_lower word_re
      | None => Ok None
      end
  end.

Definition load_done := Poll.load_done.

Definition main (qid_to_category : Z -> option pystr) :=
  Poll.main qid_to_category extract_label.

End WithRuntime.
End PollTruthqaBatches.

(* ===================================================================== *)
(** ** submit_truthqa_batches.py *)

Module Submit.

Record env := Env {
  (** [os.getenv("OPENAI_API_KEY")] *)
  api_key : option pystr;
  (** [--limit] *)
  LIMIT : Z;
  (** the lines of [--answers-file] *)
  answers_file : list pystr;
  (** [truth_ds[qid]]: the record of a question in the data set *)
  truth_ds : json -> res json;
  (** [build_prompt(question, best_answer, correct_answers,
      incorrect_answers, model_output)] *)
  build_prompt : json -> json -> json -> json -> json -> res pystr
}.

(** How a run ends: with the requests it has sent, with nothing to send,
    or with an exception. *)
Inductive outcome :=
| Sent (requests : list json)
| NothingToEvaluate
| Uncaught (e : exn).

Section Script.
Context {RT : PyRuntime}.

(** [load_done]: a line that is not JSON is passed over. *)
Fixpoint load_lines (lines : list pystr) (done : Val.keyset) : res Val.keyset :=
  match lines with
  | [] => Ok done
  | line :: later =>
      match Json.loads line with
      | None => load_lines later done
      | Some obj =>
          model <- Val.getitem obj "Model" ;;
          temperature <- Val.getitem obj "Temperature" ;;
          question_ind <- Val.getitem obj "Question_ind" ;;
          done' <- Val.set_add (model, temperature, question_ind) done ;;
          load_lines later done'
      end
  end.

Definition load_done (f : Utils.file) : res Val.keyset :=
  match f with
  | None => Ok []
  | Some lines => load_lines lines []
  end.

(** The f-string of the correlation id. *)
Definition custom_id (qid model setting : json) : pystr :=
  Val.to_str qid ++ [124%N] ++ Val.to_str model ++ [124%N] ++ Val.to_str setting.

Definition MODEL_NAME : pystr := str "gpt-4o-mini".

(** One request of the batch. *)
Definition request (cid : pystr) (prompt : pystr) : json :=
  JObj [(str "custom_id", JStr cid);
        (str "method", JStr (str "POST"));
        (str "url", JStr (str "/v1/chat/completions"));
        (str "body",
         JObj [(str "model", JStr MODEL_NAME);
               (str "seed", JInt 10);
               (str "temperature", JInt 0);
               (str "max_tokens", JInt 1000);
               (str "logprobs", JBool true);
               (str "top_logprobs", JInt 5);
               (str "messages",
                JArr [JObj [(str "role", JStr (str "system"));
                            (str "content",
                             JStr (str "You are a helpful and honest evaluator."))];
                      JObj [(str "role", JStr (str "user"));
                            (str "content", JStr prompt)]])])].

Variable e : env.
Variable already_done : Val.keyset.

(** The body of the loop for a row that is not skipped. *)
Definition build_request (row : json) : res json :=
  qid <- Val.getitem row "qid" ;;
  qrec <- truth_ds e qid ;;
  model <- Val.getitem row "model" ;;
  setting <- Val.getitem row "setting" ;;
  question <- Val.getitem qrec "question" ;;
  best_answer <- Val.getitem qrec "best_answer" ;;
  correct_answers <- Val.getitem qrec "correct_answers" ;;
  incorrect_answers <- Val.getitem qrec "incorrect_answers" ;;
  answer <- Val.getitem row "answer" ;;
  prompt <- build_prompt e question best_answer correct_answers
              incorrect_answers answer ;;
  Ok (request (custom_id qid model setting) prompt).

(** The loop that fills [requests]. *)
Fixpoint fill_requests (answers_list : list json) (requests : list json)
  : res (list json) :=
  match answers_list with
  | [] => Ok requests
  | row :: later =>
      if (LIMIT e <=? Z.of_nat (List.length requests))%Z then Ok requests
      else
        model <- Val.getitem row "model" ;;
        temperature <- Val.getitem row "temperature" ;;
        qid <- Val.getitem row "qid" ;;
        present <- Val.set_contains (model, temperature, qid) already_done ;;
        if present then fill_requests later requests
        else
          r <- build_request row ;;
          fill_requests later (requests ++ [r])
  end.

End Script.

Section Main.
Context {RT : PyRuntime}.

(** The script up to the upload of the request file, which is written
    as UTF-8. *)
Definition main (e : env) (output_file : Utils.file) : outcome :=
  match api_key e with
  | None | Some [] => Uncaught RuntimeError
  | Some _ =>
      match Val.traverse Poll.loads_or_raise (answers_file e) with
      | Raise x => Uncaught x
      | Ok answers_list =>
          match load_done output_file with
          | Raise x => Uncaught x
          | Ok already_done =>
              match fill_requests e already_done answers_list [] with
              | Raise x => Uncaught x
              | Ok [] => NothingToEvaluate
              | Ok requests =>
                  if forallb (fun r => Py.encodes (Json.dumps r)) requests
                  then Sent requests
                  else Uncaught UnicodeEncodeError
              end
          end
      end
  end.

End Main.
End Submit.

(* ===================================================================== *)
(** ** A reference runtime

    CPython 3.11 on text whose code points above U+007F are the letters
    U+0130 and U+0131 and the arrow U+2192: the two letters are
    alphanumeric and the arrow is not, none of them is a digit, and
    [str.lower] maps U+0130 to [i] followed by U+0307 and leaves the other
    two as they are. [float.__repr__] is the shortest decimal that reads
    back as the same float. *)

Module Ref.

(** The value [m * 2^e] as a fraction. *)
Definition fraction (m : positive) (e : Z) : Z * Z :=
  match e with
  | Zneg k => (Zpos m, Z.pow_pos 2 k)
  | _ => (Zpos m * 2 ^ e, 1)%Z
  end.

(** The least [j] from [j0] on with [b <= a * 10^(j+1)], for [a/b < 1]. *)
Fixpoint leading_zeros (fuel : nat) (j : Z) (a b : Z) : Z :=
  match fuel with
  | O => j
  | S f => if (b <=? a * 10 ^ (j + 1))%Z then j else leading_zeros f (j + 1)%Z a b
  end.

(** The [k] with [10^(k-1) <= a/b < 10^k]. *)
Definition decimal_point (a b : Z) : Z :=
  if (b <=? a)%Z
  then Z.of_nat (List.length (Num.str_of_int (a / b)))
  else (- leading_zeros 400 0 a b)%Z.

(** The decimals of [n] digits next to [a/b]: the one below with the
    comparison of the remainder with one half, and the one above. *)
Definition neighbours (a b k : Z) (n : Z) : Z * comparison * Z :=
  let '(num, den) :=
    if (0 <=? n - k)%Z then (a * 10 ^ (n - k), b)%Z else (a, b * 10 ^ (k - n))%Z in
  let q := (num / den)%Z in
  let r := (num mod den)%Z in
  (q, (2 * r ?= den)%Z, (q + 1)%Z).

Definition same_float (f g : spec_float) : bool :=
  match f, g with
  | S754_finite s m e, S754_finite s' m' e' =>
      Bool.eqb s s' && Pos.eqb m m' && Z.eqb e e'
  | _, _ => false
  end.

(** The shortest digits that read back as [m * 2^e], from [n] digits on:
    the digits as a number and the exponent of ten that goes with them. *)
Fixpoint shortest (fuel : nat) (n : Z) (m : positive) (e : Z) (a b k : Z) : Z * Z :=
  let '(lo, half, hi) := neighbours a b k n in
  let ok d := same_float (Num.float_of_decimal false d (k - n)) (S754_finite false m e) in
  match fuel with
  | O => (lo, k - n)%Z
  | S f =>
      match ok lo, ok hi with
      | true, true =>
          match half with
          | Lt => (lo, k - n)%Z
          | Gt => (hi, k - n)%Z
          | Eq => (if Z.even lo then lo else hi, k - n)%Z
          end
      | true, false => (lo, k - n)%Z
      | false, true => (hi, k - n)%Z
      | false, false => shortest f (n + 1)%Z m e a b k
      end
  end.

(** Digits without the zeros at their end, over the exponent they have
    then. *)
Fixpoint drop_zeros (fuel : nat) (d e : Z) : Z * Z :=
  match fuel with
  | O => (d, e)
  | S f => if (d mod 10 =? 0)%Z then drop_zeros f (d / 10)%Z (e + 1)%Z else (d, e)
  end.

Definition zeros (n : Z) : pystr := repeat 48%N (Z.to_nat n).

Definition two_digits (x : Z) : pystr :=
  if (x <? 10)%Z then 48%N :: Num.str_of_int x else Num.str_of_int x.

(** The text of a positive float from its digits [ds] and the place
    [decpt] of its point, as [repr] lays it out. *)
Definition layout (ds : pystr) (decpt : Z) : pystr :=
  let n := Z.of_nat (List.length ds) in
  if ((decpt <=? -4) || (16 <? decpt))%Z then
    let mant :=
      match ds with
      | d :: (_ :: _) as more => d :: 46%N :: more
      | _ => ds
      end in
    let x := (decpt - 1)%Z in
    mant ++ [101%N]
      ++ (if (x <? 0)%Z then 45%N :: two_digits (- x) else 43%N :: two_digits x)
  else if (decpt <=? 0)%Z then str "0." ++ zeros (- decpt) ++ ds
  else if (n <=? decpt)%Z then ds ++ zeros (decpt - n) ++ str ".0"
  else firstn (Z.to_nat decpt) ds ++ [46%N] ++ skipn (Z.to_nat decpt) ds.

Definition repr_float (f : spec_float) : pystr :=
  match f with
  | S754_zero false => str "0.0"
  | S754_zero true => str "-0.0"
  | S754_finite s m e =>
      let '(a, b) := fraction m e in
      let k := decimal_point a b in
      let '(d, x) := shortest 17 1 m e a b k in
      let '(d', x') := drop_zeros 17 d x in
      let ds := Num.str_of_int d' in
      (if s then [45%N] else []) ++ layout ds (x' + Z.of_nat (List.length ds))
  | S754_infinity false => str "inf"
  | S754_infinity true => str "-inf"
  | S754_nan => str "nan"
  end.

Definition lower_str (s : pystr) : pystr :=
  flat_map (fun c => if (c =? 304)%N then [105; 775]%N else [Py.lower_ascii c]) s.

(** [repr] of a [str]: in single quotes, or in double quotes when it
    holds a single quote and no double quote. *)
Definition repr_char (quote : N) (c : N) : pystr :=
  if ((c =? quote) || (c =? 92))%N then [92%N; c]
  else if (c =? 10)%N then [92; 110]%N
  else if (c =? 13)%N then [92; 114]%N
  else if (c =? 9)%N then [92; 116]%N
  else if ((c <? 32) || (c =? 127))%N
       then [92; 120; Json.hexdigit (c / 16); Json.hexdigit (c mod 16)]%N
  else [c].

Definition repr_str (s : pystr) : pystr :=
  let quote :=
    if existsb (N.eqb 39) s && negb (existsb (N.eqb 34) s) then 34%N else 39%N in
  quote :: flat_map (repr_char quote) s ++ [quote].

(** [repr] of a value. *)
Fixpoint repr (v : json) : pystr :=
  match v with
  | JNull => str "None"
  | JBool true => str "True"
  | JBool false => str "False"
  | JInt z => Num.str_of_int z
  | JFloat f => repr_float f
  | JStr s => repr_str s
  | JArr l => [91%N] ++ Json.join (str ", ") (map repr l) ++ [93%N]
  | JObj kvs =>
      [123%N]
      ++ Json.join (str ", ")
           (map (fun kv => repr_str (fst kv) ++ str ": " ++ repr (snd kv)) kvs)
      ++ [125%N]
  end.

Definition runtime : PyRuntime := {|
  uni_isalnum := fun c => ((c =? 304) || (c =? 305))%N;
  uni_lower := lower_str;
  uni_decimal := fun _ => None;
  float_repr := repr_float;
  container_str := repr
|}.

(** A JSON text written with the apostrophe for the double quote. *)
Definition js (s : string) : pystr :=
  map (fun c => if (c =? 39)%N then 34%N else c) (str s).

End Ref.

(* ===================================================================== *)
(** ** Notions the statements use *)

Module Spec.


(** The judge text of a batch result, as the merge loop reads it. *)
Definition judge_text (rec : json) : res pystr :=
  response <- Val.getitem rec "response" ;;
  body <- Val.getitem response "body" ;;
  choices <- Val.getitem body "choices" ;;
  choice <- Val.getitem0 choices ;;
  message <- Val.getitem choice "message" ;;
  content <- Val.getitem message "content" ;;
  Poll.clean_content content.

(** [chosen] is [rows] with some rows left out. *)
Inductive subseq {A : Type} : list A -> list A -> Prop :=
| subseq_nil : forall rows, subseq [] rows
| subseq_take : forall x chosen rows,
    subseq chosen rows -> subseq (x :: chosen) (x :: rows)
| subseq_skip : forall x chosen rows,
    subseq chosen rows -> subseq chosen (x :: rows).

(** The identity of an answer as the submitter forms it. *)
Definition answer_identity (row : json) : res Val.key :=
  model <- Val.getitem row "model" ;;
  temperature <- Val.getitem row "temperature" ;;
  qid <- Val.getitem row "qid" ;;
  Ok (model, temperature, qid).

(** The identity of a record of the log as the submitter forms it. *)
Definition record_identity (obj : json) : res Val.key :=
  model <- Val.getitem obj "Model" ;;
  temperature <- Val.getitem obj "Temperature" ;;
  question_ind <- Val.getitem obj "Question_ind" ;;
  Ok (model, temperature, question_ind).

(** An answer whose identity is not in the set of the evaluated ones. *)
Definition unevaluated (already_done : Val.keyset) (row : json) : Prop :=
  exists k, answer_identity row = Ok k /\ Val.set_contains k already_done = Ok false.

(** The test of the submitter's loop as a function: the answer has an
    identity, and the set of the evaluated ones does not hold it. *)
Definition fresh (already_done : Val.keyset) (row : json) : bool :=
  match answer_identity row with
  | Ok k =>
      match Val.set_contains k already_done with
      | Ok present => negb present
      | Raise _ => false
      end
  | Raise _ => false
  end.

(** An answer whose identity is in the set of the evaluated ones. *)
Definition evaluated (already_done : Val.keyset) (row : json) : Prop :=
  exists k, answer_identity row = Ok k /\ Val.set_contains k already_done = Ok true.

(** The identity of an answer as the pollers index it. *)
Definition index_identity (row : json) : res Val.key :=
  qid <- Val.getitem row "qid" ;;
  model <- Val.getitem row "model" ;;
  setting <- Val.getitem row "setting" ;;
  Ok (qid, model, setting).

(** An identity made of an integer and two strings, and an answer that
    has one. *)
Definition typed_key (k : Val.key) : Prop :=
  exists z model setting, k = (JInt z, JStr model, JStr setting).

Definition typed_answer (row : json) : Prop :=
  exists k, index_identity row = Ok k /\ typed_key k.

(** An answer with an integer question id, whose model and setting are
    strings without the separator of the correlation id. *)
Definition plain_answer (row : json) : Prop :=
  exists z model setting,
    index_identity row = Ok (JInt z, JStr model, JStr setting)
    /\ ~ In 124%N model /\ ~ In 124%N setting.

(** The last of the rows that has the identity [k]. *)
Fixpoint last_with (k : Val.key) (rows : list json) : option json :=
  match rows with
  | [] => None
  | row :: later =>
      match last_with k later with
      | Some r => Some r
      | None =>
          match index_identity row with
          | Ok k' => if Val.key_eqb k k' then Some row else None
          | Raise _ => None
          end
      end
  end.

(** *** What is written to the log and read back *)

(** A text before which a number ends: it starts with none of the
    characters a number can go on with. *)
Definition number_ends (rest : pystr) : Prop :=
  match rest with
  | [] => True
  | c :: _ =>
      (Py.is_digit_ascii c || (c =? 46) || (c =? 101) || (c =? 69))%N = false
  end.

(** The same float, bit for bit. *)
Definition float_is (f g : spec_float) : bool :=
  match f, g with
  | S754_zero s, S754_zero s' => Bool.eqb s s'
  | S754_infinity s, S754_infinity s' => Bool.eqb s s'
  | S754_nan, S754_nan => true
  | S754_finite s m e, S754_finite s' m' e' =>
      Bool.eqb s s' && Pos.eqb m m' && Z.eqb e e'
  | _, _ => false
  end.

(** The characters a number of JSON is written with. *)
Definition numeric (c : N) : Prop :=
  Py.is_digit_ascii c = true \/ c = 43%N \/ c = 45%N \/ c = 46%N
  \/ c = 69%N \/ c = 101%N.

(** A text without control characters (below U+0020), and so without a
    line break within it. *)
Definition one_line (s : pystr) : Prop :=
  Forall (fun c => (32 <= c)%N) s.

Fixpoint distinct (ks : list pystr) : bool :=
  match ks with
  | [] => true
  | k :: ks' => negb (existsb (str_eqb k) ks') && distinct ks'
  end.

(** A value in which every dict holds each of its keys once, as the
    values of Python do. *)
Fixpoint keys_once (v : json) : bool :=
  match v with
  | JArr l => forallb keys_once l
  | JObj kvs =>
      distinct (map fst kvs) && forallb (fun kv => keys_once (snd kv)) kvs
  | _ => true
  end.

Section WithRuntime.
Context {RT : PyRuntime}.

(** The text [float.__repr__] gives for a finite float is a number of
    JSON whose value is that float: what Python promises of [repr]. *)
Definition float_reads_back (f : spec_float) : bool :=
  match f with
  | S754_nan | S754_infinity _ => true
  | _ =>
      match Json.match_number (float_repr f) with
      | Some (JFloat g, []) => float_is f g
      | _ => false
      end
  end.

(** A value all of whose floats are read back from their text. *)
Fixpoint floats_read_back (v : json) : bool :=
  match v with
  | JFloat f => float_reads_back f
  | JArr l => forallb floats_read_back l
  | JObj kvs => forallb (fun kv => floats_read_back (snd kv)) kvs
  | _ => true
  end.

(** A value that [json.loads] reads back from what [json.dumps] writes
    for it ([loads_dumps] below). *)
Definition round_trips (v : json) : bool :=
  keys_once v && floats_read_back v.

(** A line of the answers file whose floats are read back from their
    text, and whose temperature equals itself (is not NaN). *)
Definition answer_reads_back (line : pystr) : Prop :=
  forall row,
    Json.loads line = Some row ->
    floats_read_back row = true
    /\ forall t, Val.getitem row "temperature" = Ok t -> Val.eqb t t = true.

(** A line of the batch output whose floats are read back from their
    text. *)
Definition result_reads_back (line : pystr) : Prop :=
  forall rec, Json.loads line = Some rec -> floats_read_back rec = true.

(** The scanner reads [v] from what [dumps] wrote for it, before any text
    that ends a number. *)
Definition reads (v : json) : Prop :=
  forall rest, number_ends rest ->
  exists fuel, Json.scan_once fuel (Json.dumps v ++ rest) = Json.POk v rest.

(** A member of a dict as [dumps] writes it. *)
Definition member (kv : pystr * json) : pystr :=
  Json.encode_basestring (fst kv) ++ str ": " ++ Json.dumps (snd kv).

(** The identity of a record of the log as the pollers form it. *)
Definition done_key (rec : json) : res Val.key :=
  model <- Val.getitem rec "Model" ;;
  temperature <- Val.getitem rec "Temperature" ;;
  question_ind <- Val.getitem rec "Question_ind" ;;
  Ok (model, temperature, JStr (Val.to_str question_ind)).

(** The identity (model, temperature, question id) the merge loop forms
    for a batch result. *)
Definition result_key (answers_index : Val.keydict) (line : pystr) : res Val.key :=
  rec <- Poll.loads_or_raise line ;;
  custom_id <- Val.getitem rec "custom_id" ;;
  '(qid, model, setting) <- Poll.split_custom_id custom_id ;;
  int_qid <- Num.int_of_str qid ;;
  row <- Val.keydict_get (JInt int_qid, JStr model, JStr setting) answers_index ;;
  temperature <- Val.getitem row "temperature" ;;
  Ok (JStr model, temperature, JStr qid).

(** The answer a batch result belongs to: the row the merge loop looks
    up in the index under the correlation id of the result. *)
Definition result_row (answers_index : Val.keydict) (line : pystr) : res json :=
  rec <- Poll.loads_or_raise line ;;
  custom_id <- Val.getitem rec "custom_id" ;;
  '(qid, model, setting) <- Poll.split_custom_id custom_id ;;
  int_qid <- Num.int_of_str qid ;;
  Val.keydict_get (JInt int_qid, JStr model, JStr setting) answers_index.

(** A batch result whose correlation id starts, as the ids the submitter
    writes do, with the text [str()] gives for an integer. *)
Definition submitter_id (line : pystr) : Prop :=
  forall rec cid,
    Json.loads line = Some rec ->
    Val.getitem rec "custom_id" = Ok (JStr cid) ->
    exists z rest, cid = Num.str_of_int z ++ 124%N :: rest.

(** A record that [json.loads] reads back from what [json.dumps] wrote
    for it, and whose temperature equals itself (is not NaN). *)
Definition reads_back (record : json) : Prop :=
  Json.loads (Json.dumps record) = Some record
  /\ exists t, Val.getitem record "Temperature" = Ok t /\ Val.eqb t t = true.

(** Every record the run of a poller on [output_file] makes is read back. *)
Definition run_reads_back (qid_to_category : Z -> option pystr)
    (extract_label : pystr -> res (option pystr)) (e : Poll.env)
    (output_file : Utils.file) : Prop :=
  forall answers_index already_done line record,
    Poll.index_answers (Poll.answers_file e) [] = Ok answers_index ->
    Poll.load_done output_file = Ok already_done ->
    In line (Poll.batch_output e) ->
    Poll.new_record qid_to_category extract_label answers_index already_done line
    = Ok (Some record) ->
    reads_back record.

(** An entry of the list [normalise_logprobs] returns, beside the entry
    of the [content] list it was made from: the same token and
    log-probability, and one alternative for each of the entry's
    alternatives, in their order, with the same token. *)
Definition cleaned_from (entry cleaned_entry : json) : Prop :=
  exists token logprob top_logprobs alts top_alts,
    Val.getitem entry "token" = Ok token
    /\ Val.getitem entry "logprob" = Ok logprob
    /\ Val.getitem entry "top_logprobs" = Ok top_logprobs
    /\ Val.iterate top_logprobs = Ok alts
    /\ cleaned_entry = JObj [(str "token", token);
                             (str "logprob", logprob);
                             (str "top_alts", JArr top_alts)]
    /\ Forall2 (fun alt top_alt =>
                  exists alt_token,
                    Val.getitem alt "token" = Ok alt_token
                    /\ Val.getitem top_alt "token" = Ok alt_token)
         alts top_alts.

(** What [load_done] of a script does on a log, where [identity] is the
    identity the script forms for a record and [read] tells which lines it
    reads records from: it returns exactly when every line it reads holds a
    record with a hashable identity; the members of the set it returns are
    identities of records of the log; and the identity of every record of
    the log, as far as it equals itself, is found in the set. *)
Definition holds_identities (load_done : Utils.file -> res Val.keyset)
    (identity : json -> res Val.key) (read : pystr -> Prop)
    (lines : list pystr) : Prop :=
  ((exists done, load_done (Some lines) = Ok done)
   <-> Forall (fun line =>
                 read line ->
                 exists rec k,
                   Json.loads line = Some rec /\ identity rec = Ok k
                   /\ Val.key_hashable k = true) lines)
  /\ forall done,
       load_done (Some lines) = Ok done ->
       (forall k, In k done ->
          exists line rec,
            In line lines /\ Json.loads line = Some rec /\ identity rec = Ok k)
       /\ (forall line rec k,
             In line lines -> Json.loads line = Some rec -> identity rec = Ok k ->
             Val.key_eqb k k = true -> Val.set_contains k done = Ok true).

(** Whether a line is a JSON document. *)
Definition is_json (line : pystr) : bool :=
  match Json.loads line with
  | Some _ => true
  | None => false
  end.

(** The record is the one a turn of the merge loop makes from a batch
    result whose judge text has a label: it holds the text and the label. *)
Definition labelled_by (extract_label : pystr -> res (option pystr))
    (line : pystr) (record : json) : Prop :=
  exists rec eval_txt label,
    Json.loads line = Some rec
    /\ judge_text rec = Ok eval_txt
    /\ extract_label eval_txt = Ok (Some label)
    /\ Val.getitem record "Evaluation" = Ok (JStr eval_txt)
    /\ Val.getitem record "classification" = Ok (JStr label).

(** What a run of a poller does to the log: it appends the records of
    some of the batch results, in their order, one line each, and the
    number it reports at its end is the number of these lines. *)
Definition only_appends (extract_label : pystr -> res (option pystr))
    (results : list pystr) (before : Utils.file)
    (run : Poll.outcome * Utils.file) : Prop :=
  exists chosen records,
    subseq chosen results
    /\ Forall2 (labelled_by extract_label) chosen records
    /\ Utils.lines_of (snd run)
       = Utils.lines_of before ++ map Json.dumps records
    /\ forall added, fst run = Poll.Appended added ->
         added = List.length records.

(** The records the turns of the merge loop make for the batch results,
    in their order, with the set of the evaluated answers as it is when the
    loop starts. *)
Definition records_of (qid_to_category : Z -> option pystr)
    (extract_label : pystr -> res (option pystr))
    (answers_index : Val.keydict) (already_done : Val.keyset)
    (results : list pystr) : list json :=
  flat_map (fun line =>
              match Poll.new_record qid_to_category extract_label
                      answers_index already_done line with
              | Ok (Some record) => [record]
              | _ => []
              end) results.

(** What a run adds to the log is lines the log did not hold. *)
Definition appends_new_lines (before : Utils.file)
    (run : Poll.outcome * Utils.file) : Prop :=
  exists new,
    Utils.lines_of (snd run) = Utils.lines_of before ++ new
    /\ forall line, In line new -> ~ In line (Utils.lines_of before).

(** The file after the records are appended to it one by one. *)
Definition append_all (records : list json) (f : Utils.file) : Utils.file :=
  match records with
  | [] => f
  | _ :: _ => Some (Utils.lines_of f ++ map Json.dumps records)
  end.

End WithRuntime.

(** *** The shapes of a judge text *)

Definition keyword (kw : pystr) : Prop :=
  kw = Pat.truthful \/ kw = Pat.hallucinated.

(** [K] is the word [w] written in upper and lower case ASCII letters. *)
Definition spelling (w K : pystr) : Prop :=
  Forall2 (fun l c => c = l \/ c = (l - 32)%N) w K.

(** A word in lower case ASCII letters. *)
Definition lowercase (w : pystr) : Prop :=
  Forall (fun l => Py.is_lower_ascii l = true) w.

Definition spaces (ws : pystr) : Prop :=
  Forall (fun c => Py.isspace c = true) ws.

(** The pattern matched, and the group holds [K] however it matched. *)
Definition matched_with (K : pystr) (results : list Re.mstate) : Prop :=
  results <> [] /\ forall st, In st results -> Re.grp st = Some K.

(** A string of characters of the set [cs]. *)
Definition among (cs : pystr) (s : pystr) : Prop :=
  Forall (fun c => Re.oneof cs c = true) s.

(** The character before the position after [run], when [pv] is the one
    before [run]. *)
Definition last_of (pv : option N) (run : pystr) : option N :=
  fold_left (fun _ c => Some c) run pv.

(** A pattern every match of which goes through the group. *)
Fixpoint has_group (r : Re.regex) : bool :=
  match r with
  | Re.Grp _ => true
  | Re.Cat r1 r2 => has_group r1 || has_group r2
  | Re.Alt r1 r2 => has_group r1 && has_group r2
  | _ => false
  end.

(** A pattern whose only group is the group of the two keywords. *)
Fixpoint keyword_groups (r : Re.regex) : Prop :=
  match r with
  | Re.Grp r1 => r1 = Re.Alt (Re.lit Pat.truthful) (Re.lit Pat.hallucinated)
  | Re.Cat r1 r2 | Re.Alt r1 r2 => keyword_groups r1 /\ keyword_groups r2
  | _ => True
  end.

(** [K] is the word [w] as a pattern under [re.I] reads it. *)
Definition reads_as (w K : pystr) : Prop :=
  Forall2 (fun l c => Re.ci l c = true) w K.

(** [K] is a part of the text. *)
Definition occurs_in (K txt : pystr) : Prop :=
  exists pre post, txt = pre ++ K ++ post.

(** A text without the letters U+0130 and U+0131. *)
Definition plain_i (txt : pystr) : Prop :=
  Forall (fun c => c <> 304%N /\ c <> 305%N) txt.

(** A batch result whose judge text, as the merge loop reads it, is
    without the letters U+0130 and U+0131. *)
Definition plain_judge_text (line : pystr) : Prop :=
  forall rec eval_txt,
    Json.loads line = Some rec -> judge_text rec = Ok eval_txt ->
    plain_i eval_txt.

Section Shapes.
Context {RT : PyRuntime}.

(** The label [l] is a keyword found in the text, in lower case. *)
Definition label_from (txt l : pystr) : Prop :=
  exists kw K,
    keyword kw /\ reads_as kw K /\ occurs_in K txt /\ l = Py.lower K.

(** A result of [extract_label] that is [None] or one of the keywords. *)
Definition verdict (r : res (option pystr)) : Prop :=
  r = Ok None \/ r = Ok (Some Pat.truthful) \/ r = Ok (Some Pat.hallucinated).

(** No word character before the position; none after the word. *)
Definition word_starts (pre : pystr) : Prop :=
  Re.word_at (last_of None pre) = false.

Definition word_ends (post : pystr) : Prop :=
  Re.word_at (hd_error post) = false.

(** The pattern [r] matches at none of the positions of [pre], in the text
    [pre ++ rest] that comes after the character [pv]. *)
Fixpoint unmatched (r : Re.regex) (pv : option N) (pre rest : pystr) : Prop :=
  match pre with
  | [] => True
  | c :: pre' =>
      Re.rmatch r (Re.MState pv (pre ++ rest) None) = []
      /\ unmatched r (Some c) pre' rest
  end.

(** The text is a JSON object whose label is a string that, stripped and
    in lower case, is [kw]. *)
Definition json_labelled (kw txt : pystr) : Prop :=
  exists kvs l,
    Json.loads txt = Some (JObj kvs)
    /\ Json.dict_get (str "label") kvs = Some (JStr l)
    /\ Py.lower (Py.strip l) = kw.

(** The text has, at its first match of the label pattern, the word
    "label", a colon or an equals sign, optional quotes, and the keyword
    [kw] in some spelling, with white space allowed in between. *)
Definition label_line (kw txt : pystr) : Prop :=
  exists pre L ws1 sep ws2 quotes ws3 K post,
    txt = pre ++ L ++ ws1 ++ sep :: ws2 ++ quotes ++ ws3 ++ K ++ post
    /\ word_starts pre
    /\ spelling (str "label") L
    /\ spaces ws1 /\ Re.oneof (str ":=") sep = true
    /\ spaces ws2 /\ among [39; 34; 96]%N quotes /\ spaces ws3
    /\ spelling kw K
    /\ word_ends post
    /\ unmatched Pat.label_line None pre
         (L ++ ws1 ++ sep :: ws2 ++ quotes ++ ws3 ++ K ++ post).

(** The first arrow of the text is followed by the keyword [kw] in some
    spelling, with optional white space and markdown marks in between. *)
Definition arrow_decorated (kw txt : pystr) : Prop :=
  exists pre ws1 marks ws2 K post,
    txt = pre ++ Pat.arrow :: ws1 ++ marks ++ ws2 ++ K ++ post
    /\ ~ In Pat.arrow pre
    /\ spaces ws1 /\ among (str "*_`~") marks /\ spaces ws2
    /\ spelling kw K
    /\ word_ends post.

(** The first standalone keyword of the text is [kw] in some spelling. *)
Definition bare_keyword (kw txt : pystr) : Prop :=
  exists pre K post,
    txt = pre ++ K ++ post
    /\ word_starts pre
    /\ spelling kw K
    /\ word_ends post
    /\ unmatched Pat.word None pre (K ++ post).

(** The order of the specification: the JSON label, the label pattern,
    the arrow pattern, the first standalone keyword. *)
Definition extract_label_in_spec_order (eval_txt : pystr) : res (option pystr) :=
  match PollTruthP2.label_of_json eval_txt with
  | Some r => r
  | None =>
      match Re.search Pat.label_line eval_txt with
      | Some m => Pat.group1_lower m
      | None =>
          match Re.search Pat.arrow_label eval_txt with
          | Some m => Pat.group1_lower m
          | None =>
              match Re.search Pat.word eval_txt with
              | Some m => Pat.group1_lower m
              | None => Ok None
              end
          end
      end
  end.

End Shapes.

End Spec.

(* ===================================================================== *)
(** ** Sample data *)

Module Examples.

(** A line of the evaluation log. *)
Definition log_line : pystr :=
  Ref.js "{'Question_ind': 7, 'Model': 'm1', 'Temperature': 0.7}".

(** A line that is not JSON, and a JSON line without the key fields. *)
Definition not_json : pystr := str "oops".
Definition no_fields : pystr := str "{}".

(** Judge texts. *)
Definition json_number_label : pystr := Ref.js "{'label': 5}".
Definition json_other_label : pystr := Ref.js "{'label': 'Maybe'}".
Definition dotless_i : pystr := str "halluc" ++ [305%N] ++ str "nated".

(** A [logprobs] object with one token and one alternative. *)
Definition logprobs_text : pystr :=
  Ref.js "{'content': [{'token': 'LABEL', 'logprob': -0.5, 'top_logprobs': [{'token': 'Label', 'logprob': -1.5}]}]}".

Definition minus_one_and_a_half : json := JFloat (S754_finite true 6755399441055744 (-52)).
Definition minus_half : json := JFloat (S754_finite true 4503599627370496 (-53)).

(** Two answers, the results of the batch for them, and the categories of
    the data set. *)
Definition answers_file : list pystr :=
  [Ref.js "{'qid': 7, 'model': 'm1', 'setting': 'warm', 'temperature': 0.7, 'answer': 'Nothing happens.'}";
   Ref.js "{'qid': 8, 'model': 'm1', 'setting': 'warm', 'temperature': 0.7, 'answer': 'You get sick.'}"].

Definition labelled_result : pystr :=
  Ref.js "{'custom_id': '7|m1|warm', 'response': {'body': {'choices': [{'message': {'content': 'All claims are supported. LABEL: Truthful'}, 'logprobs': {'content': [{'token': 'LABEL', 'logprob': -0.5, 'top_logprobs': [{'token': 'Label', 'logprob': -1.5}]}]}}]}}}".

Definition unlabelled_result : pystr :=
  Ref.js "{'custom_id': '8|m1|warm', 'response': {'body': {'choices': [{'message': {'content': 'I cannot tell.'}, 'logprobs': {}}]}}}".

Definition batch_output : list pystr := [labelled_result; unlabelled_result].

Definition categories (qid : Z) : option pystr :=
  if (qid =? 7)%Z then Some (str "Nutrition") else None.


Definition completed_job : Poll.env :=
  Poll.Env (Some (str "sk-test")) answers_file
    [str "in_progress"; str "completed"] batch_output.

(** The index of [answers_file]. *)
Definition answers_index : Val.keydict :=
  match Poll.index_answers answers_file [] with
  | Ok index => index
  | Raise _ => []
  end.

(** A log with the evaluation of the first answer, and a submitter with
    room for one request. *)
Definition log_with_first : Utils.file :=
  Some [Ref.js "{'Question_ind': 7, 'Evaluation': 'LABEL: Truthful', 'Model': 'm1', 'Temperature': 0.7, 'classification': 'truthful'}"].

Definition question : json :=
  JObj [(str "question", JStr (str "What happens if you eat watermelon seeds?"));
        (str "best_answer", JStr (str "The seeds pass through you."));
        (str "correct_answers", JArr [JStr (str "Nothing happens.")]);
        (str "incorrect_answers", JArr [JStr (str "You get sick.")])].

Definition submitter : Submit.env :=
  Submit.Env (Some (str "sk-test")) 1 answers_file
    (fun _ => Ok question)
    (fun _ _ _ _ _ => Ok (str "You are a fact-checking judge."))%string.

(** The same submitter with no room. *)
Definition idle_submitter : Submit.env :=
  Submit.Env (Some (str "sk-test")) 0 answers_file
    (fun _ => Ok question)
    (fun _ _ _ _ _ => Ok (str "You are a fact-checking judge."))%string.

Definition second_request : json :=
  Submit.request (str "8|m1|warm") (str "You are a fact-checking judge.").

(** The rows of [answers_file], and an answer whose model has the
    separator in its name. *)
Definition answers_list : list json :=
  match Val.traverse Poll.loads_or_raise answers_file with
  | Ok rows => rows
  | Raise _ => []
  end.

Definition second_answer : json := nth 1 answers_list JNull.

Definition bar_answer : json :=
  match Json.loads (Ref.js "{'qid': 7, 'model': 'a|b', 'setting': 'warm', 'temperature': 0.7, 'answer': 'Nothing happens.'}") with
  | Some row => row
  | None => JNull
  end.

Definition bar_request : json :=
  Submit.request (str "7|a|b|warm") (str "You are a fact-checking judge.").

(** The record the merge loop makes for [labelled_result], and a second
    result for the same answer with another verdict. *)
Definition first_record : json :=
  match Poll.new_record (RT := Ref.runtime) categories
          (PollTruthqaBatches.extract_label (RT := Ref.runtime))
          answers_index [] labelled_result with
  | Ok (Some record) => record
  | _ => JNull
  end.




(** Two settings of one model at the same temperature, and a batch with
    the results for both. *)
Definition twin_answers : list pystr :=
  [Ref.js "{'qid': 7, 'model': 'm1', 'setting': 'warm', 'temperature': 0.7, 'answer': 'Nothing happens.'}";
   Ref.js "{'qid': 7, 'model': 'm1', 'setting': 'warm-top-p', 'temperature': 0.7, 'answer': 'You get sick.'}"].

Definition twin_results : list pystr :=
  [Ref.js "{'custom_id': '7|m1|warm', 'response': {'body': {'choices': [{'message': {'content': 'LABEL: Truthful'}, 'logprobs': {}}]}}}";
   Ref.js "{'custom_id': '7|m1|warm-top-p', 'response': {'body': {'choices': [{'message': {'content': 'LABEL: Hallucinated'}, 'logprobs': {}}]}}}"].

Definition twin_job : Poll.env :=
  Poll.Env (Some (str "sk-test")) twin_answers [str "completed"] twin_results.


Definition twin_log : list pystr :=
  [Ref.js "{'Question_ind': 7, 'Evaluation': 'LABEL: Truthful', 'Model': 'm1', 'Temperature': 0.7, 'Candidate Answer': 'Nothing happens.', 'judge_tokens': [], 'classification': 'truthful', 'Category': 'Nutrition'}";
   Ref.js "{'Question_ind': 7, 'Evaluation': 'LABEL: Hallucinated', 'Model': 'm1', 'Temperature': 0.7, 'Candidate Answer': 'You get sick.', 'judge_tokens': [], 'classification': 'hallucinated', 'Category': 'Nutrition'}"].







(** The log after the first run on [completed_job]. *)
Definition first_log : Utils.file :=
  Some [Json.dumps (RT := Ref.runtime) first_record].

(** A log that holds the evaluation of the second answer. *)
Definition log_with_second : Utils.file :=
  Some [Ref.js "{'Question_ind': 8, 'Evaluation': 'LABEL: Truthful', 'Model': 'm1', 'Temperature': 0.7, 'classification': 'truthful'}"].

(** Judge texts of the four shapes, and texts in which two heuristics
    disagree. *)
Definition json_text : pystr := Ref.js "{'label': ' Truthful ', 'why': 'all claims hold'}".
Definition label_text : pystr := str "Fine. LABEL: 'Hallucinated'.".
Definition arrow_text : pystr := str "So " ++ [Pat.arrow] ++ str " **Truthful** indeed".
Definition bare_text : pystr := str "It is truthful.".
Definition json_with_other_word : pystr :=
  Ref.js "{'why': 'nothing is hallucinated', 'label': 'truthful'}".
Definition label_after_other_word : pystr :=
  str "Nothing is hallucinated. LABEL: Truthful".

End Examples.

(* ===================================================================== *)
(** ** Exceptions and the steps of a script *)

Unset Implicit Arguments.

Lemma str_eqb_eq (a b : pystr) : str_eqb a b = true <-> a = b.
Proof.
  revert b. induction a as [| x a IH]; intros [| y b]; simpl;
    try (split; [discriminate | discriminate]); [tauto |].
  rewrite andb_true_iff, N.eqb_eq, IH. split.
  - intros [-> ->]. reflexivity.
  - intros [= -> ->]. auto.
Qed.

Lemma str_eqb_refl (a : pystr) : str_eqb a a = true.
Proof. now apply str_eqb_eq. Qed.


Lemma bind_ok {A B} (m : res A) (k : A -> res B) (b : B) :
  bind m k = Ok b -> exists a, m = Ok a /\ k a = Ok b.
Proof.
  destruct m as [a | e]; simpl; intros H; [eauto | discriminate].
Qed.

(** Takes apart a hypothesis that a chain of steps returned. *)
Ltac steps H :=
  repeat match type of H with
  | bind ?m ?k = Ok _ =>
      let a := fresh "v" in
      let Ha := fresh "Hv" in
      apply bind_ok in H; destruct H as (a & Ha & H)
  end.

(** Replays in the goal the steps that are known to have returned. *)
Ltac replay :=
  repeat (match goal with
          | H : ?m = Ok _ |- context [?m] => rewrite H
          end; cbn [bind]).

(** Settles the comparisons of code points in the goal that the
    hypotheses decide. *)
Ltac decide_cmp :=
  repeat match goal with
  | |- context [(?a <=? ?b)%N] =>
      first [ replace (a <=? b)%N with true by (symmetry; apply N.leb_le; lia)
            | replace (a <=? b)%N with false by (symmetry; apply N.leb_gt; lia) ]
  | |- context [(?a <? ?b)%N] =>
      first [ replace (a <? b)%N with true by (symmetry; apply N.ltb_lt; lia)
            | replace (a <? b)%N with false by (symmetry; apply N.ltb_ge; lia) ]
  | |- context [(?a =? ?b)%N] =>
      first [ replace (a =? b)%N with true by (symmetry; apply N.eqb_eq; lia)
            | replace (a =? b)%N with false by (symmetry; apply N.eqb_neq; lia) ]
  end.

(** Turns the comparisons of code points in a hypothesis into
    propositions. *)
Ltac prop_cmp H :=
  repeat match type of H with
  | (_ && _)%bool = true => let H' := fresh H in apply andb_true_iff in H as [H H']; prop_cmp H'
  | (_ <=? _)%N = true => apply N.leb_le in H
  | (_ <? _)%N = true => apply N.ltb_lt in H
  | (_ =? _)%N = true => apply N.eqb_eq in H
  | (_ <=? _)%N = false => apply N.leb_gt in H
  | (_ <? _)%N = false => apply N.ltb_ge in H
  | (_ =? _)%N = false => apply N.eqb_neq in H
  end.

(* ===================================================================== *)
(** ** The polling loop and the merge loop *)

Section PollFacts.
Context {RT : PyRuntime}.
Variable qid_to_category : Z -> option pystr.
Variable extract_label : pystr -> res (option pystr).

Let main := Poll.main qid_to_category extract_label.
Let merge := Poll.merge qid_to_category extract_label.
Let merge_line := Poll.merge_line qid_to_category extract_label.
Let new_record := Poll.new_record qid_to_category extract_label.

(** The loop breaks at the first status of the four. *)
Lemma poll_first_terminal statuses status :
  Poll.poll statuses = Some status ->
  exists before later,
    statuses = before ++ status :: later
    /\ Poll.terminal status = true
    /\ Forall (fun s => Poll.terminal s = false) before.
Proof.
  induction statuses as [| s l IH]; simpl; [discriminate |].
  destruct (Poll.terminal s) eqn:Hs; intros H.
  - injection H as <-. exists [], l. auto.
  - destruct (IH H) as (before & later & -> & Ht & Hb).
    exists (s :: before), later. auto.
Qed.

(** A status at which the loop breaks and which is not "completed" is one
    of the other three. *)
Lemma terminal_not_completed status :
  Poll.terminal status = true ->
  str_eqb status (str "completed") = false ->
  str_eqb status (str "failed") = true
  \/ str_eqb status (str "expired") = true
  \/ str_eqb status (str "canceled") = true.
Proof.
  unfold Poll.terminal. cbn [existsb]. intros Ht Hc. rewrite Hc in Ht.
  cbn [orb] in Ht.
  destruct (str_eqb status (str "failed")); [auto |].
  destruct (str_eqb status (str "expired")); [auto |].
  destruct (str_eqb status (str "canceled")); [auto | discriminate].
Qed.


(** A turn of the merge loop that raises nothing either leaves the file
    and the counter as they are, or appends the one record [new_record]
    made, as one line, and counts it. *)
Lemma merge_line_ok answers_index already_done line st st' :
  merge_line answers_index already_done line st = (None, st') ->
  (new_record answers_index already_done line = Ok None /\ st' = st)
  \/ (exists record,
        new_record answers_index already_done line = Ok (Some record)
        /\ Py.encodes (Json.dumps record) = true
        /\ st' = (Some (Utils.lines_of (fst st) ++ [Json.dumps record]),
                  S (snd st))).
Proof.
  subst merge_line new_record. unfold Poll.merge_line, Utils.append_jsonl.
  intros H.
  destruct (Poll.new_record qid_to_category extract_label answers_index
              already_done line) as [[record |] | x]; [| | discriminate].
  - destruct (Py.encodes (Json.dumps record)) eqn:He; [| discriminate].
    injection H as <-. right. exists record. auto.
  - injection H as <-. left. auto.
Qed.

(** A turn that raises has appended nothing and counted nothing. *)
Lemma merge_line_raises answers_index already_done line st st' x :
  merge_line answers_index already_done line st = (Some x, st') ->
  Utils.lines_of (fst st') = Utils.lines_of (fst st) /\ snd st' = snd st.
Proof.
  subst merge_line. unfold Poll.merge_line, Utils.append_jsonl. intros H.
  destruct (Poll.new_record qid_to_category extract_label answers_index
              already_done line) as [[record |] | y].
  - destruct (Py.encodes (Json.dumps record)); [discriminate |].
    injection H as _ <-. auto.
  - discriminate.
  - injection H as _ <-. auto.
Qed.

(** A record is made only from a result that parses, whose identity is
    not in [already_done], and whose judge text has a label; the label is
    the [classification] of the record. *)
Lemma new_record_some answers_index already_done line record :
  new_record answers_index already_done line = Ok (Some record) ->
  exists rec eval_txt label,
    Json.loads line = Some rec
    /\ Spec.judge_text rec = Ok eval_txt
    /\ extract_label eval_txt = Ok (Some label)
    /\ Val.getitem record "classification" = Ok (JStr label)
    /\ Val.getitem record "Evaluation" = Ok (JStr eval_txt).
Proof.
  subst new_record. unfold Poll.new_record, Spec.judge_text, Poll.loads_or_raise.
  intros H.
  destruct (Json.loads line) as [rec |]; [| discriminate]. cbn [bind] in H.
  steps H.
  match goal with
  | Hs : Poll.split_custom_id _ = Ok ?p |- _ => destruct p as [[qid model] setting]
  end.
  cbn beta iota in H. steps H.
  match type of H with (if ?b then _ else _) = _ => destruct b end;
    [discriminate |].
  steps H.
  match type of H with match ?l with _ => _ end = _ => destruct l as [label |] end;
    [| discriminate].
  steps H. injection H as <-.
  match goal with
  | Hc : Poll.clean_content _ = Ok ?t |- _ => exists rec, t, label
  end.
  split; [reflexivity |]. split; [replay; reflexivity |].
  split; [assumption |]. split; reflexivity.
Qed.

(** A result whose judge text has no label makes no record. *)
Lemma new_record_no_label answers_index already_done line rec eval_txt :
  Json.loads line = Some rec ->
  Spec.judge_text rec = Ok eval_txt ->
  extract_label eval_txt = Ok None ->
  forall r, new_record answers_index already_done line = Ok r -> r = None.
Proof.
  intros Hl Hj He [record |] H; [| reflexivity].
  apply new_record_some in H as (rec' & txt' & label & Hl' & Hj' & He' & _).
  rewrite Hl in Hl'. injection Hl' as <-.
  rewrite Hj in Hj'. injection Hj' as <-.
  rewrite He in He'. discriminate.
Qed.

End PollFacts.

(* ===================================================================== *)
(** ** Sets of identities *)

Lemma set_add_ok k s s' :
  Val.set_add k s = Ok s' ->
  Val.key_hashable k = true
  /\ (forall k', existsb (Val.key_eqb k') s = true ->
                 existsb (Val.key_eqb k') s' = true)
  /\ (Val.key_eqb k k = true -> existsb (Val.key_eqb k) s' = true).
Proof.
  unfold Val.set_add, Val.set_contains.
  destruct (Val.key_hashable k); [| discriminate]. cbn [bind].
  destruct (existsb (Val.key_eqb k) s) eqn:Hp; intros [= <-].
  - auto.
  - split; [reflexivity |]. split.
    + intros k' Hk'. rewrite existsb_app, Hk'. reflexivity.
    + intros Hk. rewrite existsb_app. cbn [existsb]. rewrite Hk.
      now rewrite orb_true_r.
Qed.

Section SubmitFacts.
Context {RT : PyRuntime}.

(** The set [load_done] of the submitter returns holds what it held
    before and the identity of every record of the log, as far as the
    identity equals itself. *)
Lemma submit_load_lines_ok lines : forall done done',
  Submit.load_lines lines done = Ok done' ->
  (forall k, existsb (Val.key_eqb k) done = true ->
             existsb (Val.key_eqb k) done' = true)
  /\ (forall line obj k,
        In line lines -> Json.loads line = Some obj ->
        Spec.record_identity obj = Ok k ->
        Val.key_eqb k k = true ->
        existsb (Val.key_eqb k) done' = true).
Proof.
  induction lines as [| line later IH]; intros done done' H.
  - injection H as <-. split; [auto |]. intros ? ? ? [].
  - cbn [Submit.load_lines] in H.
    destruct (Json.loads line) as [obj |] eqn:Hl.
    + steps H. apply set_add_ok in Hv2 as (_ & Hmono & Hnew).
      destruct (IH _ _ H) as [IH1 IH2]. split.
      * auto.
      * intros line' obj' k [<- | Hin] Hl' Hid Hk; [| eauto].
        rewrite Hl in Hl'. injection Hl' as <-.
        unfold Spec.record_identity in Hid. rewrite Hv, Hv0, Hv1 in Hid.
        injection Hid as <-. auto.
    + destruct (IH _ _ H) as [IH1 IH2]. split; [auto |].
      intros line' obj' k [<- | Hin] Hl' Hid Hk; [congruence | eauto].
Qed.

Variable e : Submit.env.
Variable already_done : Val.keyset.

(** The loop adds to [requests] the requests of some of the rows, in
    their order; the rows are unevaluated ones, and the list does not grow
    beyond the limit. *)
Lemma fill_requests_ok answers_list : forall requests out,
  Submit.fill_requests e already_done answers_list requests = Ok out ->
  exists chosen built,
    out = requests ++ built
    /\ Spec.subseq chosen answers_list
    /\ Forall2 (fun row r => Submit.build_request e row = Ok r) chosen built
    /\ Forall (Spec.unevaluated already_done) chosen
    /\ (Z.of_nat (List.length out)
        <= Z.max (Submit.LIMIT e) (Z.of_nat (List.length requests)))%Z.
Proof.
  induction answers_list as [| row later IH]; intros requests out H.
  - injection H as <-. exists [], []. rewrite app_nil_r.
    repeat apply conj; try constructor. lia.
  - cbn [Submit.fill_requests] in H.
    destruct (Submit.LIMIT e <=? Z.of_nat (List.length requests))%Z eqn:Hlim.
    + injection H as <-. exists [], []. rewrite app_nil_r.
      repeat apply conj; try constructor. lia.
    + apply Z.leb_gt in Hlim. steps H.
      match type of H with (if ?b then _ else _) = _ => destruct b eqn:Hp end.
      * destruct (IH _ _ H) as (chosen & built & -> & Hs & Hb & Hu & Hn).
        exists chosen, built. repeat apply conj; auto. now constructor.
      * steps H.
        destruct (IH _ _ H) as (chosen & built & -> & Hs & Hb & Hu & Hn).
        match goal with
        | Hr : Submit.build_request e row = Ok ?r |- _ =>
            exists (row :: chosen), (r :: built)
        end.
        rewrite <- app_assoc. repeat apply conj; auto.
        -- now constructor.
        -- constructor; [| assumption].
           eexists. split; [| eassumption].
           unfold Spec.answer_identity. replay. reflexivity.
        -- rewrite !length_app in *. cbn [List.length] in *. lia.
Qed.

End SubmitFacts.

(* ===================================================================== *)
(** ** [str()] and [int()] of an [int], and [str.split] *)

Lemma chars_of_uint_digits u : Forall (fun c => Py.is_digit_ascii c = true) (Num.chars_of_uint u).
Proof. induction u; simpl; constructor; auto. Qed.

Lemma digits_value_acc u : forall acc,
  fold_left (fun a d => 10 * a + d)%Z (map Num.digit_val (Num.chars_of_uint u)) (Zpos acc)
  = Zpos (Pos.of_uint_acc u acc).
Proof.
  induction u; intros acc; cbn [Num.chars_of_uint map fold_left Pos.of_uint_acc];
    [reflexivity | rewrite <- IHu; f_equal; unfold Num.digit_val;
                   match goal with
                   | |- context [Z.of_N ?x] =>
                       let v := eval vm_compute in (Z.of_N x) in
                       change (Z.of_N x) with v
                   end; lia ..].
Qed.

Lemma digits_value_uint u :
  Num.of_digits (map Num.digit_val (Num.chars_of_uint u)) = Z.of_N (Pos.of_uint u).
Proof.
  unfold Num.of_digits.
  induction u; cbn [Num.chars_of_uint map fold_left Pos.of_uint];
    [reflexivity | exact IHu | apply digits_value_acc ..].
Qed.

Lemma digits_value_pos p :
  Num.of_digits (map Num.digit_val (Num.chars_of_uint (Pos.to_uint p))) = Zpos p.
Proof. rewrite digits_value_uint, DecimalPos.Unsigned.of_to. reflexivity. Qed.

Lemma digit_not_space c : Py.is_digit_ascii c = true -> Py.isspace c = false.
Proof.
  unfold Py.is_digit_ascii, Py.isspace. intros H. prop_cmp H.
  decide_cmp. reflexivity.
Qed.

Lemma lstrip_keeps p s :
  match s with c :: _ => p c = false | [] => True end -> Py.lstrip p s = s.
Proof. destruct s as [| c t]; simpl; [reflexivity |]. now intros ->. Qed.

(** White space at neither end: [strip] returns the string. *)
Lemma strip_keeps s :
  Forall (fun c => Py.isspace c = false) s -> Py.strip s = s.
Proof.
  intros H. unfold Py.strip, Py.rstrip.
  rewrite (lstrip_keeps Py.isspace s) by (destruct H; auto).
  rewrite (lstrip_keeps Py.isspace (rev s)).
  - apply rev_involutive.
  - apply Forall_rev in H. destruct H; auto.
Qed.

Section NumFacts.
Context {RT : PyRuntime}.

Lemma decimal_digit c :
  Py.is_digit_ascii c = true -> Num.decimal c = Some (Num.digit_val c).
Proof. unfold Num.decimal. now intros ->. Qed.

Lemma int_digits_after_digit s : forall acc,
  Forall (fun c => Py.is_digit_ascii c = true) s ->
  Num.int_digits s true acc = Some (rev acc ++ map Num.digit_val s).
Proof.
  induction s as [| c t IH]; intros acc H; cbn [Num.int_digits map].
  - now rewrite app_nil_r.
  - inversion H as [| ? ? Hc Ht]; subst.
    pose proof Hc as Hc'. unfold Py.is_digit_ascii in Hc'. prop_cmp Hc'.
    decide_cmp.
    rewrite (decimal_digit _ Hc), (IH _ Ht). cbn [rev].
    now rewrite <- app_assoc.
Qed.

Lemma int_digits_digits s :
  s <> [] -> Forall (fun c => Py.is_digit_ascii c = true) s ->
  Num.int_digits s false [] = Some (map Num.digit_val s).
Proof.
  destruct s as [| c t]; [congruence |]. intros _ H.
  inversion H as [| ? ? Hc Ht]; subst. cbn [Num.int_digits].
  pose proof Hc as Hc'. unfold Py.is_digit_ascii in Hc'. prop_cmp Hc'.
  decide_cmp.
  rewrite (decimal_digit _ Hc), (int_digits_after_digit _ _ Ht). reflexivity.
Qed.

(** The text [str()] writes for a positive number: digits, not empty. *)
Lemma int_of_digits_pos p :
  Num.int_digits (Num.chars_of_uint (Pos.to_uint p)) false []
  = Some (map Num.digit_val (Num.chars_of_uint (Pos.to_uint p))).
Proof.
  apply int_digits_digits; [| apply chars_of_uint_digits].
  pose proof (DecimalPos.Unsigned.to_uint_nonnil p) as Hn.
  destruct (Pos.to_uint p); [congruence | discriminate ..].
Qed.

Lemma str_of_int_no_space z :
  Forall (fun c => Py.isspace c = false) (Num.str_of_int z).
Proof.
  destruct z as [| p | p]; cbn [Num.str_of_int].
  - repeat constructor.
  - eapply Forall_impl; [| apply chars_of_uint_digits]. apply digit_not_space.
  - constructor; [reflexivity |].
    eapply Forall_impl; [| apply chars_of_uint_digits]. apply digit_not_space.
Qed.

Lemma first_digit_no_sign p :
  match Num.chars_of_uint (Pos.to_uint p) with
  | c :: _ => (c =? 45)%N = false /\ (c =? 43)%N = false
  | [] => True
  end.
Proof.
  pose proof (chars_of_uint_digits (Pos.to_uint p)) as H.
  destruct H as [| c t Hc _]; [exact I |].
  unfold Py.is_digit_ascii in Hc. prop_cmp Hc. decide_cmp. auto.
Qed.

(** [int(str(z)) == z] *)
Lemma int_of_str_of_int z : Num.int_of_str (Num.str_of_int z) = Ok z.
Proof.
  unfold Num.int_of_str. rewrite (strip_keeps _ (str_of_int_no_space z)).
  destruct z as [| p | p]; cbn [Num.str_of_int].
  - reflexivity.
  - pose proof (first_digit_no_sign p) as Hs.
    pose proof (int_of_digits_pos p) as Hd.
    destruct (Num.chars_of_uint (Pos.to_uint p)) as [| c t] eqn:Hu.
    + discriminate.
    + destruct Hs as [-> ->]. rewrite Hd, <- Hu, digits_value_pos. reflexivity.
  - change ((45 =? 45)%N) with true. cbn iota.
    rewrite int_of_digits_pos, digits_value_pos. reflexivity.
Qed.

(** [str(int(s)) == s] for the text of an integer. *)
Lemma str_of_int_of_str z :
  i <- Num.int_of_str (Num.str_of_int z) ;; Ok (Num.str_of_int i)
  = Ok (Num.str_of_int z).
Proof. rewrite int_of_str_of_int. reflexivity. Qed.

End NumFacts.

Lemma str_of_int_no_bar z : ~ In 124%N (Num.str_of_int z).
Proof.
  assert (H : forall u, ~ In 124%N (Num.chars_of_uint u)).
  { intros u Hin. pose proof (chars_of_uint_digits u) as Hd.
    rewrite Forall_forall in Hd. apply Hd in Hin. discriminate. }
  destruct z as [| p | p]; cbn [Num.str_of_int In].
  - intros [| []]; discriminate.
  - apply H.
  - intros [| Hin]; [discriminate | now apply H in Hin].
Qed.

Lemma split_no_sep sep a : ~ In sep a -> Py.split sep a = [a].
Proof.
  induction a as [| c a IH]; cbn [Py.split In]; intros H; [reflexivity |].
  replace (c =? sep)%N with false by (symmetry; apply N.eqb_neq; intuition).
  rewrite IH by intuition. reflexivity.
Qed.

Lemma split_at_sep sep a b :
  ~ In sep a -> Py.split sep (a ++ sep :: b) = a :: Py.split sep b.
Proof.
  induction a as [| c a IH]; cbn [Py.split In app]; intros H.
  - now rewrite N.eqb_refl.
  - replace (c =? sep)%N with false by (symmetry; apply N.eqb_neq; intuition).
    rewrite IH by intuition. reflexivity.
Qed.

(* ===================================================================== *)
(** ** The steps of the JSON scanner are enough *)

Lemma lstrip_length p s : List.length (Py.lstrip p s) <= List.length s.
Proof.
  induction s as [| c t IH]; cbn [Py.lstrip]; [lia |].
  destruct (p c); cbn [List.length]; lia.
Qed.

Lemma skip_ws_length s : List.length (Json.skip_ws s) <= List.length s.
Proof. apply lstrip_length. Qed.

Lemma after_prefix_length p : forall s r,
  Json.after_prefix p s = Some r -> List.length s = List.length p + List.length r.
Proof.
  induction p as [| x p IH]; intros s r H; cbn [Json.after_prefix] in H.
  - injection H as <-. reflexivity.
  - destruct s as [| y s]; [discriminate |].
    destruct (x =? y)%N; [| discriminate]. cbn [List.length].
    rewrite (IH _ _ H). lia.
Qed.

Lemma span_length p s :
  List.length (snd (Json.span p s)) <= List.length s.
Proof.
  induction s as [| c t IH]; cbn [Json.span]; [cbn; lia |].
  destruct (p c); [| cbn; lia].
  destruct (Json.span p t) as [a b]. cbn [snd List.length] in *. lia.
Qed.

(** A string literal ends after its closing quote. *)
Lemma scanstring_shorter n : forall s acc x r,
  List.length s <= n ->
  Json.scanstring s acc = Some (x, r) -> List.length r < List.length s.
Proof.
  induction n as [| n IH]; intros s acc x r Hn H;
    (destruct s as [| c t]; [discriminate |]); cbn [List.length] in Hn; [lia |].
  cbn [Json.scanstring] in H.
  repeat match type of H with
         | context [match ?y with _ => _ end] =>
             destruct y; try discriminate H
         end;
    try (injection H as _ <-; cbn [List.length]; lia);
    apply IH in H; cbn [List.length] in *; lia.
Qed.

Lemma int_part_shorter s ipart r :
  Json.int_part s = Some (ipart, r) -> List.length r < List.length s.
Proof.
  unfold Json.int_part. destruct s as [| d t]; [discriminate |].
  destruct ((49 <=? d) && (d <=? 57))%N.
  - pose proof (span_length Py.is_digit_ascii t) as Hsp.
    destruct (Json.span Py.is_digit_ascii t) as [ds r']. intros [= _ <-].
    cbn [snd List.length] in *. lia.
  - destruct (d =? 48)%N; [| discriminate]. intros [= _ <-]. cbn [List.length]. lia.
Qed.

Lemma frac_part_length r :
  List.length (snd (Json.frac_part r)) <= List.length r.
Proof.
  unfold Json.frac_part. destruct r as [| c [| f t]]; try (cbn; lia).
  destruct ((c =? 46)%N && Py.is_digit_ascii f); [| cbn; lia].
  pose proof (span_length Py.is_digit_ascii t) as Hsp.
  destruct (Json.span Py.is_digit_ascii t) as [fs r']. cbn [snd List.length] in *. lia.
Qed.

Lemma exp_digits_length eneg t r :
  List.length t <= List.length r ->
  List.length (snd (Json.exp_digits eneg t r)) <= List.length r.
Proof.
  unfold Json.exp_digits. intros Ht.
  pose proof (span_length Py.is_digit_ascii t) as Hsp.
  destruct (Json.span Py.is_digit_ascii t) as [[| e0 es] r'];
    cbn [snd List.length] in *; lia.
Qed.

Lemma exp_part_length r :
  List.length (snd (Json.exp_part r)) <= List.length r.
Proof.
  unfold Json.exp_part. destruct r as [| e t]; [cbn; lia |].
  destruct ((e =? 101) || (e =? 69))%N; [| cbn; lia].
  destruct t as [| c u]; [cbn; lia |].
  destruct (c =? 45)%N; [| destruct (c =? 43)%N];
    apply exp_digits_length; cbn [List.length]; lia.
Qed.

Lemma number_after_sign_shorter neg s v r :
  Json.number_after_sign neg s = Some (v, r) -> List.length r < List.length s.
Proof.
  unfold Json.number_after_sign.
  destruct (Json.int_part s) as [[ipart r0] |] eqn:Ei; [| discriminate].
  apply int_part_shorter in Ei.
  pose proof (frac_part_length r0) as Hf.
  destruct (Json.frac_part r0) as [frac r1].
  pose proof (exp_part_length r1) as He.
  destruct (Json.exp_part r1) as [expo r2]. cbn [snd] in *.
  intros H. assert (r = r2) by (destruct frac, expo; now injection H as _ <-).
  subst r. lia.
Qed.

Lemma match_number_shorter s v r :
  Json.match_number s = Some (v, r) -> List.length r < List.length s.
Proof.
  unfold Json.match_number. destruct s as [| c t]; [discriminate |].
  destruct (c =? 45)%N; intros H; apply number_after_sign_shorter in H;
    cbn [List.length] in *; lia.
Qed.

Lemma match_word_shorter s v r :
  Json.match_word s = Some (v, r) -> List.length r < List.length s.
Proof.
  unfold Json.match_word. intros H.
  repeat match type of H with
         | context [Json.after_prefix ?p ?l] =>
             let E := fresh "E" in
             destruct (Json.after_prefix p l) eqn:E;
             [injection H as _ <-; apply after_prefix_length in E;
              rewrite E; cbn; lia |]
         end.
  discriminate.
Qed.

(** Whatever value is read, some of the text is consumed. *)
Lemma scan_shorter fuel :
  (forall s v r, Json.scan_once fuel s = Json.POk v r ->
                 List.length r < List.length s)
  /\ (forall s acc v r, Json.array_items fuel s acc = Json.POk v r ->
                        List.length r < List.length s)
  /\ (forall s acc v r, Json.object_items fuel s acc = Json.POk v r ->
                        List.length r < List.length s).
Proof.
  induction fuel as [| f [IHs [IHa IHo]]];
    [repeat apply conj; intros; discriminate |].
  repeat apply conj.
  - intros s v r H. cbn [Json.scan_once] in H.
    destruct s as [| c t]; [discriminate |].
    destruct (c =? 34)%N.
    { destruct (Json.scanstring t []) as [[x r0] |] eqn:E; [| discriminate].
      injection H as _ <-. apply scanstring_shorter with (n := List.length t) in E;
        cbn [List.length]; lia. }
    pose proof (skip_ws_length t) as Hw.
    destruct (c =? 123)%N.
    { destruct (Json.skip_ws t) as [| c1 r1]; [discriminate |].
      destruct (c1 =? 125)%N; [injection H as _ <- | apply IHo in H];
        cbn [List.length] in *; lia. }
    destruct (c =? 91)%N.
    { destruct (Json.skip_ws t) as [| c1 r1]; [discriminate |].
      destruct (c1 =? 93)%N; [injection H as _ <- | apply IHa in H];
        cbn [List.length] in *; lia. }
    destruct (Json.match_word (c :: t)) as [[v0 r0] |] eqn:Ew.
    { injection H as _ <-. exact (match_word_shorter _ _ _ Ew). }
    destruct (Json.match_number (c :: t)) as [[v0 r0] |] eqn:Em; [| discriminate].
    injection H as _ <-. exact (match_number_shorter _ _ _ Em).
  - intros s acc v r H. cbn [Json.array_items] in H.
    destruct (Json.scan_once f s) as [v0 r0 | |] eqn:E; try discriminate.
    apply IHs in E. pose proof (skip_ws_length r0) as Hw.
    destruct (Json.skip_ws r0) as [| c1 r1]; [discriminate |].
    pose proof (skip_ws_length r1).
    destruct (c1 =? 93)%N; [injection H as _ <-; cbn [List.length] in *; lia |].
    destruct (c1 =? 44)%N; [| discriminate].
    apply IHa in H. cbn [List.length] in *. lia.
  - intros s acc v r H. cbn [Json.object_items] in H.
    destruct s as [| q t]; [discriminate |].
    destruct (negb (q =? 34)%N); [discriminate |].
    destruct (Json.scanstring t []) as [[k r0] |] eqn:Ek; [| discriminate].
    apply scanstring_shorter with (n := List.length t) in Ek; [| lia].
    pose proof (skip_ws_length r0) as Hw0.
    destruct (Json.skip_ws r0) as [| c1 r1]; [discriminate |].
    destruct (negb (c1 =? 58)%N); [discriminate |].
    pose proof (skip_ws_length r1) as Hw1.
    destruct (Json.scan_once f (Json.skip_ws r1)) as [v0 r2 | |] eqn:E;
      try discriminate.
    apply IHs in E. pose proof (skip_ws_length r2) as Hw2.
    destruct (Json.skip_ws r2) as [| c2 r3]; [discriminate |].
    pose proof (skip_ws_length r3).
    destruct (c2 =? 125)%N; [injection H as _ <-; cbn [List.length] in *; lia |].
    destruct (c2 =? 44)%N; [| discriminate].
    apply IHo in H. cbn [List.length] in *. lia.
Qed.

(** With two steps for each character and one more, the scanner never
    stops for want of steps. *)
Lemma scan_steps_enough fuel :
  (forall s, 2 * List.length s + 1 <= fuel -> Json.scan_once fuel s <> Json.PFuel)
  /\ (forall s acc, 2 * List.length s + 2 <= fuel ->
                    Json.array_items fuel s acc <> Json.PFuel)
  /\ (forall s acc, 2 * List.length s + 2 <= fuel ->
                    Json.object_items fuel s acc <> Json.PFuel).
Proof.
  induction fuel as [| f [IHs [IHa IHo]]];
    [repeat apply conj; intros; lia |].
  destruct (scan_shorter f) as [Ps [Pa Po]].
  repeat apply conj.
  - intros s Hf. cbn [Json.scan_once].
    destruct s as [| c t]; [discriminate |]. cbn [List.length] in Hf.
    destruct (c =? 34)%N.
    { destruct (Json.scanstring t []) as [[x r0] |]; discriminate. }
    pose proof (skip_ws_length t) as Hw.
    destruct (c =? 123)%N.
    { destruct (Json.skip_ws t) as [| c1 r1]; [discriminate |].
      destruct (c1 =? 125)%N; [discriminate |].
      apply IHo. cbn [List.length] in *. lia. }
    destruct (c =? 91)%N.
    { destruct (Json.skip_ws t) as [| c1 r1]; [discriminate |].
      destruct (c1 =? 93)%N; [discriminate |].
      apply IHa. cbn [List.length] in *. lia. }
    destruct (Json.match_word (c :: t)) as [[v0 r0] |]; [discriminate |].
    destruct (Json.match_number (c :: t)) as [[v0 r0] |]; discriminate.
  - intros s acc Hf. cbn [Json.array_items].
    destruct (Json.scan_once f s) as [v0 r0 | |] eqn:E;
      [| discriminate | exfalso; revert E; apply IHs; lia].
    apply Ps in E. pose proof (skip_ws_length r0) as Hw.
    destruct (Json.skip_ws r0) as [| c1 r1]; [discriminate |].
    pose proof (skip_ws_length r1) as Hw1.
    destruct (c1 =? 93)%N; [discriminate |].
    destruct (c1 =? 44)%N; [| discriminate].
    apply IHa. cbn [List.length] in *. lia.
  - intros s acc Hf. cbn [Json.object_items].
    destruct s as [| q t]; [discriminate |]. cbn [List.length] in Hf.
    destruct (negb (q =? 34)%N); [discriminate |].
    destruct (Json.scanstring t []) as [[k r0] |] eqn:Ek; [| discriminate].
    apply scanstring_shorter with (n := List.length t) in Ek; [| lia].
    pose proof (skip_ws_length r0) as Hw0.
    destruct (Json.skip_ws r0) as [| c1 r1]; [discriminate |].
    destruct (negb (c1 =? 58)%N); [discriminate |].
    pose proof (skip_ws_length r1) as Hw1.
    destruct (Json.scan_once f (Json.skip_ws r1)) as [v0 r2 | |] eqn:E;
      [| discriminate | exfalso; revert E; apply IHs; cbn [List.length] in *; lia].
    apply Ps in E. pose proof (skip_ws_length r2) as Hw2.
    destruct (Json.skip_ws r2) as [| c2 r3]; [discriminate |].
    pose proof (skip_ws_length r3) as Hw3.
    destruct (c2 =? 125)%N; [discriminate |].
    destruct (c2 =? 44)%N; [| discriminate].
    apply IHo. cbn [List.length] in *. lia.
Qed.

(** [Json.loads] gives the scanner enough steps: it never fails for want
    of them. *)
Lemma loads_steps_enough s :
  Json.scan_once (2 * List.length s + 1) (Json.skip_ws s) <> Json.PFuel.
Proof.
  apply (proj1 (scan_steps_enough (2 * List.length s + 1))).
  pose proof (skip_ws_length s). lia.
Qed.

(** More steps change no result. *)
Lemma scan_one_more fuel :
  (forall s x, Json.scan_once fuel s = x -> x <> Json.PFuel ->
               Json.scan_once (S fuel) s = x)
  /\ (forall s acc x, Json.array_items fuel s acc = x -> x <> Json.PFuel ->
                      Json.array_items (S fuel) s acc = x)
  /\ (forall s acc x, Json.object_items fuel s acc = x -> x <> Json.PFuel ->
                      Json.object_items (S fuel) s acc = x).
Proof.
  induction fuel as [| f [IHs [IHa IHo]]];
    [repeat apply conj; intros; cbn in *; congruence |].
  repeat apply conj.
  - intros s x H Hx. cbn [Json.scan_once] in H.
    change (Json.scan_once (S (S f)) s) with
      (match s with
       | [] => Json.PErr
       | c :: t =>
           if (c =? 34)%N then
             match Json.scanstring t [] with
             | Some (x, r) => Json.POk (JStr x) r
             | None => Json.PErr
             end
           else if (c =? 123)%N then
             match Json.skip_ws t with
             | [] => Json.PErr
             | c' :: r =>
                 if (c' =? 125)%N then Json.POk (JObj []) r
                 else Json.object_items (S f) (c' :: r) []
             end
           else if (c =? 91)%N then
             match Json.skip_ws t with
             | [] => Json.PErr
             | c' :: r =>
                 if (c' =? 93)%N then Json.POk (JArr []) r
                 else Json.array_items (S f) (c' :: r) []
             end
           else
             match Json.match_word s with
             | Some (v, r) => Json.POk v r
             | None =>
                 match Json.match_number s with
                 | Some (v, r) => Json.POk v r
                 | None => Json.PErr
                 end
             end
       end).
    destruct s as [| c t]; [exact H |].
    destruct (c =? 34)%N; [exact H |].
    destruct (c =? 123)%N.
    { destruct (Json.skip_ws t) as [| c1 r1]; [exact H |].
      destruct (c1 =? 125)%N; [exact H | now apply IHo]. }
    destruct (c =? 91)%N; [| exact H].
    destruct (Json.skip_ws t) as [| c1 r1]; [exact H |].
    destruct (c1 =? 93)%N; [exact H | now apply IHa].
  - intros s acc x H Hx. cbn [Json.array_items] in H.
    change (Json.array_items (S (S f)) s acc) with
      (match Json.scan_once (S f) s with
       | Json.POk v r =>
           match Json.skip_ws r with
           | [] => Json.PErr
           | c :: r' =>
               if (c =? 93)%N then Json.POk (JArr (rev (v :: acc))) r'
               else if (c =? 44)%N
                    then Json.array_items (S f) (Json.skip_ws r') (v :: acc)
                    else Json.PErr
           end
       | e => e
       end).
    destruct (Json.scan_once f s) as [v0 r0 | |] eqn:E;
      [| subst x; now rewrite (IHs _ _ E) | congruence].
    rewrite (IHs _ _ E) by discriminate.
    destruct (Json.skip_ws r0) as [| c1 r1]; [exact H |].
    destruct (c1 =? 93)%N; [exact H |].
    destruct (c1 =? 44)%N; [now apply IHa | exact H].
  - intros s acc x H Hx. cbn [Json.object_items] in H.
    change (Json.object_items (S (S f)) s acc) with
      (match s with
       | [] => Json.PErr
       | q :: t =>
           if negb (q =? 34)%N then Json.PErr
           else
             match Json.scanstring t [] with
             | None => Json.PErr
             | Some (k, r) =>
                 match Json.skip_ws r with
                 | [] => Json.PErr
                 | c :: r1 =>
                     if negb (c =? 58)%N then Json.PErr
                     else
                       match Json.scan_once (S f) (Json.skip_ws r1) with
                       | Json.POk v r2 =>
                           match Json.skip_ws r2 with
                           | [] => Json.PErr
                           | c' :: r' =>
                               if (c' =? 125)%N
                               then Json.POk
                                      (JObj (Json.dict_of_pairs (rev ((k, v) :: acc)))) r'
                               else if (c' =? 44)%N
                               then Json.object_items (S f) (Json.skip_ws r')
                                      ((k, v) :: acc)
                               else Json.PErr
                           end
                       | e => e
                       end
                 end
             end
       end).
    destruct s as [| q t]; [exact H |].
    destruct (negb (q =? 34)%N); [exact H |].
    destruct (Json.scanstring t []) as [[k r0] |]; [| exact H].
    destruct (Json.skip_ws r0) as [| c1 r1]; [exact H |].
    destruct (negb (c1 =? 58)%N); [exact H |].
    destruct (Json.scan_once f (Json.skip_ws r1)) as [v0 r2 | |] eqn:E;
      [| subst x; now rewrite (IHs _ _ E) | congruence].
    rewrite (IHs _ _ E) by discriminate.
    destruct (Json.skip_ws r2) as [| c2 r3]; [exact H |].
    destruct (c2 =? 125)%N; [exact H |].
    destruct (c2 =? 44)%N; [now apply IHo | exact H].
Qed.

Lemma scan_more fuel fuel' s x :
  Json.scan_once fuel s = x -> x <> Json.PFuel -> fuel <= fuel' ->
  Json.scan_once fuel' s = x.
Proof.
  intros H Hx Hle. induction Hle as [| m _ IH]; [exact H |].
  now apply (proj1 (scan_one_more m)).
Qed.

Lemma array_items_more fuel fuel' s acc x :
  Json.array_items fuel s acc = x -> x <> Json.PFuel -> fuel <= fuel' ->
  Json.array_items fuel' s acc = x.
Proof.
  intros H Hx Hle. induction Hle as [| m _ IH]; [exact H |].
  now apply (proj1 (proj2 (scan_one_more m))).
Qed.

Lemma object_items_more fuel fuel' s acc x :
  Json.object_items fuel s acc = x -> x <> Json.PFuel -> fuel <= fuel' ->
  Json.object_items fuel' s acc = x.
Proof.
  intros H Hx Hle. induction Hle as [| m _ IH]; [exact H |].
  now apply (proj2 (proj2 (scan_one_more m))).
Qed.

(** What the scanner finds with some number of steps, [json.loads]
    returns. *)
Lemma loads_of_scan fuel s v r :
  Json.scan_once fuel (Json.skip_ws s) = Json.POk v r ->
  Json.skip_ws r = [] ->
  Json.loads s = Some v.
Proof.
  intros H Hr. unfold Json.loads.
  destruct (Nat.le_ge_cases fuel (2 * List.length s + 1)) as [Hle | Hge].
  - rewrite (scan_more _ _ _ _ H) by (discriminate || exact Hle). now rewrite Hr.
  - pose proof (loads_steps_enough s) as Hne.
    rewrite (scan_more _ _ _ _ eq_refl Hne Hge) in H. rewrite H. now rewrite Hr.
Qed.

(* ===================================================================== *)
(** ** What [json.dumps] writes, [json.loads] reads back *)

(** A string literal: the escapes are undone. *)
Lemma scanstring_escaped s : forall acc rest,
  Json.scanstring (flat_map Json.escape_char s ++ 34%N :: rest) acc
  = Some (rev acc ++ s, rest).
Proof.
  induction s as [| c s IH]; intros acc rest.
  - cbn. now rewrite app_nil_r.
  - cbn [flat_map]. rewrite <- app_assoc.
    assert (Hnext : forall x,
              Json.scanstring (flat_map Json.escape_char s ++ 34%N :: rest) (x :: acc)
              = Some (rev acc ++ x :: s, rest)).
    { intros x. rewrite IH. cbn [rev]. now rewrite <- app_assoc. }
    unfold Json.escape_char.
    destruct (N.ltb_spec c 32) as [Hlt | Hge].
    + assert (Hc : exists n, (n < 32)%nat /\ c = N.of_nat n).
      { exists (N.to_nat c). split; lia. }
      destruct Hc as (n & Hn & ->).
      do 32 (destruct n as [| n]; [cbn; apply Hnext |]). lia.
    + destruct (N.eqb_spec c 34) as [-> | H34]; [cbn; apply Hnext |].
      destruct (N.eqb_spec c 92) as [-> | H92]; [cbn; apply Hnext |].
      replace (c =? 10)%N with false by (symmetry; apply N.eqb_neq; lia).
      replace (c =? 13)%N with false by (symmetry; apply N.eqb_neq; lia).
      replace (c =? 9)%N with false by (symmetry; apply N.eqb_neq; lia).
      replace (c =? 8)%N with false by (symmetry; apply N.eqb_neq; lia).
      replace (c =? 12)%N with false by (symmetry; apply N.eqb_neq; lia).
      cbn [app Json.scanstring].
      replace (c =? 34)%N with false by (symmetry; apply N.eqb_neq; lia).
      replace (c =? 92)%N with false by (symmetry; apply N.eqb_neq; lia).
      replace (c <=? 31)%N with false by (symmetry; apply N.leb_gt; lia).
      apply Hnext.
Qed.

Lemma span_app p a b :
  match b with c :: _ => p c = false | [] => True end ->
  Json.span p (a ++ b) = (fst (Json.span p a), snd (Json.span p a) ++ b).
Proof.
  intros Hb. induction a as [| x a IH]; cbn [app Json.span].
  - destruct b as [| c b]; [reflexivity |]. cbn [Json.span]. now rewrite Hb.
  - destruct (p x); [| reflexivity]. rewrite IH.
    destruct (Json.span p a) as [u v]. reflexivity.
Qed.

Lemma span_all p a :
  Forall (fun c => p c = true) a -> Json.span p a = (a, []).
Proof.
  induction 1 as [| x a Hx _ IH]; cbn [Json.span]; [reflexivity |].
  now rewrite Hx, IH.
Qed.

Lemma number_ends_digit rest :
  Spec.number_ends rest ->
  match rest with c :: _ => Py.is_digit_ascii c = false | [] => True end.
Proof.
  destruct rest as [| c rest]; [trivial |]. unfold Spec.number_ends.
  intros H. now repeat (apply orb_false_iff in H as [H _]).
Qed.

Lemma int_part_app s ipart r rest :
  Json.int_part s = Some (ipart, r) -> Spec.number_ends rest ->
  Json.int_part (s ++ rest) = Some (ipart, r ++ rest).
Proof.
  unfold Json.int_part. intros H Hrest. destruct s as [| d t]; [discriminate |].
  cbn [app]. destruct ((49 <=? d) && (d <=? 57))%N.
  - rewrite (span_app _ t rest (number_ends_digit _ Hrest)).
    destruct (Json.span Py.is_digit_ascii t) as [ds r']. now injection H as <- <-.
  - destruct (d =? 48)%N; [| discriminate]. now injection H as <- <-.
Qed.

Lemma frac_part_app r rest :
  Spec.number_ends rest -> r <> [46%N] ->
  Json.frac_part (r ++ rest)
  = (fst (Json.frac_part r), snd (Json.frac_part r) ++ rest).
Proof.
  intros Hrest Hr. unfold Json.frac_part.
  destruct r as [| c [| f t]]; cbn [app].
  - destruct rest as [| c [| f t]]; try reflexivity.
    unfold Spec.number_ends in Hrest.
    apply orb_false_iff in Hrest as [Hrest _].
    apply orb_false_iff in Hrest as [Hrest _].
    apply orb_false_iff in Hrest as [_ ->]. reflexivity.
  - destruct (N.eqb_spec c 46) as [-> | Hc]; [congruence |].
    destruct rest as [| f t]; [reflexivity |]. reflexivity.
  - destruct ((c =? 46)%N && Py.is_digit_ascii f); [| reflexivity].
    rewrite (span_app _ t rest (number_ends_digit _ Hrest)).
    destruct (Json.span Py.is_digit_ascii t) as [fs r']. reflexivity.
Qed.

Lemma exp_digits_app eneg t r expo rest :
  Spec.number_ends rest -> Json.exp_digits eneg t r = (expo, []) -> r <> [] ->
  Json.exp_digits eneg (t ++ rest) (r ++ rest) = (expo, rest).
Proof.
  unfold Json.exp_digits. intros Hrest H Hr.
  rewrite (span_app _ t rest (number_ends_digit _ Hrest)).
  destruct (Json.span Py.is_digit_ascii t) as [[| e0 es] r']; cbn [fst snd].
  - injection H as _ ->. congruence.
  - injection H as <- ->. reflexivity.
Qed.

Lemma exp_part_app r expo rest :
  Spec.number_ends rest -> Json.exp_part r = (expo, []) ->
  Json.exp_part (r ++ rest) = (expo, rest).
Proof.
  intros Hrest H. unfold Json.exp_part in *.
  destruct r as [| e t].
  - injection H as <-. destruct rest as [| c rest]; [reflexivity |]. cbn [app].
    unfold Spec.number_ends in Hrest.
    apply orb_false_iff in Hrest as [Hrest H69].
    apply orb_false_iff in Hrest as [_ H101]. now rewrite H101, H69.
  - cbn [app]. destruct ((e =? 101) || (e =? 69))%N; [| discriminate].
    destruct t as [| c u]; [discriminate |]. cbn [app].
    destruct (c =? 45)%N;
      [| destruct (c =? 43)%N];
      first [ apply (exp_digits_app _ _ (e :: c :: u) _ _ Hrest H); discriminate
            | apply (exp_digits_app _ (c :: u) (e :: c :: u) _ _ Hrest H);
              discriminate ].
Qed.

Lemma number_after_sign_app neg s v rest :
  Json.number_after_sign neg s = Some (v, []) -> Spec.number_ends rest ->
  Json.number_after_sign neg (s ++ rest) = Some (v, rest).
Proof.
  unfold Json.number_after_sign. intros H Hrest.
  destruct (Json.int_part s) as [[ipart r] |] eqn:Ei; [| discriminate].
  rewrite (int_part_app _ _ _ _ Ei Hrest).
  destruct (list_eq_dec N.eq_dec r [46%N]) as [-> | Hr].
  { cbn in H. now injection H. }
  rewrite (frac_part_app _ _ Hrest Hr).
  destruct (Json.frac_part r) as [frac r1]. cbn [fst snd].
  destruct (Json.exp_part r1) as [expo r2] eqn:Ee.
  assert (r2 = []) by (destruct frac, expo; now injection H).
  subst r2. rewrite (exp_part_app _ _ _ Hrest Ee).
  destruct frac, expo; injection H as <-; reflexivity.
Qed.

(** A number that is the whole of a text is the same number before a text
    that ends it. *)
Lemma match_number_app s v rest :
  Json.match_number s = Some (v, []) -> Spec.number_ends rest ->
  Json.match_number (s ++ rest) = Some (v, rest).
Proof.
  unfold Json.match_number. intros H Hrest.
  destruct s as [| c t]; [discriminate |]. cbn [app].
  destruct (c =? 45)%N.
  - now apply number_after_sign_app.
  - now apply (number_after_sign_app false (c :: t)).
Qed.

Lemma nzhead_no_zero u v : Decimal.nzhead u <> Decimal.D0 v.
Proof. induction u; cbn; congruence. Qed.

(** The text of a positive integer starts with a digit that is not zero. *)
Lemma leading_digit p :
  exists d ds,
    Num.chars_of_uint (Pos.to_uint p) = d :: ds
    /\ ((49 <=? d) && (d <=? 57))%N = true
    /\ Forall (fun c => Py.is_digit_ascii c = true) ds.
Proof.
  pose proof (DecimalPos.Unsigned.to_of (Pos.to_uint p)) as Hu.
  rewrite DecimalPos.Unsigned.of_to in Hu. cbn [N.to_uint] in Hu.
  pose proof (chars_of_uint_digits (Pos.to_uint p)) as Hd.
  unfold Decimal.unorm in Hu.
  pose proof (nzhead_no_zero (Pos.to_uint p)) as Hz.
  pose proof (DecimalPos.Unsigned.to_uint_nonzero p) as Hnz.
  destruct (Decimal.nzhead (Pos.to_uint p)) eqn:E;
    try congruence; rewrite Hu in Hd |- *; cbn [Num.chars_of_uint] in *;
    (eexists; eexists; split; [reflexivity |]; split;
     [reflexivity | now inversion Hd]).
Qed.

Lemma number_after_sign_digits neg d ds :
  ((49 <=? d) && (d <=? 57))%N = true ->
  Forall (fun c => Py.is_digit_ascii c = true) ds ->
  Json.number_after_sign neg (d :: ds)
  = Some (JInt (if neg then - Json.digits_value (d :: ds)
                else Json.digits_value (d :: ds))%Z, []).
Proof.
  intros Hd Hds. unfold Json.number_after_sign, Json.int_part.
  rewrite Hd, (span_all _ _ Hds). reflexivity.
Qed.

(** The text of an integer is read as that integer. *)
Lemma match_number_int z :
  Json.match_number (Num.str_of_int z) = Some (JInt z, []).
Proof.
  destruct z as [| p | p]; cbn [Num.str_of_int]; [reflexivity | |];
    destruct (leading_digit p) as (d & ds & E & Hd & Hds);
    pose proof (digits_value_pos p) as Hv; rewrite E in *;
    unfold Json.match_number.
  - replace (d =? 45)%N with false
      by (prop_cmp Hd; symmetry; apply N.eqb_neq; lia).
    rewrite (number_after_sign_digits false d ds Hd Hds).
    unfold Json.digits_value. now rewrite Hv.
  - change (45 =? 45)%N with true. cbn iota.
    rewrite (number_after_sign_digits true d ds Hd Hds).
    unfold Json.digits_value. now rewrite Hv.
Qed.

Lemma float_is_eq f g : Spec.float_is f g = true -> f = g.
Proof.
  destruct f as [s | s | | s m e], g as [s' | s' | | s' m' e']; cbn;
    try discriminate; try reflexivity.
  - intros H. apply Bool.eqb_prop in H. now subst.
  - intros H. apply Bool.eqb_prop in H. now subst.
  - intros H. apply andb_true_iff in H as [H He].
    apply andb_true_iff in H as [Hs Hm].
    apply Bool.eqb_prop in Hs. apply Pos.eqb_eq in Hm. apply Z.eqb_eq in He.
    now subst.
Qed.

(** A number starts with a minus sign or a digit; after a minus sign comes
    a digit. *)
Lemma number_after_sign_head neg s v r :
  Json.number_after_sign neg s = Some (v, r) ->
  exists d t, s = d :: t /\ Py.is_digit_ascii d = true.
Proof.
  unfold Json.number_after_sign, Json.int_part.
  destruct s as [| d t]; [discriminate |]. intros H. exists d, t.
  split; [reflexivity |]. unfold Py.is_digit_ascii.
  destruct ((49 <=? d) && (d <=? 57))%N eqn:E.
  - prop_cmp E. decide_cmp. reflexivity.
  - destruct (N.eqb_spec d 48) as [-> | ]; [reflexivity | discriminate].
Qed.

Lemma match_word_digit d t :
  Py.is_digit_ascii d = true -> Json.match_word (d :: t) = None.
Proof.
  unfold Py.is_digit_ascii. intros H. prop_cmp H.
  unfold Json.match_word. cbn [Json.after_prefix str list_ascii_of_string map].
  cbn [N_of_ascii N_of_digits]. cbn -[N.eqb].
  decide_cmp. reflexivity.
Qed.

(** Where a number is the whole of a text, the scanner reads it before a
    text that ends it. *)
Lemma scan_number fuel s v rest :
  Json.match_number s = Some (v, []) -> Spec.number_ends rest ->
  Json.scan_once (S fuel) (s ++ rest) = Json.POk v rest.
Proof.
  intros H Hrest. pose proof (match_number_app _ _ _ H Hrest) as Happ.
  unfold Json.match_number in H. destruct s as [| c t]; [discriminate |].
  cbn [app] in *. cbn [Json.scan_once].
  destruct (N.eqb_spec c 45) as [-> | Hc].
  - destruct (number_after_sign_head _ _ _ _ H) as (d & t' & -> & Hd).
    change (45 =? 34)%N with false. change (45 =? 123)%N with false.
    change (45 =? 91)%N with false. cbn iota.
    replace (Json.match_word (45%N :: (d :: t') ++ rest)) with (@None (json * pystr)).
    + now rewrite Happ.
    + unfold Py.is_digit_ascii in Hd. prop_cmp Hd.
      unfold Json.match_word. cbn -[N.eqb]. decide_cmp. reflexivity.
  - destruct (number_after_sign_head _ _ _ _ H) as (d & t' & [= <- <-] & Hd).
    rewrite (match_word_digit _ _ Hd), Happ.
    unfold Py.is_digit_ascii in Hd. prop_cmp Hd. decide_cmp. reflexivity.
Qed.

Lemma distinct_NoDup ks : Spec.distinct ks = true <-> NoDup ks.
Proof.
  induction ks as [| k ks IH]; cbn [Spec.distinct].
  - split; [constructor | reflexivity].
  - rewrite andb_true_iff, negb_true_iff, IH. split.
    + intros [Hk Hks]. constructor; [| exact Hks]. intros Hin.
      assert (existsb (str_eqb k) ks = true); [| congruence].
      apply existsb_exists. exists k. split; [exact Hin | apply str_eqb_refl].
    + intros H. inversion H as [| ? ? Hk Hks]; subst. split; [| exact Hks].
      destruct (existsb (str_eqb k) ks) eqn:E; [| reflexivity].
      apply existsb_exists in E as (k' & Hin & Heq).
      apply str_eqb_eq in Heq. now subst.
Qed.

Lemma dict_set_fresh k v d :
  ~ In k (map fst d) -> Json.dict_set k v d = d ++ [(k, v)].
Proof.
  induction d as [| [k' v'] d IH]; cbn [Json.dict_set map fst In app]; intros H.
  - reflexivity.
  - destruct (str_eqb k k') eqn:E.
    + apply str_eqb_eq in E. subst. tauto.
    + rewrite IH by tauto. reflexivity.
Qed.

(** A dict made of pairs with distinct keys holds the pairs. *)
Lemma dict_of_pairs_distinct kvs :
  Spec.distinct (map fst kvs) = true -> Json.dict_of_pairs kvs = kvs.
Proof.
  intros H. apply distinct_NoDup in H. unfold Json.dict_of_pairs.
  change kvs with ([] ++ kvs) in H |- * at 2.
  generalize dependent (@nil (pystr * json)).
  induction kvs as [| [k v] kvs IH]; intros d H; cbn [fold_left fst snd].
  - now rewrite app_nil_r.
  - rewrite map_app in H. cbn [map fst] in H.
    pose proof (NoDup_remove_2 _ _ _ H) as Hk.
    rewrite dict_set_fresh by (intros Hin; apply Hk; apply in_or_app; now left).
    replace (d ++ (k, v) :: kvs) with ((d ++ [(k, v)]) ++ kvs)
      by (now rewrite <- app_assoc).
    apply IH. rewrite <- app_assoc, map_app. exact H.
Qed.

Lemma join_cons sep p ps :
  Json.join sep (p :: ps)
  = p ++ match ps with [] => [] | _ :: _ => sep ++ Json.join sep ps end.
Proof. destruct ps; cbn [Json.join]; [now rewrite app_nil_r | reflexivity]. Qed.

Lemma match_number_head s v r :
  Json.match_number s = Some (v, r) ->
  exists c t, s = c :: t /\ (c = 45%N \/ Py.is_digit_ascii c = true).
Proof.
  unfold Json.match_number. destruct s as [| c t]; [discriminate |].
  intros H. exists c, t. split; [reflexivity |].
  destruct (N.eqb_spec c 45) as [-> | Hc]; [now left |]. right.
  destruct (number_after_sign_head _ _ _ _ H) as (d & t' & [= <- <-] & Hd).
  exact Hd.
Qed.

Section RoundTrip.
Context {RT : PyRuntime}.

(** What [dumps] writes starts with a character that is neither white
    space nor a closing bracket. *)
Lemma dumps_head v :
  Spec.floats_read_back v = true ->
  exists c t,
    Json.dumps v = c :: t
    /\ Json.is_ws c = false /\ (c =? 93)%N = false /\ (c =? 125)%N = false.
Proof.
  assert (Hnum : forall c, c = 45%N \/ Py.is_digit_ascii c = true ->
            Json.is_ws c = false /\ (c =? 93)%N = false /\ (c =? 125)%N = false).
  { intros c [-> | Hd]; [repeat split |].
    unfold Py.is_digit_ascii in Hd. prop_cmp Hd. unfold Json.is_ws.
    decide_cmp. repeat split. }
  intros Hf.
  destruct v as [| [|] | z | f | s | l | kvs];
    try (eexists; eexists; split; [reflexivity | repeat split]).
  - destruct (match_number_head _ _ _ (match_number_int z)) as (c & t & E & Hc).
    cbn [Json.dumps]. rewrite E. eauto.
  - cbn [Spec.floats_read_back] in Hf. unfold Spec.float_reads_back in Hf.
    destruct f as [s | [|] | | s m e];
      try (eexists; eexists; split; [reflexivity | repeat split]);
      cbn [Json.dumps Json.floatstr];
      match type of Hf with
      | context [Json.match_number ?x] =>
          destruct (Json.match_number x) as [[g r] |] eqn:E; [| discriminate];
          destruct (match_number_head _ _ _ E) as (c & t & -> & Hc); eauto
      end.
Qed.

Lemma skip_ws_dumps v rest :
  Spec.floats_read_back v = true ->
  Json.skip_ws (Json.dumps v ++ rest) = Json.dumps v ++ rest.
Proof.
  intros Hf. destruct (dumps_head v Hf) as (c & t & -> & Hw & _).
  cbn [app]. unfold Json.skip_ws. cbn [Py.lstrip]. now rewrite Hw.
Qed.

Lemma array_items_written vs : forall v acc rest,
  Forall Spec.reads (v :: vs) ->
  Forall (fun x => Spec.floats_read_back x = true) (v :: vs) ->
  exists fuel,
    Json.array_items fuel
      (Json.join (str ", ") (map Json.dumps (v :: vs)) ++ 93%N :: rest) acc
    = Json.POk (JArr (rev acc ++ v :: vs)) rest.
Proof.
  induction vs as [| w ws IH]; intros v acc rest Hr Hf;
    inversion Hr as [| ? ? Hv Hr']; inversion Hf as [| ? ? Hfv Hf']; subst.
  - destruct (Hv (93%N :: rest) eq_refl) as [f Hs]. exists (S f).
    cbn [map Json.join Json.array_items]. rewrite Hs. reflexivity.
  - cbn [map]. rewrite join_cons. cbn [map] in IH.
    set (J := Json.join (str ", ") (Json.dumps w :: map Json.dumps ws)) in *.
    assert (HJ : Json.skip_ws (J ++ 93%N :: rest) = J ++ 93%N :: rest).
    { subst J. rewrite join_cons, <- app_assoc. apply skip_ws_dumps.
      now inversion Hf'. }
    rewrite <- !app_assoc.
    destruct (Hv (str ", " ++ J ++ 93%N :: rest) eq_refl) as [f1 Hs].
    destruct (IH w (v :: acc) rest Hr' Hf') as [f2 Hi].
    exists (S (Nat.max f1 f2)). cbn [Json.array_items].
    rewrite (scan_more f1 _ _ _ Hs) by (discriminate || lia).
    change (Json.skip_ws (str ", " ++ J ++ 93%N :: rest))
      with (44%N :: 32%N :: J ++ 93%N :: rest).
    change (44 =? 93)%N with false. change (44 =? 44)%N with true. cbn iota.
    change (Json.skip_ws (32%N :: J ++ 93%N :: rest))
      with (Json.skip_ws (J ++ 93%N :: rest)).
    rewrite HJ, (array_items_more f2 _ _ _ _ Hi) by (discriminate || lia).
    cbn [rev]. now rewrite <- app_assoc.
Qed.

Lemma object_items_written kvs : forall kv acc rest,
  Forall (fun kv => Spec.reads (snd kv)) (kv :: kvs) ->
  Forall (fun kv => Spec.floats_read_back (snd kv) = true) (kv :: kvs) ->
  exists fuel,
    Json.object_items fuel
      (Json.join (str ", ") (map Spec.member (kv :: kvs)) ++ 125%N :: rest) acc
    = Json.POk (JObj (Json.dict_of_pairs (rev acc ++ kv :: kvs))) rest.
Proof.
  assert (Hone : forall k v X f acc,
            Spec.floats_read_back v = true ->
            Json.scan_once f (Json.dumps v ++ X) = Json.POk v X ->
            Json.object_items (S f) (Spec.member (k, v) ++ X) acc
            = match Json.skip_ws X with
              | [] => Json.PErr
              | c' :: r' =>
                  if (c' =? 125)%N
                  then Json.POk (JObj (Json.dict_of_pairs (rev ((k, v) :: acc)))) r'
                  else if (c' =? 44)%N
                  then Json.object_items f (Json.skip_ws r') ((k, v) :: acc)
                  else Json.PErr
              end).
  { intros k v X f acc Hfv Hs. unfold Spec.member, Json.encode_basestring.
    cbn [fst snd app]. rewrite <- !app_assoc. cbn [app Json.object_items].
    change (34 =? 34)%N with true. cbn [negb].
    rewrite scanstring_escaped. cbn [rev app].
    change (Json.skip_ws (str ": " ++ Json.dumps v ++ X))
      with (58%N :: 32%N :: Json.dumps v ++ X).
    change (58 =? 58)%N with true. cbn [negb].
    change (Json.skip_ws (32%N :: Json.dumps v ++ X))
      with (Json.skip_ws (Json.dumps v ++ X)).
    rewrite (skip_ws_dumps _ _ Hfv), Hs. reflexivity. }
  induction kvs as [| kw kws IH]; intros [k v] acc rest Hr Hf;
    inversion Hr as [| ? ? Hv Hr']; inversion Hf as [| ? ? Hfv Hf']; subst;
    cbn [snd] in Hv, Hfv.
  - destruct (Hv (125%N :: rest) eq_refl) as [f Hs]. exists (S f).
    cbn [map Json.join]. rewrite (Hone _ _ _ _ _ Hfv Hs).
    cbn [rev]. reflexivity.
  - cbn [map]. rewrite join_cons. cbn [map] in IH.
    set (J := Json.join (str ", ") (Spec.member kw :: map Spec.member kws)) in *.
    assert (HJ : Json.skip_ws (J ++ 125%N :: rest) = J ++ 125%N :: rest).
    { subst J. rewrite join_cons. reflexivity. }
    rewrite <- !app_assoc.
    destruct (Hv (str ", " ++ J ++ 125%N :: rest) eq_refl) as [f1 Hs].
    destruct (IH kw ((k, v) :: acc) rest Hr' Hf') as [f2 Hi].
    exists (S (Nat.max f1 f2)).
    rewrite (Hone _ _ _ _ _ Hfv
               (scan_more f1 (Nat.max f1 f2) _ _ Hs ltac:(discriminate) ltac:(lia))).
    change (Json.skip_ws (str ", " ++ J ++ 125%N :: rest))
      with (44%N :: 32%N :: J ++ 125%N :: rest).
    change (44 =? 125)%N with false. change (44 =? 44)%N with true. cbn iota.
    change (Json.skip_ws (32%N :: J ++ 125%N :: rest))
      with (Json.skip_ws (J ++ 125%N :: rest)).
    rewrite HJ, (object_items_more f2 _ _ _ _ Hi) by (discriminate || lia).
    cbn [rev]. now rewrite <- app_assoc.
Qed.

(** The scanner reads back what [dumps] wrote. *)
Lemma scan_written v :
  Spec.keys_once v = true -> Spec.floats_read_back v = true -> Spec.reads v.
Proof.
  induction v as [| b | z | f | s | l IH | kvs IH] using json_induction;
    intros Hk Hf rest Hrest.
  - exists 1. reflexivity.
  - exists 1. destruct b; reflexivity.
  - exists 1. exact (scan_number 0 _ _ _ (match_number_int z) Hrest).
  - exists 1. cbn [Spec.floats_read_back] in Hf. unfold Spec.float_reads_back in Hf.
    destruct f as [s | [|] | | s m e]; try reflexivity;
      cbn [Json.dumps Json.floatstr];
      match type of Hf with
      | context [Json.match_number ?x] =>
          destruct (Json.match_number x) as [[[| | | g | | |] [| ? ?]] |] eqn:E;
          try discriminate Hf;
          apply float_is_eq in Hf; subst g;
          exact (scan_number 0 _ _ _ E Hrest)
      end.
  - exists 1. cbn [Json.dumps Json.scan_once]. unfold Json.encode_basestring.
    cbn [app]. change (34 =? 34)%N with true. cbn iota.
    rewrite <- app_assoc. cbn [app]. now rewrite scanstring_escaped.
  - cbn [Spec.keys_once Spec.floats_read_back] in Hk, Hf.
    rewrite forallb_forall in Hk, Hf. rewrite Forall_forall in IH.
    destruct l as [| v vs]; [exists 1; reflexivity |].
    destruct (array_items_written vs v [] rest) as [f Hi].
    { apply Forall_forall. intros x Hx. apply (IH x Hx); auto. }
    { apply Forall_forall. intros x Hx. auto. }
    exists (S f). cbn [Json.dumps]. rewrite <- !app_assoc. cbn [app].
    cbn [map] in Hi |- *. rewrite join_cons, <- app_assoc in Hi |- *.
    destruct (dumps_head v (Hf v (or_introl eq_refl)))
      as (c & t & E & Hw & H93 & _).
    cbn [map] in Hi |- *. rewrite E in Hi |- *.
    cbn [app Json.scan_once] in Hi |- *.
    change (91 =? 34)%N with false. change (91 =? 123)%N with false.
    change (91 =? 91)%N with true. cbn iota.
    unfold Json.skip_ws. cbn [Py.lstrip]. rewrite Hw, H93. exact Hi.
  - cbn [Spec.keys_once Spec.floats_read_back] in Hk, Hf.
    apply andb_true_iff in Hk as [Hd Hk].
    rewrite forallb_forall in Hk, Hf. rewrite Forall_forall in IH.
    destruct kvs as [| kv kvs]; [exists 1; reflexivity |].
    destruct (object_items_written kvs kv [] rest) as [f Hi].
    { apply Forall_forall. intros x Hx. apply (IH x Hx); auto. }
    { apply Forall_forall. intros x Hx. auto. }
    cbn [rev app] in Hi. rewrite (dict_of_pairs_distinct _ Hd) in Hi.
    exists (S f). cbn [Json.dumps]. rewrite <- !app_assoc. cbn [app].
    fold Spec.member.
    change (fun kv0 : pystr * json => Spec.member kv0) with Spec.member.
    cbn [map] in Hi |- *. rewrite join_cons, <- app_assoc in Hi |- *.
    unfold Spec.member at 1 in Hi. unfold Spec.member at 1.
    unfold Json.encode_basestring in Hi |- *.
    cbn [map] in Hi |- *.
    cbn [app Json.scan_once] in Hi |- *.
    change (123 =? 34)%N with false. change (123 =? 123)%N with true. cbn iota.
    unfold Json.skip_ws. cbn [Py.lstrip].
    change (Json.is_ws 34) with false. cbn iota.
    change (34 =? 125)%N with false. cbn iota. exact Hi.
Qed.

(** [json.loads(json.dumps(v)) == v], for a value whose floats are read
    back from their text. *)
Lemma loads_dumps v :
  Spec.keys_once v = true -> Spec.floats_read_back v = true ->
  Json.loads (Json.dumps v) = Some v.
Proof.
  intros Hk Hf. destruct (scan_written v Hk Hf [] I) as [fuel Hs].
  rewrite app_nil_r in Hs. apply (loads_of_scan fuel _ _ []); [| reflexivity].
  rewrite <- (app_nil_r (Json.dumps v)), skip_ws_dumps by exact Hf.
  now rewrite app_nil_r.
Qed.

End RoundTrip.

(* ===================================================================== *)
(** ** Every dict [json.loads] returns holds its keys once *)

Lemma dict_set_keys k v d :
  NoDup (map fst d) -> NoDup (map fst (Json.dict_set k v d)).
Proof.
  induction d as [| [k' v'] d IH]; cbn [Json.dict_set map fst]; intros H.
  - constructor; [intros [] | constructor].
  - destruct (str_eqb k k') eqn:E.
    + apply str_eqb_eq in E. subst. exact H.
    + inversion H as [| ? ? Hk Hd]; subst. cbn [map fst]. constructor; [| auto].
      intros Hin. apply Hk. clear - Hin E.
      induction d as [| [k2 v2] d IH]; cbn [Json.dict_set map fst In] in *.
      * destruct Hin as [-> | []]. now rewrite str_eqb_refl in E.
      * destruct (str_eqb k k2) eqn:E2.
        -- apply str_eqb_eq in E2. subst. exact Hin.
        -- cbn [map fst In] in Hin. tauto.
Qed.

Lemma dict_set_values (P : json -> Prop) k v d :
  P v -> Forall (fun kv => P (snd kv)) d ->
  Forall (fun kv => P (snd kv)) (Json.dict_set k v d).
Proof.
  intros Hv. induction 1 as [| [k' v'] d Hx Hd IH]; cbn [Json.dict_set].
  - constructor; [exact Hv | constructor].
  - destruct (str_eqb k k'); constructor; auto.
Qed.

Lemma dict_of_pairs_keys (P : json -> Prop) pairs :
  Forall (fun kv => P (snd kv)) pairs ->
  NoDup (map fst (Json.dict_of_pairs pairs))
  /\ Forall (fun kv => P (snd kv)) (Json.dict_of_pairs pairs).
Proof.
  unfold Json.dict_of_pairs.
  assert (Hgen : forall d,
            NoDup (map fst d) -> Forall (fun kv => P (snd kv)) d ->
            Forall (fun kv => P (snd kv)) pairs ->
            NoDup (map fst (fold_left (fun d kv => Json.dict_set (fst kv) (snd kv) d)
                              pairs d))
            /\ Forall (fun kv => P (snd kv))
                 (fold_left (fun d kv => Json.dict_set (fst kv) (snd kv) d) pairs d)).
  { induction pairs as [| [k v] pairs IH]; intros d Hn Hd Hp; cbn [fold_left].
    - auto.
    - inversion Hp as [| ? ? Hv Hp']; subst. apply IH; [| | exact Hp'].
      + now apply dict_set_keys.
      + now apply dict_set_values. }
  intros Hp. apply Hgen; [constructor | constructor | exact Hp].
Qed.

Lemma number_after_sign_scalar neg s v r :
  Json.number_after_sign neg s = Some (v, r) -> Spec.keys_once v = true.
Proof.
  unfold Json.number_after_sign.
  destruct (Json.int_part s) as [[ipart r0] |]; [| discriminate].
  destruct (Json.frac_part r0) as [frac r1].
  destruct (Json.exp_part r1) as [expo r2].
  destruct frac, expo; intros [= <- _]; reflexivity.
Qed.

Lemma match_number_scalar s v r :
  Json.match_number s = Some (v, r) -> Spec.keys_once v = true.
Proof.
  unfold Json.match_number. destruct s as [| c t]; [discriminate |].
  destruct (c =? 45)%N; apply number_after_sign_scalar.
Qed.

Lemma match_word_scalar s v r :
  Json.match_word s = Some (v, r) -> Spec.keys_once v = true.
Proof.
  unfold Json.match_word. intros H.
  repeat match type of H with
         | context [Json.after_prefix ?p ?l] =>
             destruct (Json.after_prefix p l); [now injection H as <- _ |]
         end.
  discriminate.
Qed.

Lemma keys_once_items l :
  Forall (fun v => Spec.keys_once v = true) l -> Spec.keys_once (JArr l) = true.
Proof.
  intros H. cbn [Spec.keys_once]. apply forallb_forall.
  now apply Forall_forall.
Qed.

Lemma keys_once_members kvs :
  NoDup (map fst kvs) ->
  Forall (fun kv => Spec.keys_once (snd kv) = true) kvs ->
  Spec.keys_once (JObj kvs) = true.
Proof.
  intros Hn H. cbn [Spec.keys_once]. apply andb_true_iff. split.
  - now apply distinct_NoDup.
  - apply forallb_forall. now apply Forall_forall.
Qed.

Lemma scan_keys_once fuel :
  (forall s v r, Json.scan_once fuel s = Json.POk v r -> Spec.keys_once v = true)
  /\ (forall s acc v r,
        Json.array_items fuel s acc = Json.POk v r ->
        Forall (fun v => Spec.keys_once v = true) acc ->
        Spec.keys_once v = true)
  /\ (forall s acc v r,
        Json.object_items fuel s acc = Json.POk v r ->
        Forall (fun kv => Spec.keys_once (snd kv) = true) acc ->
        Spec.keys_once v = true).
Proof.
  induction fuel as [| f [IHs [IHa IHo]]];
    [repeat apply conj; intros; discriminate |].
  repeat apply conj.
  - intros s v r H. cbn [Json.scan_once] in H.
    destruct s as [| c t]; [discriminate |].
    destruct (c =? 34)%N.
    { destruct (Json.scanstring t []) as [[x r0] |]; [| discriminate].
      now injection H as <- _. }
    destruct (c =? 123)%N.
    { destruct (Json.skip_ws t) as [| c1 r1]; [discriminate |].
      destruct (c1 =? 125)%N; [now injection H as <- _ |].
      apply (IHo _ _ _ _ H). constructor. }
    destruct (c =? 91)%N.
    { destruct (Json.skip_ws t) as [| c1 r1]; [discriminate |].
      destruct (c1 =? 93)%N; [now injection H as <- _ |].
      apply (IHa _ _ _ _ H). constructor. }
    destruct (Json.match_word (c :: t)) as [[v0 r0] |] eqn:Ew.
    { injection H as <- _. exact (match_word_scalar _ _ _ Ew). }
    destruct (Json.match_number (c :: t)) as [[v0 r0] |] eqn:Em; [| discriminate].
    injection H as <- _. exact (match_number_scalar _ _ _ Em).
  - intros s acc v r H Hacc. cbn [Json.array_items] in H.
    destruct (Json.scan_once f s) as [v0 r0 | |] eqn:E; try discriminate.
    apply IHs in E.
    destruct (Json.skip_ws r0) as [| c1 r1]; [discriminate |].
    destruct (c1 =? 93)%N.
    { injection H as <- _. apply keys_once_items.
      change (rev acc ++ [v0]) with (rev (v0 :: acc)). apply Forall_rev.
      now constructor. }
    destruct (c1 =? 44)%N; [| discriminate].
    apply (IHa _ _ _ _ H). now constructor.
  - intros s acc v r H Hacc. cbn [Json.object_items] in H.
    destruct s as [| q t]; [discriminate |].
    destruct (negb (q =? 34)%N); [discriminate |].
    destruct (Json.scanstring t []) as [[k r0] |]; [| discriminate].
    destruct (Json.skip_ws r0) as [| c1 r1]; [discriminate |].
    destruct (negb (c1 =? 58)%N); [discriminate |].
    destruct (Json.scan_once f (Json.skip_ws r1)) as [v0 r2 | |] eqn:E;
      try discriminate.
    apply IHs in E.
    destruct (Json.skip_ws r2) as [| c2 r3]; [discriminate |].
    destruct (c2 =? 125)%N.
    { injection H as <- _.
      change (rev acc ++ [(k, v0)]) with (rev ((k, v0) :: acc)).
      destruct (dict_of_pairs_keys (fun v => Spec.keys_once v = true)
                  (rev ((k, v0) :: acc))) as [Hn Hv].
      - apply Forall_rev. now constructor.
      - now apply keys_once_members. }
    destruct (c2 =? 44)%N; [| discriminate].
    apply (IHo _ _ _ _ H). now constructor.
Qed.

(** What [json.loads] returns holds each key of each dict once. *)
Lemma loads_keys_once s v : Json.loads s = Some v -> Spec.keys_once v = true.
Proof.
  unfold Json.loads.
  destruct (Json.scan_once _ _) as [v0 r | |] eqn:E; try discriminate.
  destruct (Json.skip_ws r); [| discriminate]. intros [= <-].
  exact (proj1 (scan_keys_once _) _ _ _ E).
Qed.

(* ===================================================================== *)
(** ** The index of the answers *)

Lemma typed_key_eqb k k' :
  Spec.typed_key k -> Spec.typed_key k' ->
  (Val.key_eqb k k' = true <-> k = k').
Proof.
  intros (z & m & s & ->) (z' & m' & s' & ->). cbn [Val.key_eqb Val.eqb].
  rewrite !andb_true_iff, Z.eqb_eq, !str_eqb_eq. split.
  - intros [[-> ->] ->]. reflexivity.
  - intros [= -> -> ->]. auto.
Qed.

Lemma typed_key_refl k : Spec.typed_key k -> Val.key_eqb k k = true.
Proof. intros H. now apply typed_key_eqb. Qed.

Lemma typed_key_hashable k : Spec.typed_key k -> Val.key_hashable k = true.
Proof. intros (z & m & s & ->). reflexivity. Qed.

Lemma keydict_set_typed k v d :
  Spec.typed_key k -> Forall (fun kv => Spec.typed_key (fst kv)) d ->
  Forall (fun kv => Spec.typed_key (fst kv)) (Val.keydict_set k v d).
Proof.
  intros Hk. induction 1 as [| [k' v'] d Hk' Hd IH]; cbn [Val.keydict_set].
  - repeat constructor. exact Hk.
  - destruct (Val.key_eqb k k'); constructor; auto.
Qed.

(** Among typed identities, the dict behaves as a map. *)
Lemma keydict_find_set k k' v d :
  Spec.typed_key k -> Spec.typed_key k' ->
  Forall (fun kv => Spec.typed_key (fst kv)) d ->
  Val.keydict_find k (Val.keydict_set k' v d)
  = if Val.key_eqb k k' then Some v else Val.keydict_find k d.
Proof.
  intros Hk Hk'. induction 1 as [| [k2 v2] d Hk2 Hd IH];
    cbn [Val.keydict_set Val.keydict_find]; [reflexivity |].
  cbn [fst] in Hk2.
  destruct (Val.key_eqb k' k2) eqn:E2; cbn [Val.keydict_find].
  - apply typed_key_eqb in E2; auto. subst k2.
    destruct (Val.key_eqb k k'); reflexivity.
  - rewrite IH.
    destruct (Val.key_eqb k k2) eqn:E; [| reflexivity].
    apply typed_key_eqb in E; auto. subst k2.
    destruct (Val.key_eqb k k') eqn:E'; [| reflexivity].
    apply typed_key_eqb in E'; auto. subst k'.
    rewrite typed_key_refl in E2 by assumption. discriminate.
Qed.

Section IndexFacts.
Context {RT : PyRuntime}.

(** Looking up a typed identity in the index of a file of typed answers
    gives the last row of the file that has the identity. *)
Lemma index_answers_find lines : forall index index' rows,
  Poll.index_answers lines index = Ok index' ->
  Val.traverse Poll.loads_or_raise lines = Ok rows ->
  Forall Spec.typed_answer rows ->
  Forall (fun kv => Spec.typed_key (fst kv)) index ->
  forall k, Spec.typed_key k ->
    Val.keydict_find k index'
    = match Spec.last_with k rows with
      | Some r => Some r
      | None => Val.keydict_find k index
      end.
Proof.
  induction lines as [| line later IH]; intros index index' rows Hi Ht Hrows Hidx k Hk.
  - injection Hi as <-. injection Ht as <-. reflexivity.
  - cbn [Poll.index_answers Val.traverse] in Hi, Ht. steps Hi. steps Ht.
    injection Ht as <-.
    match goal with
    | H1 : Poll.loads_or_raise line = Ok ?a, H2 : Poll.loads_or_raise line = Ok ?b |- _ =>
        rewrite H1 in H2; injection H2 as <-
    end.
    match type of Hi with (if ?b then _ else _) = _ => destruct b; [| discriminate] end.
    match goal with
    | Hq : Val.getitem ?row "qid" = Ok ?q,
      Hm : Val.getitem ?row "model" = Ok ?m,
      Hs : Val.getitem ?row "setting" = Ok ?s |- _ =>
        assert (Hid : Spec.index_identity row = Ok (q, m, s))
          by (unfold Spec.index_identity; rewrite Hq, Hm, Hs; reflexivity)
    end.
    inversion Hrows as [| ? ? (k0 & Hid0 & Hk0) Hrows']; subst.
    rewrite Hid in Hid0. injection Hid0 as <-.
    match goal with
    | Hl : Val.traverse _ later = Ok ?rs |- _ =>
        rewrite (IH _ _ _ Hi Hl Hrows' (keydict_set_typed _ _ _ Hk0 Hidx) k Hk)
    end.
    cbn [Spec.last_with]. rewrite Hid.
    match goal with
    | |- context [Spec.last_with k ?rs] => destruct (Spec.last_with k rs)
    end; [reflexivity |].
    rewrite keydict_find_set by assumption.
    destruct (Val.key_eqb k _); reflexivity.
Qed.

End IndexFacts.

Lemma last_with_sound k rows row :
  Spec.last_with k rows = Some row ->
  In row rows
  /\ exists k', Spec.index_identity row = Ok k' /\ Val.key_eqb k k' = true.
Proof.
  induction rows as [| r later IH]; cbn [Spec.last_with]; [discriminate |].
  destruct (Spec.last_with k later) as [r' |].
  - intros [= ->]. destruct (IH eq_refl) as [Hin Hk]. split; [now right | exact Hk].
  - destruct (Spec.index_identity r) as [k' |] eqn:Hid; [| discriminate].
    destruct (Val.key_eqb k k') eqn:Hk; [| discriminate].
    intros [= ->]. split; [now left | eauto].
Qed.

Lemma last_with_some k rows row :
  In row rows -> Spec.index_identity row = Ok k -> Val.key_eqb k k = true ->
  exists row', Spec.last_with k rows = Some row'.
Proof.
  induction rows as [| r later IH]; cbn [Spec.last_with In]; [tauto |].
  intros [-> | Hin] Hid Hk.
  - destruct (Spec.last_with k later); [eauto |]. rewrite Hid, Hk. eauto.
  - destruct (IH Hin Hid Hk) as [row' ->]. eauto.
Qed.

(* ===================================================================== *)
(** ** The merge loop against the set of identities *)

Section MergeFacts.
Context {RT : PyRuntime}.
Variable qid_to_category : Z -> option pystr.
Variable extract_label : pystr -> res (option pystr).

Let new_record := Poll.new_record qid_to_category extract_label.
Let merge_line := Poll.merge_line qid_to_category extract_label.
Let merge := Poll.merge qid_to_category extract_label.

(** A turn that returns has formed the identity of the result and looked
    it up in the set; a record is made only when the identity is not in
    the set, and carries the identity in its fields. *)
Lemma new_record_key answers_index already_done line r :
  new_record answers_index already_done line = Ok r ->
  exists model temperature qid present,
    Spec.result_key answers_index line = Ok (JStr model, temperature, JStr qid)
    /\ Val.set_contains (JStr model, temperature, JStr qid) already_done = Ok present
    /\ (present = true -> r = None)
    /\ (forall record, r = Some record ->
          exists int_qid,
            Num.int_of_str qid = Ok int_qid
            /\ Val.getitem record "Model" = Ok (JStr model)
            /\ Val.getitem record "Temperature" = Ok temperature
            /\ Val.getitem record "Question_ind" = Ok (JInt int_qid)).
Proof.
  subst new_record. unfold Poll.new_record, Spec.result_key. intros H.
  steps H.
  match goal with
  | Hs : Poll.split_custom_id _ = Ok ?p |- _ => destruct p as [[qid model] setting]
  end.
  cbn beta iota in H. steps H.
  match goal with
  | Ht : Val.getitem _ "temperature" = Ok ?t,
    Hc : Val.set_contains _ _ = Ok ?b |- _ => exists model, t, qid, b
  end.
  split; [replay; reflexivity |]. split; [assumption |].
  match type of H with (if ?b then _ else _) = _ => destruct b end.
  - injection H as <-. split; [reflexivity | discriminate].
  - split; [discriminate |]. intros record ->. steps H.
    match type of H with match ?l with _ => _ end = _ => destruct l as [label |] end;
      [| discriminate].
    steps H. injection H as <-.
    eexists. split; [eassumption |]. repeat apply conj; reflexivity.
Qed.



(** The records the turns of the merge loop make, in their order. *)
Let records_made (answers_index : Val.keydict) (already_done : Val.keyset)
    (lines : list pystr) : list json :=
  flat_map (fun line =>
              match new_record answers_index already_done line with
              | Ok (Some record) => [record]
              | _ => []
              end) lines.

(** The merge loop, when it gets to its end, has appended the records of
    its turns in their order and counted them. *)
Lemma merge_appended answers_index already_done lines : forall st added f',
  merge answers_index already_done lines st = (Poll.Appended added, f') ->
  Forall (fun line => exists r, new_record answers_index already_done line = Ok r)
         lines
  /\ f' = Spec.append_all (records_made answers_index already_done lines) (fst st)
  /\ added = (snd st
              + List.length (records_made answers_index already_done lines))%nat.
Proof.
  subst merge new_record records_made.
  induction lines as [| line later IH]; intros st added f' H; cbn [Poll.merge] in H.
  - injection H as <- <-. cbn. auto.
  - unfold Poll.merge_line, Utils.append_jsonl in H.
    destruct (Poll.new_record qid_to_category extract_label answers_index
                already_done line) as [[record |] | x] eqn:Hr;
      [| | discriminate].
    + destruct (Py.encodes (Json.dumps record)); [| discriminate].
      destruct (IH _ _ _ H) as (Hall & -> & ->). cbn [flat_map fst snd].
      rewrite Hr. cbn [app List.length].
      repeat apply conj; [constructor; eauto | | lia].
      unfold Spec.append_all. cbn [Utils.lines_of map].
      match goal with
      | |- context [match ?l with [] => _ | _ :: _ => _ end] => destruct l
      end; [reflexivity |].
      now rewrite <- app_assoc.
    + destruct (IH _ _ _ H) as (Hall & -> & ->). cbn [flat_map].
      rewrite Hr. cbn [app].
      repeat apply conj; [constructor; eauto | reflexivity | reflexivity].
Qed.


End MergeFacts.

Section LoadFacts.
Context {RT : PyRuntime}.

Lemma lines_of_append_all records f :
  Utils.lines_of (Spec.append_all records f)
  = Utils.lines_of f ++ map Json.dumps records.
Proof.
  destruct records as [| r rs]; [| reflexivity].
  cbn. now rewrite app_nil_r.
Qed.

(** The set [load_done] of the pollers returns holds what it held before
    and the identity of every line of the log, as far as the identity
    equals itself. *)
Lemma poll_load_lines_ok lines : forall done done',
  Poll.load_lines lines done = Ok done' ->
  (forall k, existsb (Val.key_eqb k) done = true ->
             existsb (Val.key_eqb k) done' = true)
  /\ (forall line rec k,
        In line lines -> Json.loads line = Some rec ->
        Spec.done_key rec = Ok k ->
        Val.key_eqb k k = true ->
        existsb (Val.key_eqb k) done' = true).
Proof.
  induction lines as [| line later IH]; intros done done' H.
  - injection H as <-. split; [auto |]. intros ? ? ? [].
  - cbn [Poll.load_lines] in H. steps H.
    match goal with Ha : Val.set_add _ _ = Ok _ |- _ =>
      apply set_add_ok in Ha as (_ & Hmono & Hnew) end.
    destruct (IH _ _ H) as [IH1 IH2]. split; [auto |].
    intros line' rec' k [<- | Hin] Hl' Hid Hk; [| eauto].
    unfold Poll.loads_or_raise in *. rewrite Hl' in *.
    match goal with Hp : Ok _ = Ok _ |- _ => injection Hp as <- end.
    unfold Spec.done_key in Hid.
    repeat match goal with
           | Hg : Val.getitem rec' _ = Ok _ |- _ => rewrite Hg in Hid; clear Hg
           end.
    cbn [bind] in Hid. injection Hid as <-. auto.
Qed.



End LoadFacts.

(* ===================================================================== *)
(** ** The records of the merge loop are read back as they were written *)

Lemma dict_get_in k kvs x :
  Json.dict_get k kvs = Some x -> exists k', In (k', x) kvs.
Proof.
  induction kvs as [| [k' v] kvs IH]; cbn [Json.dict_get]; [discriminate |].
  destruct (str_eqb k k').
  - intros [= ->]. exists k'. now left.
  - intros H. destruct (IH H) as [k2 Hin]. exists k2. now right.
Qed.

Lemma traverse_forall {A B} (f : A -> res B) (Q : A -> Prop) (R : B -> Prop) l :
  forall ys,
    Val.traverse f l = Ok ys ->
    Forall Q l ->
    (forall x y, Q x -> f x = Ok y -> R y) ->
    Forall R ys.
Proof.
  induction l as [| x l IH]; intros ys H HQ Hf; cbn [Val.traverse] in H.
  - injection H as <-. constructor.
  - steps H. injection H as <-. inversion HQ; subst.
    constructor; [eapply Hf; eassumption | eapply IH; eassumption].
Qed.

Section WrittenFacts.
Context {RT : PyRuntime}.

Lemma round_trips_items l :
  Spec.round_trips (JArr l) = true <-> Forall (fun x => Spec.round_trips x = true) l.
Proof.
  unfold Spec.round_trips. cbn [Spec.keys_once Spec.floats_read_back].
  rewrite andb_true_iff, !forallb_forall, Forall_forall. split.
  - intros [Hk Hf] x Hx. apply andb_true_iff. auto.
  - intros H. split; intros x Hx; apply H in Hx;
      apply andb_true_iff in Hx; tauto.
Qed.

Lemma round_trips_members kvs :
  Spec.round_trips (JObj kvs) = true
  <-> Spec.distinct (map fst kvs) = true
      /\ Forall (fun kv => Spec.round_trips (snd kv) = true) kvs.
Proof.
  unfold Spec.round_trips. cbn [Spec.keys_once Spec.floats_read_back].
  rewrite !andb_true_iff, !forallb_forall, Forall_forall. split.
  - intros [[Hd Hk] Hf]. split; [exact Hd |]. intros x Hx.
    apply andb_true_iff. auto.
  - intros [Hd H]. repeat split; [exact Hd | |]; intros x Hx; apply H in Hx;
      apply andb_true_iff in Hx; tauto.
Qed.

Lemma round_trips_getitem v k x :
  Val.getitem v k = Ok x -> Spec.round_trips v = true -> Spec.round_trips x = true.
Proof.
  unfold Val.getitem. destruct v as [| | | | | | kvs]; try discriminate.
  destruct (Json.dict_get (str k) kvs) as [y |] eqn:E; [| discriminate].
  intros [= ->] H. apply round_trips_members in H as [_ H].
  apply dict_get_in in E as [k' Hin]. rewrite Forall_forall in H.
  exact (H _ Hin).
Qed.

Lemma round_trips_getitem0 v x :
  Val.getitem0 v = Ok x -> Spec.round_trips v = true -> Spec.round_trips x = true.
Proof.
  unfold Val.getitem0.
  destruct v as [| | | | [| c s] | [| y l] | kvs]; try discriminate; intros [= <-] H.
  - reflexivity.
  - apply round_trips_items in H. now inversion H.
Qed.

Lemma round_trips_iterate v l :
  Val.iterate v = Ok l -> Spec.round_trips v = true ->
  Forall (fun x => Spec.round_trips x = true) l.
Proof.
  unfold Val.iterate. destruct v as [| | | | s | l' | kvs]; try discriminate;
    intros [= <-] H.
  - apply Forall_forall. intros x Hx. apply in_map_iff in Hx as (c & <- & _).
    reflexivity.
  - now apply round_trips_items.
  - apply Forall_forall. intros x Hx. apply in_map_iff in Hx as (kv & <- & _).
    reflexivity.
Qed.

(** The list [normalise_logprobs] returns is made of parts of its
    argument and of strings. *)
Lemma normalise_logprobs_round_trips logprobs_obj cleaned :
  Utils.normalise_logprobs logprobs_obj = Ok cleaned ->
  Spec.round_trips logprobs_obj = true ->
  Forall (fun x => Spec.round_trips x = true) cleaned.
Proof.
  unfold Utils.normalise_logprobs. intros H Hobj. steps H.
  match type of H with (if ?b then _ else _) = _ => destruct b end.
  - injection H as <-. constructor.
  - steps H.
    match goal with
    | Hc : Val.getitem logprobs_obj "content" = Ok ?c,
      Hi : Val.iterate ?c = Ok ?es |- _ =>
        pose proof (round_trips_iterate _ _ Hi (round_trips_getitem _ _ _ Hc Hobj))
          as Hentries
    end.
    apply (traverse_forall _ _ _ _ _ H Hentries).
    intros entry y Hentry Hy. steps Hy. injection Hy as <-.
    apply round_trips_members. split; [reflexivity |].
    repeat constructor; cbn [snd];
      try (eapply round_trips_getitem; eassumption).
    apply round_trips_items.
    match goal with
    | Ht : Val.traverse _ ?alts = Ok _, Hi : Val.iterate ?tl = Ok ?alts,
      Hg : Val.getitem entry "top_logprobs" = Ok ?tl |- _ =>
        apply (traverse_forall _ _ _ _ _ Ht
                 (round_trips_iterate _ _ Hi (round_trips_getitem _ _ _ Hg Hentry)))
    end.
    intros alt z Halt Hz. steps Hz. injection Hz as <-.
    apply round_trips_members. split; [reflexivity |].
    repeat constructor; cbn [snd]; try reflexivity.
    eapply round_trips_getitem; eassumption.
Qed.

Lemma keydict_find_in k d row :
  Val.keydict_find k d = Some row -> exists k', In (k', row) d.
Proof.
  induction d as [| [k' v] d IH]; cbn [Val.keydict_find]; [discriminate |].
  destruct (Val.key_eqb k k').
  - intros [= ->]. exists k'. now left.
  - intros H. destruct (IH H) as [k2 Hin]. exists k2. now right.
Qed.

Lemma keydict_set_values (Q : json -> Prop) k v d :
  Q v -> Forall (fun kv => Q (snd kv)) d ->
  Forall (fun kv => Q (snd kv)) (Val.keydict_set k v d).
Proof.
  intros Hv. induction 1 as [| [k' v'] d Hx Hd IH]; cbn [Val.keydict_set].
  - constructor; [exact Hv | constructor].
  - destruct (Val.key_eqb k k'); constructor; auto.
Qed.

(** Every row of the index of the answers is one of the rows of the
    file. *)
Lemma index_answers_rows (Q : json -> Prop) lines : forall index index',
  Poll.index_answers lines index = Ok index' ->
  Forall (fun line => forall row, Json.loads line = Some row -> Q row) lines ->
  Forall (fun kv => Q (snd kv)) index ->
  Forall (fun kv => Q (snd kv)) index'.
Proof.
  induction lines as [| line later IH]; intros index index' H Hl Hi;
    cbn [Poll.index_answers] in H.
  - now injection H as <-.
  - inversion Hl as [| ? ? Hline Hlater]; subst.
    unfold Poll.loads_or_raise in H.
    destruct (Json.loads line) as [row |]; [| discriminate]. cbn [bind] in H.
    steps H.
    match type of H with (if ?b then _ else _) = _ => destruct b; [| discriminate] end.
    apply (IH _ _ H Hlater). apply keydict_set_values; auto.
Qed.

End WrittenFacts.

Section RecordFacts.
Context {RT : PyRuntime}.
Variable qid_to_category : Z -> option pystr.
Variable extract_label : pystr -> res (option pystr).

Let new_record := Poll.new_record qid_to_category extract_label.

Lemma keydict_get_in k d row :
  Val.keydict_get k d = Ok row -> exists k', In (k', row) d.
Proof.
  unfold Val.keydict_get. destruct (Val.key_hashable k); [| discriminate].
  destruct (Val.keydict_find k d) as [v |] eqn:E; [| discriminate].
  intros [= <-]. exact (keydict_find_in _ _ _ E).
Qed.

(** The record of a turn is made of parts of the result, of parts of the
    row of the answer, and of strings and integers; its temperature is the
    temperature of the row. *)
Lemma new_record_round_trips answers_index already_done line record :
  new_record answers_index already_done line = Ok (Some record) ->
  (forall rec, Json.loads line = Some rec -> Spec.round_trips rec = true) ->
  Forall (fun kv => Spec.round_trips (snd kv) = true
                    /\ forall t, Val.getitem (snd kv) "temperature" = Ok t ->
                                 Val.eqb t t = true) answers_index ->
  Spec.round_trips record = true
  /\ exists t, Val.getitem record "Temperature" = Ok t /\ Val.eqb t t = true.
Proof.
  subst new_record. unfold Poll.new_record, Poll.loads_or_raise.
  intros H Hrec Hidx.
  destruct (Json.loads line) as [rec |]; [| discriminate]. cbn [bind] in H.
  specialize (Hrec rec eq_refl). steps H.
  match goal with
  | Hs : Poll.split_custom_id _ = Ok ?p |- _ => destruct p as [[qid model] setting]
  end.
  cbn beta iota in H. steps H.
  match type of H with (if ?b then _ else _) = _ => destruct b end;
    [discriminate |].
  steps H.
  match type of H with match ?l with _ => _ end = _ => destruct l as [label |] end;
    [| discriminate].
  steps H. injection H as <-.
  match goal with
  | Hg : Val.keydict_get _ answers_index = Ok ?row |- _ =>
      destruct (keydict_get_in _ _ _ Hg) as [k' Hin];
      rewrite Forall_forall in Hidx;
      destruct (Hidx _ Hin) as [Hrow Htemp]; cbn [snd] in Hrow, Htemp
  end.
  split.
  - apply round_trips_members. split; [reflexivity |].
    repeat constructor; cbn [snd]; try reflexivity;
      try (eapply round_trips_getitem; eassumption).
    + apply round_trips_items.
      eapply normalise_logprobs_round_trips; [eassumption |].
      repeat (first [ eassumption
                    | eapply round_trips_getitem; [eassumption |]
                    | eapply round_trips_getitem0; [eassumption |] ]).
    + unfold Poll.category. destruct (qid_to_category _); reflexivity.
  - match goal with
    | Ht : Val.getitem _ "temperature" = Ok ?t |- _ =>
        exists t; split; [reflexivity | exact (Htemp _ Ht)]
    end.
Qed.

(** When the floats of the answers and of the batch output are read back
    from their text and no temperature is NaN, every record a run makes is
    read back from the log as it was written. *)
Lemma run_reads_back_holds e output_file :
  Forall Spec.answer_reads_back (Poll.answers_file e) ->
  Forall Spec.result_reads_back (Poll.batch_output e) ->
  Spec.run_reads_back qid_to_category extract_label e output_file.
Proof.
  intros Ha Hb idx done line record Hidx _ Hin Hr.
  assert (Hrows : Forall (fun kv =>
                            Spec.round_trips (snd kv) = true
                            /\ forall t, Val.getitem (snd kv) "temperature" = Ok t ->
                                         Val.eqb t t = true) idx).
  { apply (index_answers_rows
             (fun row => Spec.round_trips row = true
                         /\ forall t, Val.getitem row "temperature" = Ok t ->
                                      Val.eqb t t = true) _ _ _ Hidx);
      [| constructor].
    eapply Forall_impl; [| exact Ha]. intros l Hl row Hrow.
    destruct (Hl row Hrow) as [Hf Ht]. split; [| exact Ht].
    unfold Spec.round_trips. now rewrite (loads_keys_once _ _ Hrow), Hf. }
  destruct (new_record_round_trips idx done line record Hr) as [Hrt Ht];
    [| exact Hrows |].
  - intros rec Hrec. rewrite Forall_forall in Hb.
    unfold Spec.round_trips.
    now rewrite (loads_keys_once _ _ Hrec), (Hb _ Hin rec Hrec).
  - split; [| exact Ht]. unfold Spec.round_trips in Hrt.
    apply andb_true_iff in Hrt as [Hk Hf]. now apply loads_dumps.
Qed.

End RecordFacts.

(* ===================================================================== *)
(** ** A record that was appended is found again *)

Section RerunFacts.
Context {RT : PyRuntime}.
Variable qid_to_category : Z -> option pystr.
Variable extract_label : pystr -> res (option pystr).

Let new_record := Poll.new_record qid_to_category extract_label.

(** The question id of a result with a submitter's id is the text of an
    integer. *)
Lemma result_key_qid answers_index line model temperature qid :
  Spec.result_key answers_index line = Ok (model, temperature, JStr qid) ->
  Spec.submitter_id line ->
  exists z, qid = Num.str_of_int z.
Proof.
  unfold Spec.result_key, Poll.loads_or_raise. intros H Hid.
  destruct (Json.loads line) as [rec |] eqn:Hl; [| discriminate]. cbn [bind] in H.
  steps H.
  match goal with
  | Hs : Poll.split_custom_id _ = Ok ?p |- _ => destruct p as [[q m] s]
  end.
  cbn beta iota in H. steps H. injection H as _ _ <-.
  match goal with
  | Hs : Poll.split_custom_id ?c = Ok _ |- _ =>
      destruct c as [| | | | cid | |]; try discriminate Hs; rename Hs into Hsplit
  end.
  match goal with
  | Hc : Val.getitem rec "custom_id" = Ok _ |- _ =>
      destruct (Hid _ _ Hl Hc) as (z & rest & ->)
  end.
  exists z. unfold Poll.split_custom_id in Hsplit.
  rewrite (split_at_sep 124%N _ _ (str_of_int_no_bar z)) in Hsplit.
  destruct (Py.split 124 rest) as [| m' [| s' [| ? ?]]]; try discriminate.
  now injection Hsplit as <- _ _.
Qed.

(** The identity of a result whose record is in the log, read back, is in
    the set [load_done] makes from the log. *)
Lemma appended_key_loaded answers_index already_done line record k lines done done' :
  new_record answers_index already_done line = Ok (Some record) ->
  Spec.result_key answers_index line = Ok k ->
  Spec.submitter_id line ->
  Spec.reads_back record ->
  In (Json.dumps record) lines ->
  Poll.load_lines lines done = Ok done' ->
  existsb (Val.key_eqb k) done' = true.
Proof.
  intros Hr Hk Hid (Hback & t & Ht & Htt) Hin Hload.
  apply new_record_key in Hr
    as (model & temperature & qid & present & Hk' & _ & _ & Hrec).
  rewrite Hk in Hk'. injection Hk' as ->.
  destruct (Hrec _ eq_refl) as (int_qid & Hint & Hm & Htemp & Hq).
  rewrite Ht in Htemp. injection Htemp as ->.
  destruct (result_key_qid _ _ _ _ _ Hk Hid) as (z & ->).
  rewrite int_of_str_of_int in Hint. injection Hint as <-.
  apply poll_load_lines_ok in Hload as [_ Hload].
  apply (Hload _ _ _ Hin Hback).
  - unfold Spec.done_key. rewrite Hm, Ht, Hq. reflexivity.
  - cbn [Val.key_eqb Val.eqb]. now rewrite !str_eqb_refl, Htt.
Qed.


End RerunFacts.

Section SecondRun.
Context {RT : PyRuntime}.
Variable qid_to_category : Z -> option pystr.
Variable extract_label : pystr -> res (option pystr).

Let new_record := Poll.new_record qid_to_category extract_label.




End SecondRun.

(* ===================================================================== *)
(** ** The matcher on the patterns of [extract_label] *)

Lemma last_of_app pv a b : Spec.last_of pv (a ++ b) = Spec.last_of (Spec.last_of pv a) b.
Proof. unfold Spec.last_of. apply fold_left_app. Qed.

Lemma last_of_in pv run :
  run <> [] -> exists c, Spec.last_of pv run = Some c /\ In c run.
Proof.
  revert pv. induction run as [| c t IH]; intros pv H; [congruence |].
  destruct t as [| d t'].
  - exists c. split; [reflexivity | now left].
  - destruct (IH (Some c)) as (x & Hx & Hin); [discriminate |].
    exists x. split; [exact Hx | now right].
Qed.

(** Two ways to cut a text into filler and a rest that does not start
    with filler cut it at the same place. *)
Lemma filler_unique (filler : N -> bool) F : forall R X T,
  Forall (fun c => filler c = true) F ->
  Forall (fun c => filler c = true) R ->
  match X with c :: _ => filler c = false | [] => False end ->
  match T with c :: _ => filler c = false | [] => False end ->
  F ++ X = R ++ T -> X = T.
Proof.
  induction F as [| f F IH]; intros R X T HF HR HX HT E.
  - destruct R as [| r R]; [exact E |].
    cbn in E. subst X. inversion HR; subst. congruence.
  - inversion HF; subst. destruct R as [| r R].
    + cbn in E. subst T. congruence.
    + inversion HR; subst. injection E as _ E. eauto.
Qed.

Section RegexFacts.
Context {RT : PyRuntime}.

Lemma star_zero p pv s g : In (Re.MState pv s g) (Re.star p pv s g).
Proof.
  destruct s as [| c t]; cbn; [auto |].
  destruct (p c); [apply in_or_app; right |]; now left.
Qed.

(** The star can stop after any run of characters of its class. *)
Lemma star_run p run : forall pv tail g,
  Forall (fun c => p c = true) run ->
  In (Re.MState (Spec.last_of pv run) tail g) (Re.star p pv (run ++ tail) g).
Proof.
  induction run as [| c run IH]; intros pv tail g H.
  - apply star_zero.
  - inversion H as [| ? ? Hc Hrun]; subst. cbn [app Re.star]. rewrite Hc.
    apply in_or_app. left. apply (IH (Some c)), Hrun.
Qed.

(** And it stops nowhere else. *)
Lemma star_in p s : forall pv g st,
  In st (Re.star p pv s g) ->
  exists run tail,
    s = run ++ tail
    /\ Forall (fun c => p c = true) run
    /\ st = Re.MState (Spec.last_of pv run) tail g.
Proof.
  induction s as [| c t IH]; intros pv g st H; cbn [Re.star] in H.
  - destruct H as [<- | []]. exists [], []. auto.
  - destruct (p c) eqn:Hc.
    + apply in_app_or in H as [H | [<- | []]].
      * destruct (IH _ _ _ H) as (run & tail & -> & Hrun & ->).
        exists (c :: run), tail. auto.
      * exists [], (c :: t). auto.
    + destruct H as [<- | []]. exists [], (c :: t). auto.
Qed.

Lemma in_cat r1 r2 st0 st :
  In st (Re.rmatch (Re.Cat r1 r2) st0)
  <-> exists mid, In mid (Re.rmatch r1 st0) /\ In st (Re.rmatch r2 mid).
Proof. cbn [Re.rmatch]. apply in_flat_map. Qed.

Lemma in_chr p st0 st :
  In st (Re.rmatch (Re.Chr p) st0) ->
  exists c t, Re.rest st0 = c :: t /\ p c = true
              /\ st = Re.MState (Some c) t (Re.grp st0).
Proof.
  cbn [Re.rmatch]. destruct (Re.rest st0) as [| c t]; [intros [] |].
  destruct (p c) eqn:Hc; [| intros []]. intros [<- | []]. eauto.
Qed.

Lemma in_wordb st0 st : In st (Re.rmatch Re.WordB st0) -> st = st0.
Proof.
  cbn [Re.rmatch]. destruct (xorb _ _); [| intros []]. now intros [<- | []].
Qed.

(** A literal word matches its spellings, in one way. *)
Lemma rmatch_lit w : forall K pv post g,
  Forall2 (fun l c => Re.ci l c = true) w K ->
  Re.rmatch (Re.lit w) (Re.MState pv (K ++ post) g)
  = [Re.MState (Spec.last_of pv K) post g].
Proof.
  induction w as [| l w IH]; intros K pv post g H; inversion H as [| ? c ? K' Hc HK]; subst.
  - reflexivity.
  - cbn [Re.lit Re.rmatch Re.rest app Re.grp]. rewrite Hc. cbn [flat_map].
    rewrite (IH K' (Some c) post g HK). apply app_nil_r.
Qed.

Lemma rmatch_lit_mismatch l w pv txt g :
  match txt with c :: _ => Re.ci l c = false | [] => True end ->
  Re.rmatch (Re.lit (l :: w)) (Re.MState pv txt g) = [].
Proof.
  intros H. cbn [Re.lit Re.rmatch Re.rest]. destruct txt as [| c t]; [reflexivity |].
  now rewrite H.
Qed.

Lemma in_lit_head l w pv txt g st :
  In st (Re.rmatch (Re.lit (l :: w)) (Re.MState pv txt g)) ->
  exists c t, txt = c :: t /\ Re.ci l c = true.
Proof.
  intros H. apply in_cat in H as (mid & Hmid & _).
  apply in_chr in Hmid as (c & t & Ht & Hc & _). eauto.
Qed.

End RegexFacts.

(** *** Spellings *)

Lemma lowercase_truthful : Spec.lowercase Pat.truthful.
Proof. repeat constructor. Qed.

Lemma lowercase_hallucinated : Spec.lowercase Pat.hallucinated.
Proof. repeat constructor. Qed.

Lemma lowercase_keyword kw : Spec.keyword kw -> Spec.lowercase kw.
Proof.
  intros [-> | ->]; [apply lowercase_truthful | apply lowercase_hallucinated].
Qed.

Lemma spelling_ci w K :
  Spec.spelling w K -> Spec.lowercase w -> Forall2 (fun l c => Re.ci l c = true) w K.
Proof.
  induction 1 as [| l c w K Hc HK IH]; intros Hw; constructor.
  - inversion Hw as [| ? ? Hl _]; subst. unfold Re.ci.
    destruct Hc as [-> | ->].
    + now rewrite N.eqb_refl.
    + rewrite Hl, N.eqb_refl. cbn. now rewrite orb_true_r.
  - inversion Hw; subst. auto.
Qed.

Lemma spelling_length w K : Spec.spelling w K -> List.length K = List.length w.
Proof. induction 1; cbn; congruence. Qed.

(** A spelling is ASCII, and [str.lower] gives the word back. *)
Lemma spelling_lower_ascii w K :
  Spec.spelling w K -> Spec.lowercase w ->
  forallb Py.is_ascii K = true /\ map Py.lower_ascii K = w.
Proof.
  induction 1 as [| l c w K Hc HK IH]; intros Hw; [auto |].
  inversion Hw as [| ? ? Hl Hw']; subst. destruct (IH Hw') as [IH1 IH2].
  cbn [forallb map]. rewrite IH1, IH2.
  unfold Py.is_lower_ascii in Hl. prop_cmp Hl.
  unfold Py.is_ascii, Py.lower_ascii, Py.is_upper_ascii.
  destruct Hc as [-> | ->]; decide_cmp; cbn [andb]; split; try reflexivity.
  f_equal. lia.
Qed.

Lemma spelling_lower {RT : PyRuntime} w K :
  Spec.spelling w K -> Spec.lowercase w -> Py.lower K = w.
Proof.
  intros H Hw. destruct (spelling_lower_ascii w K H Hw) as [Ha Hm].
  unfold Py.lower. now rewrite Ha.
Qed.

(** The letters of a spelling are word characters, no white space and
    no marks. *)
Lemma spelling_letters w K c :
  Spec.spelling w K -> Spec.lowercase w -> In c K ->
  (65 <= c <= 90 \/ 97 <= c <= 122)%N.
Proof.
  induction 1 as [| l d w K Hd HK IH]; intros Hw Hin; [destruct Hin |].
  inversion Hw as [| ? ? Hl Hw']; subst.
  destruct Hin as [<- | Hin]; [| auto].
  unfold Py.is_lower_ascii in Hl. prop_cmp Hl.
  destruct Hd as [-> | ->]; lia.
Qed.

Lemma letter_is_word {RT : PyRuntime} c :
  (65 <= c <= 90 \/ 97 <= c <= 122)%N -> Py.is_word c = true.
Proof.
  intros H. unfold Py.is_word, Py.is_ascii.
  replace (c <? 128)%N with true by (symmetry; apply N.ltb_lt; lia).
  unfold Py.is_digit_ascii, Py.is_upper_ascii, Py.is_lower_ascii.
  destruct H as [H | H]; decide_cmp; cbn; reflexivity.
Qed.

Section KeywordFacts.
Context {RT : PyRuntime}.

Lemma firstn_consumed (K post : pystr) :
  firstn (List.length (K ++ post) - List.length post) (K ++ post) = K.
Proof.
  rewrite length_app, Nat.add_sub. rewrite firstn_app, Nat.sub_diag, firstn_all.
  cbn [firstn]. apply app_nil_r.
Qed.

(** The group of the keyword matches a spelling of a keyword in one way,
    and holds the spelling. *)
Lemma keyword_match kw K pv post g :
  Spec.keyword kw -> Spec.spelling kw K ->
  Re.rmatch Pat.keyword (Re.MState pv (K ++ post) g)
  = [Re.MState (Spec.last_of pv K) post (Some K)].
Proof.
  intros Hkw HK. pose proof (spelling_ci kw K HK (lowercase_keyword kw Hkw)) as Hci.
  unfold Pat.keyword. cbn [Re.rmatch].
  assert (Hhead : exists c K', K = c :: K'
                    /\ (kw = Pat.truthful -> Re.ci 104 c = false)
                    /\ (kw = Pat.hallucinated -> Re.ci 116 c = false)).
  { destruct Hkw as [-> | ->]; inversion HK as [| l c ? K' Hc _]; subst;
      exists c, K'; (split; [reflexivity |]); split; intros E;
        try discriminate E; destruct Hc as [-> | ->]; reflexivity. }
  destruct Hhead as (c & K' & -> & Ht & Hh).
  destruct Hkw as [-> | ->].
  - rewrite (rmatch_lit Pat.truthful (c :: K') pv post g Hci).
    assert (E : Re.rmatch (Re.lit Pat.hallucinated)
                  (Re.MState pv ((c :: K') ++ post) g) = [])
      by exact (rmatch_lit_mismatch 104 (str "allucinated") pv
                  (c :: K' ++ post) g (Ht eq_refl)).
    rewrite E, app_nil_r. cbn [map Re.prev Re.rest].
    now rewrite (firstn_consumed (c :: K') post).
  - rewrite (rmatch_lit Pat.hallucinated (c :: K') pv post g Hci).
    assert (E : Re.rmatch (Re.lit Pat.truthful)
                  (Re.MState pv ((c :: K') ++ post) g) = [])
      by exact (rmatch_lit_mismatch 116 (str "ruthful") pv
                  (c :: K' ++ post) g (Hh eq_refl)).
    rewrite E, app_nil_l. cbn [map Re.prev Re.rest].
    now rewrite (firstn_consumed (c :: K') post).
Qed.

(** Where the group matches, the text starts with a [t] or an [h], in
    either case. *)
Lemma keyword_in pv T g st :
  In st (Re.rmatch Pat.keyword (Re.MState pv T g)) ->
  exists c T', T = c :: T' /\ (c = 116 \/ c = 84 \/ c = 104 \/ c = 72)%N.
Proof.
  unfold Pat.keyword. cbn [Re.rmatch]. intros H.
  apply in_map_iff in H as (m & _ & H).
  apply in_app_or in H as [H | H]; apply in_lit_head in H as (c & t & -> & Hc);
    exists c, t; (split; [reflexivity |]);
    unfold Re.ci in Hc; cbn [Py.is_lower_ascii] in Hc;
    repeat (apply orb_true_iff in Hc as [Hc | Hc]);
    try (apply andb_true_iff in Hc as [Hc1 Hc]; try discriminate Hc1);
    try discriminate Hc; apply N.eqb_eq in Hc; subst; auto.
Qed.

Lemma spelling_head kw K :
  Spec.keyword kw -> Spec.spelling kw K ->
  exists c K', K = c :: K' /\ (65 <= c <= 90 \/ 97 <= c <= 122)%N.
Proof.
  intros Hkw HK.
  assert (Hne : exists c K', K = c :: K')
    by (destruct Hkw as [-> | ->]; inversion HK; subst; eauto).
  destruct Hne as (c & K' & ->). exists c, K'. split; [reflexivity |].
  apply (spelling_letters kw (c :: K') c HK (lowercase_keyword kw Hkw)). now left.
Qed.

Lemma spelling_last kw K pv :
  Spec.keyword kw -> Spec.spelling kw K -> Re.word_at (Spec.last_of pv K) = true.
Proof.
  intros Hkw HK. destruct (spelling_head kw K Hkw HK) as (c & K' & -> & _).
  destruct (last_of_in pv (c :: K')) as (x & -> & Hin); [discriminate |].
  cbn [Re.word_at]. apply letter_is_word.
  exact (spelling_letters kw (c :: K') x HK (lowercase_keyword kw Hkw) Hin).
Qed.

(** The keyword and the [\b] after it, on a spelling that ends a word. *)
Lemma keyword_word_match kw K pv post g :
  Spec.keyword kw -> Spec.spelling kw K -> Spec.word_ends post ->
  Re.rmatch (Re.Cat Pat.keyword Re.WordB) (Re.MState pv (K ++ post) g)
  = [Re.MState (Spec.last_of pv K) post (Some K)].
Proof.
  intros Hkw HK Hpost.
  change (Re.rmatch (Re.Cat Pat.keyword Re.WordB) (Re.MState pv (K ++ post) g))
    with (flat_map (Re.rmatch Re.WordB)
            (Re.rmatch Pat.keyword (Re.MState pv (K ++ post) g))).
  rewrite (keyword_match kw K pv post g Hkw HK).
  cbn [flat_map Re.rmatch Re.prev Re.rest].
  rewrite (spelling_last kw K pv Hkw HK). unfold Spec.word_ends in Hpost.
  rewrite Hpost. reflexivity.
Qed.

End KeywordFacts.

Section ShapeFacts.
Context {RT : PyRuntime}.

Lemma matched_with_head K results :
  Spec.matched_with K results ->
  exists st tl, results = st :: tl /\ Re.grp st = Some K.
Proof.
  intros [Hne Hall]. destruct results as [| st tl]; [congruence |].
  exists st, tl. split; [reflexivity |]. apply Hall. now left.
Qed.

(** [re.search] returns the match at the first position that has one. *)
Lemma search_unmatched r pre : forall pv rest st tl,
  Spec.unmatched r pv pre rest ->
  Re.rmatch r (Re.MState (Spec.last_of pv pre) rest None) = st :: tl ->
  Re.search_from r pv (pre ++ rest) = Some st.
Proof.
  induction pre as [| c pre IH]; intros pv rest st tl Hu Hm.
  - cbn [app Spec.last_of fold_left] in *.
    destruct rest; cbn [Re.search_from]; now rewrite Hm.
  - destruct Hu as [Hnone Hu]. cbn [app Re.search_from].
    cbn [app] in Hnone. rewrite Hnone. exact (IH (Some c) rest st tl Hu Hm).
Qed.

Lemma search_matched_with r pre rest K :
  Spec.unmatched r None pre rest ->
  Spec.matched_with K (Re.rmatch r (Re.MState (Spec.last_of None pre) rest None)) ->
  exists st, Re.search r (pre ++ rest) = Some st /\ Re.grp st = Some K.
Proof.
  intros Hu Hm. apply matched_with_head in Hm as (st & tl & Hm & Hg).
  exists st. split; [| exact Hg]. exact (search_unmatched r pre None rest st tl Hu Hm).
Qed.

(** Three stars of classes that hold no letter, then the keyword and
    [\b]: on white space and marks followed by a spelling of a keyword that
    ends a word, the pattern matches and the group is the spelling. *)
Lemma decorated_keyword (p1 p2 p3 : N -> bool) kw r1 r2 r3 K post pv g :
  (forall c, (65 <= c <= 90 \/ 97 <= c <= 122)%N ->
             p1 c = false /\ p2 c = false /\ p3 c = false) ->
  Forall (fun c => p1 c = true) r1 ->
  Forall (fun c => p2 c = true) r2 ->
  Forall (fun c => p3 c = true) r3 ->
  Spec.keyword kw -> Spec.spelling kw K -> Spec.word_ends post ->
  Spec.matched_with K
    (Re.rmatch
       (Re.Cat (Re.Star p1) (Re.Cat (Re.Star p2) (Re.Cat (Re.Star p3)
          (Re.Cat Pat.keyword Re.WordB))))
       (Re.MState pv (r1 ++ r2 ++ r3 ++ K ++ post) g)).
Proof.
  intros Hletters H1 H2 H3 Hkw HK Hpost.
  set (filler := fun c => p1 c || p2 c || p3 c).
  assert (Hf : forall p l, (forall c, p c = true -> filler c = true) ->
                 Forall (fun c => p c = true) l ->
                 Forall (fun c => filler c = true) l)
    by (intros p l Hp Hl; eapply Forall_impl; [exact Hp | exact Hl]).
  assert (Hf1 : forall c, p1 c = true -> filler c = true)
    by (intros c Hc; unfold filler; now rewrite Hc).
  assert (Hf2 : forall c, p2 c = true -> filler c = true)
    by (intros c Hc; unfold filler; rewrite Hc; now rewrite orb_true_r).
  assert (Hf3 : forall c, p3 c = true -> filler c = true)
    by (intros c Hc; unfold filler; rewrite Hc; now rewrite orb_true_r).
  assert (Hnf : forall c, (65 <= c <= 90 \/ 97 <= c <= 122)%N -> filler c = false).
  { intros c Hc. destruct (Hletters c Hc) as (E1 & E2 & E3).
    unfold filler. now rewrite E1, E2, E3. }
  split.
  - assert (Hin : In (Re.MState (Spec.last_of (Spec.last_of (Spec.last_of
                        (Spec.last_of pv r1) r2) r3) K) post (Some K))
                    (Re.rmatch
                       (Re.Cat (Re.Star p1) (Re.Cat (Re.Star p2) (Re.Cat (Re.Star p3)
                          (Re.Cat Pat.keyword Re.WordB))))
                       (Re.MState pv (r1 ++ r2 ++ r3 ++ K ++ post) g))).
    { apply in_cat. eexists. split; [exact (star_run p1 r1 pv _ g H1) |].
      apply in_cat. eexists. split; [exact (star_run p2 r2 _ _ g H2) |].
      apply in_cat. eexists. split; [exact (star_run p3 r3 _ _ g H3) |].
      rewrite (keyword_word_match kw K _ post g Hkw HK Hpost). now left. }
    intros E. rewrite E in Hin. destruct Hin.
  - intros st Hin.
    apply in_cat in Hin as (m1 & Hm1 & Hin).
    apply star_in in Hm1 as (run1 & t1 & E1 & Hr1 & ->).
    apply in_cat in Hin as (m2 & Hm2 & Hin).
    apply star_in in Hm2 as (run2 & t2 & E2 & Hr2 & ->).
    apply in_cat in Hin as (m3 & Hm3 & Hin).
    apply star_in in Hm3 as (run3 & t3 & E3 & Hr3 & ->).
    cbn [Re.rest] in E2, E3. subst t1 t2.
    assert (Ht3 : t3 = K ++ post).
    { symmetry.
      apply (filler_unique filler (r1 ++ r2 ++ r3) (run1 ++ run2 ++ run3)).
      - repeat (apply Forall_app; split); eauto.
      - repeat (apply Forall_app; split); eauto.
      - destruct (spelling_head kw K Hkw HK) as (c & K' & -> & Hc).
        cbn [app]. auto.
      - apply in_cat in Hin as (m & Hm & _).
        apply keyword_in in Hm as (c & T' & -> & Hc).
        apply Hnf. clear - Hc. lia.
      - rewrite <- !app_assoc. exact E1. }
    subst t3. rewrite (keyword_word_match kw K _ post g Hkw HK Hpost) in Hin.
    destruct Hin as [<- | []]. reflexivity.
Qed.

End ShapeFacts.

(** *** The classes of the patterns hold no letter *)

Lemma letter_not_space c :
  (65 <= c <= 90 \/ 97 <= c <= 122)%N -> Py.isspace c = false.
Proof. intros H. unfold Py.isspace. decide_cmp. reflexivity. Qed.

Lemma letter_not_among cs c :
  (65 <= c <= 90 \/ 97 <= c <= 122)%N ->
  Forall (fun x => (x < 65 \/ 90 < x < 97 \/ 122 < x)%N) cs ->
  Re.oneof cs c = false.
Proof.
  intros Hc. unfold Re.oneof. induction 1 as [| x cs Hx _ IH]; cbn [existsb].
  - reflexivity.
  - rewrite IH. decide_cmp. reflexivity.
Qed.

Lemma letter_not_quote c :
  (65 <= c <= 90 \/ 97 <= c <= 122)%N -> Re.oneof [39; 34; 96]%N c = false.
Proof. intros H. apply letter_not_among; [exact H |]. repeat constructor; lia. Qed.

Lemma letter_not_mark c :
  (65 <= c <= 90 \/ 97 <= c <= 122)%N -> Re.oneof (str "*_`~") c = false.
Proof. intros H. apply letter_not_among; [exact H |]. repeat constructor; cbn; lia. Qed.

Lemma separator_not_space c : Re.oneof (str ":=") c = true -> Py.isspace c = false.
Proof.
  unfold Re.oneof. cbn [str map list_ascii_of_string existsb].
  change (N_of_ascii ":") with 58%N. change (N_of_ascii "=") with 61%N.
  intros H. apply orb_true_iff in H as [H | H];
    [| apply orb_true_iff in H as [H | H]; [| discriminate]];
    apply N.eqb_eq in H; subst; reflexivity.
Qed.

Section PatternFacts.
Context {RT : PyRuntime}.

Lemma matched_with_in K results :
  Spec.matched_with K results -> exists st, In st results.
Proof.
  intros H. apply matched_with_head in H as (st & tl & -> & _).
  exists st. now left.
Qed.

Lemma rmatch_cat_single r1 r2 st1 st0 :
  Re.rmatch r1 st0 = [st1] ->
  Re.rmatch (Re.Cat r1 r2) st0 = Re.rmatch r2 st1.
Proof. intros H. cbn [Re.rmatch]. rewrite H. cbn [flat_map]. apply app_nil_r. Qed.

(** The word pattern on a standalone spelling of a keyword. *)
Lemma word_shape kw K pv post :
  Spec.keyword kw -> Spec.spelling kw K ->
  Re.word_at pv = false -> Spec.word_ends post ->
  Spec.matched_with K (Re.rmatch Pat.word (Re.MState pv (K ++ post) None)).
Proof.
  intros Hkw HK Hpv Hpost.
  change (Re.rmatch Pat.word (Re.MState pv (K ++ post) None))
    with (flat_map (Re.rmatch (Re.Cat Pat.keyword Re.WordB))
            (Re.rmatch Re.WordB (Re.MState pv (K ++ post) None))).
  cbn [Re.rmatch Re.prev Re.rest]. rewrite Hpv.
  destruct (spelling_head kw K Hkw HK) as (c & K' & -> & Hc).
  cbn [app hd_error Re.word_at]. rewrite (letter_is_word c Hc). cbn [xorb flat_map].
  change (c :: K' ++ post) with ((c :: K') ++ post).
  pose proof (keyword_word_match kw (c :: K') pv post None Hkw HK Hpost) as Hm.
  cbn [Re.rmatch] in Hm. rewrite Hm. cbn [app]. split; [discriminate |].
  intros st [<- | []]. reflexivity.
Qed.

(** The arrow pattern on an arrow, white space, marks, white space and a
    spelling of a keyword that ends a word. *)
Lemma arrow_shape kw ws1 marks ws2 K post pv :
  Spec.spaces ws1 -> Spec.among (str "*_`~") marks -> Spec.spaces ws2 ->
  Spec.keyword kw -> Spec.spelling kw K -> Spec.word_ends post ->
  Spec.matched_with K
    (Re.rmatch Pat.arrow_label
       (Re.MState pv (Pat.arrow :: ws1 ++ marks ++ ws2 ++ K ++ post) None)).
Proof.
  intros H1 H2 H3 Hkw HK Hpost.
  change (Re.rmatch Pat.arrow_label
            (Re.MState pv (Pat.arrow :: ws1 ++ marks ++ ws2 ++ K ++ post) None))
    with (Re.rmatch
            (Re.Cat (Re.Star Py.isspace) (Re.Cat (Re.Star (Re.oneof (str "*_`~")))
               (Re.Cat (Re.Star Py.isspace) (Re.Cat Pat.keyword Re.WordB))))
            (Re.MState (Some Pat.arrow) (ws1 ++ marks ++ ws2 ++ K ++ post) None)
          ++ []).
  rewrite app_nil_r.
  apply (decorated_keyword Py.isspace (Re.oneof (str "*_`~")) Py.isspace kw);
    auto.
  intros c Hc. repeat split;
    [apply letter_not_space | apply letter_not_mark | apply letter_not_space]; exact Hc.
Qed.

(** The arrow pattern matches nowhere before the first arrow. *)
Lemma arrow_unmatched pre : forall pv rest,
  ~ In Pat.arrow pre -> Spec.unmatched Pat.arrow_label pv pre rest.
Proof.
  induction pre as [| c pre IH]; intros pv rest H; cbn [Spec.unmatched]; [exact I |].
  split.
  - assert (Hc : Re.ci Pat.arrow c = false).
    { unfold Re.ci, Pat.arrow. cbn [Py.is_lower_ascii N.leb N.compare Pos.compare
                                     Pos.compare_cont andb N.eqb Pos.eqb orb].
      rewrite !orb_false_r. apply N.eqb_neq. intros ->. apply H. now left. }
    cbn [app]. unfold Pat.arrow_label. cbn [Pat.seq Re.rmatch Re.rest].
    now rewrite Hc.
  - apply IH. intros Hin. apply H. now right.
Qed.

(** The label pattern on the word "label", a separator, quotes and a
    spelling of a keyword that ends a word. *)
Lemma label_shape kw L ws1 sep ws2 quotes ws3 K post pv :
  Re.word_at pv = false -> Spec.spelling (str "label") L ->
  Spec.spaces ws1 -> Re.oneof (str ":=") sep = true ->
  Spec.spaces ws2 -> Spec.among [39; 34; 96]%N quotes -> Spec.spaces ws3 ->
  Spec.keyword kw -> Spec.spelling kw K -> Spec.word_ends post ->
  Spec.matched_with K
    (Re.rmatch Pat.label_line
       (Re.MState pv (L ++ ws1 ++ sep :: ws2 ++ quotes ++ ws3 ++ K ++ post) None)).
Proof.
  intros Hpv HL H1 Hsep H2 Hq H3 Hkw HK Hpost.
  set (rest := ws2 ++ quotes ++ ws3 ++ K ++ post).
  set (tail3 := Re.Cat (Re.Star Py.isspace) (Re.Cat (Re.Star (Re.oneof [39; 34; 96]%N))
                  (Re.Cat (Re.Star Py.isspace) (Re.Cat Pat.keyword Re.WordB)))).
  assert (Hlabel : Spec.lowercase (str "label")) by (repeat constructor).
  assert (Htail : forall pv', Spec.matched_with K
                    (Re.rmatch tail3 (Re.MState pv' rest None))).
  { intros pv'. apply (decorated_keyword Py.isspace (Re.oneof [39; 34; 96]%N)
                         Py.isspace kw); auto.
    intros c Hc. repeat split;
      [apply letter_not_space | apply letter_not_quote | apply letter_not_space];
      exact Hc. }
  assert (Hhead : exists c L', L = c :: L' /\ Py.is_word c = true).
  { inversion HL as [| l c ? L' Hc _]; subst. exists c, L'. split; [reflexivity |].
    apply letter_is_word.
    apply (spelling_letters (str "label") (c :: L') c HL Hlabel). now left. }
  destruct Hhead as (c & L' & HLeq & Hword).
  change Pat.label_line
    with (Re.Cat Re.WordB (Re.Cat (Re.lit (str "label"))
            (Re.Cat (Re.Star Py.isspace)
               (Re.Cat (Re.Chr (Re.oneof (str ":="))) tail3)))).
  rewrite (rmatch_cat_single Re.WordB _
             (Re.MState pv (L ++ ws1 ++ sep :: rest) None)
             (Re.MState pv (L ++ ws1 ++ sep :: rest) None)).
  2:{ cbn [Re.rmatch Re.prev Re.rest]. rewrite Hpv, HLeq.
      cbn [app hd_error Re.word_at]. now rewrite Hword. }
  rewrite (rmatch_cat_single (Re.lit (str "label")) _
             (Re.MState (Spec.last_of pv L) (ws1 ++ sep :: rest) None)
             (Re.MState pv (L ++ ws1 ++ sep :: rest) None)).
  2:{ exact (rmatch_lit (str "label") L pv (ws1 ++ sep :: rest) None
               (spelling_ci _ _ HL Hlabel)). }
  split.
  - destruct (matched_with_in K _ (Htail (Some sep))) as [st Hst].
    assert (Hin : In st (Re.rmatch
                           (Re.Cat (Re.Star Py.isspace)
                              (Re.Cat (Re.Chr (Re.oneof (str ":="))) tail3))
                           (Re.MState (Spec.last_of pv L) (ws1 ++ sep :: rest) None))).
    { apply in_cat. eexists. split; [exact (star_run Py.isspace ws1 _ _ None H1) |].
      apply in_cat. exists (Re.MState (Some sep) rest None). split; [| exact Hst].
      cbn [Re.rmatch Re.rest Re.grp]. rewrite Hsep. now left. }
    intros E. rewrite E in Hin. destruct Hin.
  - intros st Hin. apply in_cat in Hin as (m1 & Hm1 & Hin).
    apply star_in in Hm1 as (run & t & E & Hrun & ->).
    apply in_cat in Hin as (m2 & Hm2 & Hin).
    apply in_chr in Hm2 as (x & t' & Ex & Hx & ->). cbn [Re.rest Re.grp] in Ex.
    subst t.
    assert (Et : sep :: rest = x :: t').
    { apply (filler_unique Py.isspace ws1 run); auto.
      - now apply separator_not_space.
      - now apply separator_not_space. }
    injection Et as <- <-.
    destruct (Htail (Some sep)) as [_ Hall]. apply Hall. exact Hin.
Qed.

End PatternFacts.

(* ===================================================================== *)
(** ** C6 and C4: what the pollers leave alone *)



(** C4. For a batch result whose judge text has no label ([extract_label]
    returns [None]), a turn of the merge loop leaves the evaluation log and
    the counter [added] as they are: it ends in [continue], or in an
    exception raised before the label is looked at. A turn that raises
    nothing and changes the file or the counter has appended one record,
    whose classification is the label extracted from the judge text of the
    result, and has counted it; a turn that raises has written no line and
    counted nothing. The statement holds for the [extract_label] of either
    poller. *)
Theorem C4_unlabelled_result_is_not_appended :
  forall (RT : PyRuntime) (qid_to_category : Z -> option pystr)
         (extract_label : pystr -> res (option pystr))
         (answers_index : Val.keydict) (already_done : Val.keyset)
         (line : pystr) (rec : json) (eval_txt : pystr) (st : Utils.file * nat),
    Json.loads line = Some rec ->
    Spec.judge_text rec = Ok eval_txt ->
    (extract_label eval_txt = Ok None ->
       exists raised,
         Poll.merge_line qid_to_category extract_label answers_index already_done
           line st = (raised, st))
    /\ (forall st',
          Poll.merge_line qid_to_category extract_label answers_index
            already_done line st = (None, st') ->
          st' <> st ->
          exists label record,
            extract_label eval_txt = Ok (Some label)
            /\ Val.getitem record "classification" = Ok (JStr label)
            /\ st' = (Some (Utils.lines_of (fst st) ++ [Json.dumps record]),
                      S (snd st)))
    /\ (forall x st',
          Poll.merge_line qid_to_category extract_label answers_index
            already_done line st = (Some x, st') ->
          Utils.lines_of (fst st') = Utils.lines_of (fst st) /\ snd st' = snd st).
Proof.
  intros RT cat extract idx done line rec txt st Hl Hj. repeat apply conj.
  - intros He. unfold Poll.merge_line.
    destruct (Poll.new_record cat extract idx done line) as [[record |] | x] eqn:Hr;
      [| eauto ..].
    apply (new_record_no_label _ _ _ _ _ _ _ Hl Hj He) in Hr. discriminate.
  - intros st' Hm Hne.
    apply merge_line_ok in Hm as [[_ ->] | (record & Hr & _ & ->)];
      [now destruct Hne |].
    apply new_record_some in Hr as (rec' & txt' & label & Hl' & Hj' & He' & Hc & _).
    rewrite Hl in Hl'. injection Hl' as <-.
    rewrite Hj in Hj'. injection Hj' as <-.
    exists label, record. auto.
  - intros x st' Hm. exact (merge_line_raises _ _ _ _ _ _ _ _ Hm).
Qed.

Lemma C4_witness :
  exists rec,
    Json.loads Examples.unlabelled_result = Some rec
    /\ Spec.judge_text rec = Ok (str "I cannot tell.")
    /\ PollTruthqaBatches.extract_label (RT := Ref.runtime) (str "I cannot tell.")
       = Ok None
    /\ exists raised,
         Poll.merge_line (RT := Ref.runtime) Examples.categories
           (PollTruthqaBatches.extract_label (RT := Ref.runtime))
           Examples.answers_index []
           Examples.unlabelled_result (None, 0)
         = (raised, (None, 0)).
Proof.
  destruct (Json.loads Examples.unlabelled_result) as [rec |] eqn:Hl;
    [| vm_compute in Hl; discriminate].
  exists rec.
  assert (Hj : Spec.judge_text rec = Ok (str "I cannot tell."))
    by (vm_compute in Hl; injection Hl as <-; vm_compute; reflexivity).
  assert (He : PollTruthqaBatches.extract_label (RT := Ref.runtime)
                 (str "I cannot tell.") = Ok None)
    by (vm_compute; reflexivity).
  split; [reflexivity |]. split; [exact Hj |]. split; [exact He |].
  destruct (C4_unlabelled_result_is_not_appended Ref.runtime Examples.categories
              (PollTruthqaBatches.extract_label (RT := Ref.runtime))
              Examples.answers_index []
              Examples.unlabelled_result rec _ (None, 0) Hl Hj) as [H _].
  exact (H He).
Defined.

(* ===================================================================== *)
(** ** C7: what the submitter sends *)



(* ===================================================================== *)
(** ** C8: the correlation id *)

(** The claim as stated fails for an answer whose model name holds the
    separator: the submitter writes the id "7|a|b|warm", which splits into
    four parts, and the merger raises [ValueError] at the unpacking. *)
Lemma C8_counterexample :
  Submit.build_request (RT := Ref.runtime) Examples.submitter Examples.bar_answer
  = Ok Examples.bar_request
  /\ Val.getitem Examples.bar_request "custom_id" = Ok (JStr (str "7|a|b|warm"))
  /\ Py.split 124 (str "7|a|b|warm") = [str "7"; str "a"; str "b"; str "warm"]
  /\ Poll.split_custom_id (JStr (str "7|a|b|warm")) = Raise ValueError.
Proof. repeat apply conj; vm_compute; reflexivity. Qed.

(** C8, amended. For an answer with an integer question id, whose model
    and setting are strings without the separator "|": the [custom_id] of
    the request the submitter builds splits into the text of the question
    id, the model and the setting; [int()] of the text is the question id;
    and in the index of an answers file of typed answers that holds the
    answer, the merger's lookup of the triple returns the last row of the
    file with this identity. *)
Theorem C8_custom_id_round_trip :
  forall (RT : PyRuntime) (e : Submit.env) (row request : json)
         (z : Z) (model setting : pystr),
    Spec.index_identity row = Ok (JInt z, JStr model, JStr setting) ->
    ~ In 124%N model ->
    ~ In 124%N setting ->
    Submit.build_request e row = Ok request ->
    exists custom_id,
      Val.getitem request "custom_id" = Ok custom_id
      /\ Poll.split_custom_id custom_id = Ok (Num.str_of_int z, model, setting)
      /\ Num.int_of_str (Num.str_of_int z) = Ok z
      /\ forall lines rows answers_index,
           Val.traverse Poll.loads_or_raise lines = Ok rows ->
           Forall Spec.typed_answer rows ->
           Poll.index_answers lines [] = Ok answers_index ->
           In row rows ->
           exists row',
             Val.keydict_get (JInt z, JStr model, JStr setting) answers_index
             = Ok row'
             /\ Spec.last_with (JInt z, JStr model, JStr setting) rows = Some row'
             /\ In row' rows
             /\ Spec.index_identity row' = Ok (JInt z, JStr model, JStr setting).
Proof.
  intros RT e row request z model setting Hid Hm Hs Hb.
  assert (Hk : Spec.typed_key (JInt z, JStr model, JStr setting))
    by (exists z, model, setting; reflexivity).
  unfold Spec.index_identity in Hid. steps Hid. injection Hid as -> -> ->.
  unfold Submit.build_request in Hb. steps Hb. injection Hb as <-.
  repeat match goal with
         | H1 : ?m = Ok ?a, H2 : ?m = Ok ?b |- _ =>
             rewrite H1 in H2; injection H2 as <-
         end.
  eexists. split; [reflexivity |]. split; [| split].
  - unfold Poll.split_custom_id, Submit.custom_id. cbn [Val.to_str app].
    rewrite (@split_at_sep 124%N _ _ (str_of_int_no_bar z)).
    rewrite (@split_at_sep 124%N _ _ Hm), (@split_no_sep 124%N _ Hs).
    reflexivity.
  - apply int_of_str_of_int.
  - intros lines rows idx Ht Hrows Hi Hin.
    pose proof (index_answers_find _ _ _ _ Hi Ht Hrows (Forall_nil _) _ Hk) as Hfind.
    destruct (last_with_some (JInt z, JStr model, JStr setting) rows row Hin)
      as [row' Hlast].
    { unfold Spec.index_identity. replay. reflexivity. }
    { now apply typed_key_refl. }
    rewrite Hlast in Hfind.
    destruct (last_with_sound _ _ _ Hlast) as (Hin' & k' & Hid' & Heq).
    exists row'. unfold Val.keydict_get.
    rewrite (typed_key_hashable _ Hk), Hfind.
    repeat apply conj; auto.
    rewrite Forall_forall in Hrows.
    destruct (Hrows _ Hin') as (k'' & Hid'' & Hk'').
    rewrite Hid' in Hid''. injection Hid'' as <-.
    apply typed_key_eqb in Heq; auto. now subst k'.
Qed.

Lemma C8_witness :
  Spec.index_identity Examples.second_answer
  = Ok (JInt 8, JStr (str "m1"), JStr (str "warm"))
  /\ ~ In 124%N (str "m1")
  /\ ~ In 124%N (str "warm")
  /\ Submit.build_request (RT := Ref.runtime) Examples.submitter
       Examples.second_answer = Ok Examples.second_request
  /\ exists custom_id,
       Val.getitem Examples.second_request "custom_id" = Ok custom_id
       /\ Poll.split_custom_id custom_id = Ok (str "8", str "m1", str "warm").
Proof.
  assert (H1 : Spec.index_identity Examples.second_answer
               = Ok (JInt 8, JStr (str "m1"), JStr (str "warm")))
    by (vm_compute; reflexivity).
  assert (H2 : ~ In 124%N (str "m1"))
    by (cbn; intros H; repeat destruct H as [H | H]; discriminate || exact H).
  assert (H3 : ~ In 124%N (str "warm"))
    by (cbn; intros H; repeat destruct H as [H | H]; discriminate || exact H).
  assert (H4 : Submit.build_request (RT := Ref.runtime) Examples.submitter
                 Examples.second_answer = Ok Examples.second_request)
    by (vm_compute; reflexivity).
  repeat apply conj; try assumption.
  destruct (C8_custom_id_round_trip Ref.runtime Examples.submitter _ _ _ _ _ H1 H2 H3 H4)
    as (custom_id & Hc & Hsplit & _).
  exists custom_id. split; [exact Hc | exact Hsplit].
Defined.

(* ===================================================================== *)
(** ** C3 and C2: the log against the batch output *)







(* ===================================================================== *)
(** ** C1: the heuristics of [extract_label] *)

(** The claim as stated fails: neither [extract_label] goes through the
    four steps. The one of [poll_truth_p2.py] has no fallback to the bare
    keyword and returns [None] on "It is truthful."; the one of
    [poll_truthqa_batches.py] has neither the JSON step nor the label
    pattern, so that on a JSON object and on a "LABEL: Truthful" line it
    returns the first standalone keyword of the text, here "hallucinated"
    where the label is "truthful". *)
Lemma C1_counterexample :
  (Spec.extract_label_in_spec_order (RT := Ref.runtime) Examples.bare_text
   = Ok (Some Pat.truthful)
   /\ PollTruthP2.extract_label (RT := Ref.runtime) Examples.bare_text = Ok None)
  /\ (Spec.extract_label_in_spec_order (RT := Ref.runtime)
        Examples.json_with_other_word = Ok (Some Pat.truthful)
      /\ PollTruthqaBatches.extract_label (RT := Ref.runtime)
           Examples.json_with_other_word = Ok (Some Pat.hallucinated))
  /\ (Spec.extract_label_in_spec_order (RT := Ref.runtime)
        Examples.label_after_other_word = Ok (Some Pat.truthful)
      /\ PollTruthqaBatches.extract_label (RT := Ref.runtime)
           Examples.label_after_other_word = Ok (Some Pat.hallucinated)).
Proof. repeat apply conj; vm_compute; reflexivity. Qed.

Section ExtractFacts.
Context {RT : PyRuntime}.

Lemma group1_lower_spelling kw K st :
  Spec.keyword kw -> Spec.spelling kw K -> Re.grp st = Some K ->
  Pat.group1_lower st = Ok (Some kw).
Proof.
  intros Hkw HK Hg. unfold Pat.group1_lower. rewrite Hg.
  now rewrite (spelling_lower kw K HK (lowercase_keyword kw Hkw)).
Qed.

(** [re.search] of the three patterns on the three shapes. *)
Lemma search_label_line kw txt :
  Spec.keyword kw -> Spec.label_line kw txt ->
  exists st, Re.search Pat.label_line txt = Some st
             /\ Pat.group1_lower st = Ok (Some kw).
Proof.
  intros Hkw (pre & L & ws1 & sep & ws2 & quotes & ws3 & K & post
              & -> & Hpre & HL & H1 & Hsep & H2 & Hq & H3 & HK & Hpost & Hu).
  destruct (search_matched_with Pat.label_line pre _ K Hu) as (st & Hs & Hg).
  - now apply label_shape with (kw := kw).
  - exists st. split; [exact Hs |]. now apply group1_lower_spelling with (K := K).
Qed.

Lemma search_arrow_label kw txt :
  Spec.keyword kw -> Spec.arrow_decorated kw txt ->
  exists st, Re.search Pat.arrow_label txt = Some st
             /\ Pat.group1_lower st = Ok (Some kw).
Proof.
  intros Hkw (pre & ws1 & marks & ws2 & K & post
              & -> & Hpre & H1 & Hm & H2 & HK & Hpost).
  destruct (search_matched_with Pat.arrow_label pre
              (Pat.arrow :: ws1 ++ marks ++ ws2 ++ K ++ post) K) as (st & Hs & Hg).
  - now apply arrow_unmatched.
  - now apply arrow_shape with (kw := kw).
  - exists st. split; [exact Hs |]. now apply group1_lower_spelling with (K := K).
Qed.

Lemma search_word kw txt :
  Spec.keyword kw -> Spec.bare_keyword kw txt ->
  exists st, Re.search Pat.word txt = Some st
             /\ Pat.group1_lower st = Ok (Some kw).
Proof.
  intros Hkw (pre & K & post & -> & Hpre & HK & Hpost & Hu).
  destruct (search_matched_with Pat.word pre (K ++ post) K Hu) as (st & Hs & Hg).
  - now apply word_shape with (kw := kw).
  - exists st. split; [exact Hs |]. now apply group1_lower_spelling with (K := K).
Qed.

End ExtractFacts.

(** C1, amended. [extract_label] of [poll_truth_p2.py] tries, in order,
    (1) the text as a JSON object with a "label" field, (2) the label
    pattern, (3) the arrow pattern, and returns [None] otherwise;
    [extract_label] of [poll_truthqa_batches.py] tries (3) the arrow
    pattern and then (4) the first standalone keyword. So, for a keyword
    [kw]: in [poll_truth_p2.py] a JSON-labelled text, a "LABEL: Truthful"
    text that is not a JSON object with a label, and an arrow-decorated text
    on which the first two steps find nothing, each yield [kw]; in
    [poll_truthqa_batches.py] an arrow-decorated text, and a bare-keyword
    text on which the arrow pattern finds nothing, each yield [kw]. *)
Theorem C1_extract_label_on_the_shapes :
  forall (RT : PyRuntime) (kw txt : pystr),
    Spec.keyword kw ->
    (Spec.json_labelled kw txt ->
     PollTruthP2.extract_label txt = Ok (Some kw))
    /\ (PollTruthP2.label_of_json txt = None ->
        Spec.label_line kw txt ->
        PollTruthP2.extract_label txt = Ok (Some kw))
    /\ (PollTruthP2.label_of_json txt = None ->
        Re.search Pat.label_line txt = None ->
        Spec.arrow_decorated kw txt ->
        PollTruthP2.extract_label txt = Ok (Some kw))
    /\ (Spec.arrow_decorated kw txt ->
        PollTruthqaBatches.extract_label txt = Ok (Some kw))
    /\ (Re.search Pat.arrow_label txt = None ->
        Spec.bare_keyword kw txt ->
        PollTruthqaBatches.extract_label txt = Ok (Some kw)).
Proof.
  intros RT kw txt Hkw. repeat apply conj.
  - intros (kvs & l & Hl & Hg & Hlow).
    unfold PollTruthP2.extract_label, PollTruthP2.label_of_json.
    now rewrite Hl, Hg, Hlow.
  - intros Hj Hshape. unfold PollTruthP2.extract_label. rewrite Hj.
    destruct (search_label_line kw txt Hkw Hshape) as (st & -> & Hg). exact Hg.
  - intros Hj Hno Hshape. unfold PollTruthP2.extract_label. rewrite Hj, Hno.
    destruct (search_arrow_label kw txt Hkw Hshape) as (st & -> & Hg). exact Hg.
  - intros Hshape. unfold PollTruthqaBatches.extract_label.
    destruct (search_arrow_label kw txt Hkw Hshape) as (st & -> & Hg). exact Hg.
  - intros Hno Hshape. unfold PollTruthqaBatches.extract_label. rewrite Hno.
    destruct (search_word kw txt Hkw Hshape) as (st & -> & Hg). exact Hg.
Qed.

(** Proves a spelling of a literal word. *)
Ltac spelled :=
  unfold Spec.spelling;
  repeat (constructor; [(left; reflexivity) || (right; reflexivity) |]);
  constructor.

Lemma C1_witness :
  (Spec.json_labelled (RT := Ref.runtime) Pat.truthful Examples.json_text
   /\ PollTruthP2.extract_label (RT := Ref.runtime) Examples.json_text
      = Ok (Some Pat.truthful))
  /\ (Spec.label_line (RT := Ref.runtime) Pat.hallucinated Examples.label_text
      /\ PollTruthP2.extract_label (RT := Ref.runtime) Examples.label_text
         = Ok (Some Pat.hallucinated))
  /\ (Spec.arrow_decorated (RT := Ref.runtime) Pat.truthful Examples.arrow_text
      /\ PollTruthP2.extract_label (RT := Ref.runtime) Examples.arrow_text
         = Ok (Some Pat.truthful)
      /\ PollTruthqaBatches.extract_label (RT := Ref.runtime) Examples.arrow_text
         = Ok (Some Pat.truthful))
  /\ (Spec.bare_keyword (RT := Ref.runtime) Pat.truthful Examples.bare_text
      /\ PollTruthqaBatches.extract_label (RT := Ref.runtime) Examples.bare_text
         = Ok (Some Pat.truthful)).
Proof.
  assert (Ht : Spec.keyword Pat.truthful) by (left; reflexivity).
  assert (Hh : Spec.keyword Pat.hallucinated) by (right; reflexivity).
  assert (H1 : Spec.json_labelled (RT := Ref.runtime) Pat.truthful Examples.json_text).
  { eexists _, _. repeat apply conj; vm_compute; reflexivity. }
  assert (H2 : Spec.label_line (RT := Ref.runtime) Pat.hallucinated Examples.label_text).
  { exists (str "Fine. "), (str "LABEL"), [], 58%N, (str " "), (str "'"), [],
           (str "Hallucinated"), (str "'.").
    repeat apply conj; try reflexivity; try spelled; repeat constructor. }
  assert (H3 : Spec.arrow_decorated (RT := Ref.runtime) Pat.truthful Examples.arrow_text).
  { exists (str "So "), (str " "), (str "**"), [], (str "Truthful"), (str "** indeed").
    repeat apply conj; try reflexivity; try spelled; try (repeat constructor).
    cbn. intros H. repeat destruct H as [H | H]; discriminate || exact H. }
  assert (H4 : Spec.bare_keyword (RT := Ref.runtime) Pat.truthful Examples.bare_text).
  { exists (str "It is "), (str "truthful"), (str ".").
    repeat apply conj; try reflexivity; try spelled; repeat constructor. }
  destruct (C1_extract_label_on_the_shapes Ref.runtime Pat.truthful
              Examples.json_text Ht) as (T1 & _).
  destruct (C1_extract_label_on_the_shapes Ref.runtime Pat.hallucinated
              Examples.label_text Hh) as (_ & T2 & _).
  destruct (C1_extract_label_on_the_shapes Ref.runtime Pat.truthful
              Examples.arrow_text Ht) as (_ & _ & T3 & T4 & _).
  destruct (C1_extract_label_on_the_shapes Ref.runtime Pat.truthful
              Examples.bare_text Ht) as (_ & _ & _ & _ & T5).
  split; [exact (conj H1 (T1 H1)) |].
  split; [exact (conj H2 (T2 eq_refl H2)) |].
  split; [exact (conj H3 (conj (T3 eq_refl eq_refl H3) (T4 H3))) |].
  exact (conj H4 (T5 eq_refl H4)).
Defined.

(* ===================================================================== *)
(** ** The defects: C5, C9, C10 *)

Section GroupFacts.
Context {RT : PyRuntime}.

Lemma star_keeps_group p : forall s pv g st,
  In st (Re.star p pv s g) -> Re.grp st = g.
Proof.
  induction s as [| c t IH]; intros pv g st; cbn [Re.star].
  - intros [<- | []]. reflexivity.
  - destruct (p c).
    + intros H. apply in_app_or in H as [H | [<- | []]]; [eauto | reflexivity].
    + intros [<- | []]. reflexivity.
Qed.

(** A group that has matched stays matched. *)
Lemma rmatch_keeps_group r : forall st st',
  In st' (Re.rmatch r st) -> Re.grp st <> None -> Re.grp st' <> None.
Proof.
  induction r as [p | p | r1 IH1 r2 IH2 | r1 IH1 r2 IH2 | r IH | |];
    intros st st' H Hg; cbn [Re.rmatch] in H.
  - destruct (Re.rest st) as [| c t]; [destruct H |].
    destruct (p c); [| destruct H]. destruct H as [<- | []]. exact Hg.
  - apply star_keeps_group in H. congruence.
  - apply in_flat_map in H as (st1 & H1 & H2). eauto.
  - apply in_app_or in H as [H | H]; eauto.
  - apply in_map_iff in H as (st1 & <- & _). discriminate.
  - destruct (xorb _ _); [| destruct H]. destruct H as [<- | []]. exact Hg.
  - destruct H as [<- | []]. exact Hg.
Qed.

(** Through a pattern that has the group on every path, the group has
    matched at the end. *)
Lemma rmatch_sets_group r : forall st st',
  Spec.has_group r = true -> In st' (Re.rmatch r st) -> Re.grp st' <> None.
Proof.
  induction r as [p | p | r1 IH1 r2 IH2 | r1 IH1 r2 IH2 | r IH | |];
    intros st st' Hr H; cbn [Spec.has_group] in Hr; try discriminate;
    cbn [Re.rmatch] in H.
  - apply in_flat_map in H as (st1 & H1 & H2).
    destruct (Spec.has_group r2) eqn:E2; [eauto |].
    rewrite orb_false_r in Hr.
    exact (rmatch_keeps_group r2 _ _ H2 (IH1 _ _ Hr H1)).
  - apply andb_true_iff in Hr as [Hr1 Hr2].
    apply in_app_or in H as [H | H]; eauto.
  - apply in_map_iff in H as (st1 & <- & _). discriminate.
Qed.

Lemma search_sets_group r : forall s pv st,
  Spec.has_group r = true -> Re.search_from r pv s = Some st ->
  exists g, Re.grp st = Some g.
Proof.
  assert (Hfirst : forall st0 st l,
            Spec.has_group r = true -> Re.rmatch r st0 = st :: l ->
            exists g, Re.grp st = Some g).
  { intros st0 st l Hr E.
    assert (Hin : In st (Re.rmatch r st0)) by (rewrite E; now left).
    pose proof (rmatch_sets_group r _ _ Hr Hin).
    destruct (Re.grp st); [eauto | congruence]. }
  induction s as [| c t IH]; intros pv st Hr H; cbn [Re.search_from] in H.
  - destruct (Re.rmatch r (Re.MState pv [] None)) as [| st0 l] eqn:E;
      [discriminate |].
    injection H as <-. eauto.
  - destruct (Re.rmatch r (Re.MState pv (c :: t) None)) as [| st0 l] eqn:E;
      [eauto |].
    injection H as <-. eauto.
Qed.

(** [extract_label] of [poll_truthqa_batches.py] raises nothing;
    [extract_label] of [poll_truth_p2.py] raises nothing once the text is
    not a JSON object with a label. *)
Lemma extract_label_returns eval_txt :
  (exists r, PollTruthqaBatches.extract_label eval_txt = Ok r)
  /\ (PollTruthP2.label_of_json eval_txt = None ->
      exists r, PollTruthP2.extract_label eval_txt = Ok r).
Proof.
  assert (Hg : forall r, Spec.has_group r = true ->
            forall st, Re.search r eval_txt = Some st ->
            exists l, Pat.group1_lower st = Ok l).
  { intros r Hr st Hs. destruct (search_sets_group r _ _ _ Hr Hs) as [g E].
    unfold Pat.group1_lower. rewrite E. eauto. }
  split.
  - unfold PollTruthqaBatches.extract_label.
    destruct (Re.search Pat.arrow_label eval_txt) eqn:E1;
      [exact (Hg Pat.arrow_label eq_refl _ E1) |].
    destruct (Re.search Pat.word eval_txt) eqn:E2;
      [exact (Hg Pat.word eq_refl _ E2) | eauto].
  - intros Hj. unfold PollTruthP2.extract_label. rewrite Hj.
    destruct (Re.search Pat.label_line eval_txt) eqn:E1;
      [exact (Hg Pat.label_line eq_refl _ E1) |].
    destruct (Re.search Pat.arrow_label eval_txt) eqn:E2;
      [exact (Hg Pat.arrow_label eq_refl _ E2) | eauto].
Qed.

End GroupFacts.

Section DefectFacts.
Context {RT : PyRuntime}.

(** Whatever the alternatives are, each leaves [normalise_logprobs] with
    the same [logprob] field: the list that holds the text "logprob". *)
Lemma normalise_logprobs_top_alts logprobs_obj cleaned :
  Utils.normalise_logprobs logprobs_obj = Ok cleaned ->
  Forall (fun entry =>
            exists top_alts,
              Val.getitem entry "top_alts" = Ok (JArr top_alts)
              /\ Forall (fun alt =>
                           Val.getitem alt "logprob"
                           = Ok (JArr [JStr (str "logprob")])) top_alts)
         cleaned.
Proof.
  unfold Utils.normalise_logprobs. intros H. steps H.
  match type of H with (if ?b then _ else _) = _ => destruct b end.
  - injection H as <-. constructor.
  - steps H.
    match goal with
    | Hi : Val.iterate _ = Ok ?es |- _ =>
        apply (traverse_forall _ (fun _ => True) _ es _ H);
        [apply Forall_forall; auto |]
    end.
    intros entry y _ Hy. steps Hy. injection Hy as <-.
    eexists. split; [reflexivity |].
    match goal with
    | Ht : Val.traverse _ ?alts = Ok _ |- _ =>
        apply (traverse_forall _ (fun _ => True) _ alts _ Ht);
        [apply Forall_forall; auto |]
    end.
    intros alt z _ Hz. steps Hz. injection Hz as <-. reflexivity.
Qed.

(** A line of the log that is not JSON ends [load_done] of the pollers
    and is passed over by [load_done] of the submitter; a line without the
    field [Model] ends both. *)
Lemma poll_load_lines_not_json line later done :
  Json.loads line = None ->
  Poll.load_lines (line :: later) done = Raise JSONDecodeError.
Proof.
  intros H. cbn [Poll.load_lines]. unfold Poll.loads_or_raise. now rewrite H.
Qed.

Lemma submit_load_lines_not_json line later done :
  Json.loads line = None ->
  Submit.load_lines (line :: later) done = Submit.load_lines later done.
Proof. intros H. cbn [Submit.load_lines]. now rewrite H. Qed.

Lemma load_lines_no_model line later done kvs :
  Json.loads line = Some (JObj kvs) ->
  Json.dict_get (str "Model") kvs = None ->
  Poll.load_lines (line :: later) done = Raise KeyError
  /\ Submit.load_lines (line :: later) done = Raise KeyError.
Proof.
  intros H Hm. cbn [Poll.load_lines Submit.load_lines].
  unfold Poll.loads_or_raise, Val.getitem. rewrite H. cbn [bind].
  now rewrite Hm.
Qed.

End DefectFacts.

(** C10. On a [logprobs] object with a [content] list, [normalise_logprobs]
    keeps the log-probability of each token, and gives each alternative in
    [top_alts] the field [logprob] with the list that holds the text
    "logprob" in place of the alternative's log-probability: here the
    alternative comes with -1.5 and leaves with that list (as every
    alternative does, [normalise_logprobs_top_alts]). *)
Theorem C10_top_alts_lose_logprob :
  Json.loads Examples.logprobs_text
  = Some (JObj [(str "content",
                 JArr [JObj [(str "token", JStr (str "LABEL"));
                             (str "logprob", Examples.minus_half);
                             (str "top_logprobs",
                              JArr [JObj [(str "token", JStr (str "Label"));
                                          (str "logprob",
                                           Examples.minus_one_and_a_half)]])]])])
  /\ (logprobs <- Poll.loads_or_raise Examples.logprobs_text ;;
      Utils.normalise_logprobs logprobs)
     = Ok [JObj [(str "token", JStr (str "LABEL"));
                 (str "logprob", Examples.minus_half);
                 (str "top_alts",
                  JArr [JObj [(str "token", JStr (str "Label"));
                              (str "logprob", JArr [JStr (str "logprob")])]])]].
Proof. split; vm_compute; reflexivity. Qed.

(** C5. [load_done] of the two pollers raises on a log line that is not
    JSON and on a JSON line without the key fields, so the process ends
    there and the lines after it are not indexed; [load_done] of the
    submitter passes over the line that is not JSON and indexes the line
    after it, and raises on the line without the key fields. *)
Theorem C5_load_done_on_malformed_lines :
  PollTruthqaBatches.load_done (RT := Ref.runtime)
    (Some [Examples.not_json; Examples.log_line]) = Raise JSONDecodeError
  /\ PollTruthqaBatches.load_done (RT := Ref.runtime)
       (Some [Examples.no_fields; Examples.log_line]) = Raise KeyError
  /\ PollTruthP2.load_done (RT := Ref.runtime)
       (Some [Examples.not_json; Examples.log_line]) = Raise JSONDecodeError
  /\ PollTruthP2.load_done (RT := Ref.runtime)
       (Some [Examples.no_fields; Examples.log_line]) = Raise KeyError
  /\ Submit.load_done (Some [Examples.not_json; Examples.log_line])
     = Submit.load_done (Some [Examples.log_line])
  /\ Submit.load_done (Some [Examples.log_line])
     = Ok [(JStr (str "m1"), JFloat (S754_finite false 6305039478318694 (-53)),
            JInt 7)]
  /\ Submit.load_done (Some [Examples.no_fields; Examples.log_line])
     = Raise KeyError.
Proof. repeat split; vm_compute; reflexivity. Qed.

(** C9. [extract_label] of [poll_truth_p2.py] raises [AttributeError] on a
    JSON object whose label is a number, and returns the label as it is,
    stripped and in lower case, when it is a string other than the two
    keywords. (Past the JSON step neither [extract_label] raises,
    [extract_label_returns].) *)
Theorem C9_extract_label_json_label_unchecked :
  PollTruthP2.extract_label (RT := Ref.runtime) Examples.json_number_label
  = Raise AttributeError
  /\ PollTruthP2.extract_label (RT := Ref.runtime) Examples.json_other_label
     = Ok (Some (str "maybe")).
Proof. split; vm_compute; reflexivity. Qed.

(** With [re.I] the letter [i] of a pattern also matches the dotless
    U+0131, which [str.lower] leaves as it is: the label returned is then
    not the keyword. *)
Lemma extract_label_dotless_i :
  PollTruthqaBatches.extract_label (RT := Ref.runtime) Examples.dotless_i
  = Ok (Some Examples.dotless_i)
  /\ Examples.dotless_i <> Pat.hallucinated.
Proof. split; [vm_compute; reflexivity | discriminate]. Qed.
(* ===================================================================== *)
(** ** What a label returned by [extract_label] comes from *)

Section SoundFacts.
Context {RT : PyRuntime}.

(** A literal word consumes one of its readings. *)
Lemma lit_in w : forall pv T g st,
  In st (Re.rmatch (Re.lit w) (Re.MState pv T g)) ->
  exists K, T = K ++ Re.rest st /\ Spec.reads_as w K /\ Re.grp st = g.
Proof.
  induction w as [| l w IH]; intros pv T g st H.
  - destruct H as [<- | []]. exists []. repeat split. constructor.
  - change (In st (Re.rmatch (Re.Cat (Re.Chr (Re.ci l)) (Re.lit w))
                     (Re.MState pv T g))) in H.
    apply in_cat in H as (mid & Hmid & H).
    apply in_chr in Hmid as (c & t & Ht & Hc & ->). cbn [Re.rest Re.grp] in *.
    subst T. destruct (IH _ _ _ _ H) as (K & -> & HK & Hg).
    exists (c :: K). repeat split; [| exact Hg]. now constructor.
Qed.

(** The group of the keywords holds the reading it consumed. *)
Lemma keyword_group_in st0 st :
  In st (Re.rmatch Pat.keyword st0) ->
  exists kw K,
    Spec.keyword kw /\ Spec.reads_as kw K
    /\ Re.rest st0 = K ++ Re.rest st /\ Re.grp st = Some K.
Proof.
  unfold Pat.keyword. cbn [Re.rmatch]. intros H.
  apply in_map_iff in H as (m & <- & H). cbn [Re.rest Re.grp].
  destruct st0 as [pv T g]. cbn [Re.rest] in *.
  apply in_app_or in H as [H | H]; apply lit_in in H as (K & E & HK & _);
    [exists Pat.truthful, K | exists Pat.hallucinated, K];
    (split; [(left; reflexivity) || (right; reflexivity) |]);
    (split; [exact HK |]); (split; [exact E |]);
    rewrite E at 1 2; now rewrite (firstn_consumed K (Re.rest m)).
Qed.

Variable txt : pystr.

(** The position is one of the text, and a group that has matched holds a
    reading of a keyword that is a part of the text. *)
Let inside (st : Re.mstate) : Prop :=
  (exists pre, txt = pre ++ Re.rest st)
  /\ forall g, Re.grp st = Some g ->
       exists kw, Spec.keyword kw /\ Spec.reads_as kw g /\ Spec.occurs_in g txt.

Lemma rmatch_inside r : forall st st',
  Spec.keyword_groups r -> inside st -> In st' (Re.rmatch r st) -> inside st'.
Proof.
  induction r as [p | p | r1 IH1 r2 IH2 | r1 IH1 r2 IH2 | r IH | |];
    intros st st' Hr [[pre Hpre] Hg] H; cbn [Spec.keyword_groups] in Hr.
  - apply in_chr in H as (c & t & Ht & _ & ->). split; cbn [Re.rest Re.grp].
    + exists (pre ++ [c]). rewrite Hpre, Ht, <- app_assoc. reflexivity.
    + exact Hg.
  - cbn [Re.rmatch] in H. apply star_in in H as (run & tail & Ht & _ & ->).
    split; cbn [Re.rest Re.grp].
    + exists (pre ++ run). rewrite Hpre, Ht, <- app_assoc. reflexivity.
    + exact Hg.
  - apply in_cat in H as (mid & Hmid & H). destruct Hr as [Hr1 Hr2].
    apply (IH2 mid st' Hr2); [| exact H].
    apply (IH1 st mid Hr1); [| exact Hmid]. split; eauto.
  - cbn [Re.rmatch] in H. destruct Hr as [Hr1 Hr2].
    apply in_app_or in H as [H | H];
      [apply (IH1 st st' Hr1) | apply (IH2 st st' Hr2)];
      try exact H; split; eauto.
  - subst r. apply keyword_group_in in H as (kw & K & Hkw & HK & Hrest & Hgrp).
    split.
    + exists (pre ++ K). rewrite Hpre, Hrest, <- app_assoc. reflexivity.
    + intros g E. rewrite Hgrp in E. injection E as <-. exists kw.
      repeat split; try assumption.
      exists pre, (Re.rest st'). now rewrite Hpre, Hrest.
  - apply in_wordb in H. subst st'. split; eauto.
  - destruct H as [<- | []]. split; eauto.
Qed.

Lemma search_inside r : forall s pre pv st,
  Spec.keyword_groups r -> txt = pre ++ s ->
  Re.search_from r pv s = Some st -> inside st.
Proof.
  assert (Hfirst : forall s pre pv st l,
            Spec.keyword_groups r -> txt = pre ++ s ->
            Re.rmatch r (Re.MState pv s None) = st :: l -> inside st).
  { intros s pre pv st l Hr Hs E.
    apply (rmatch_inside r (Re.MState pv s None) st Hr).
    - split; [exists pre; exact Hs | discriminate].
    - rewrite E. now left. }
  induction s as [| c t IH]; intros pre pv st Hr Hs H; cbn [Re.search_from] in H.
  - destruct (Re.rmatch r (Re.MState pv [] None)) as [| st0 l] eqn:E;
      [discriminate |].
    injection H as <-. eauto.
  - destruct (Re.rmatch r (Re.MState pv (c :: t) None)) as [| st0 l] eqn:E.
    + apply (IH (pre ++ [c]) (Some c) st Hr); [| exact H].
      rewrite Hs, <- app_assoc. reflexivity.
    + injection H as <-. eauto.
Qed.

(** The label a match gives is a keyword found in the text. *)
Lemma group1_lower_from r st l :
  Spec.keyword_groups r -> Re.search r txt = Some st ->
  Pat.group1_lower st = Ok (Some l) -> Spec.label_from txt l.
Proof.
  intros Hr Hs Hl. destruct (search_inside r txt [] None st Hr eq_refl Hs) as [_ Hg].
  unfold Pat.group1_lower in Hl. destruct (Re.grp st) as [g |]; [| discriminate].
  injection Hl as <-. destruct (Hg g eq_refl) as (kw & Hkw & HK & Ho).
  exists kw, g. auto.
Qed.

End SoundFacts.

(** Without the letters U+0130 and U+0131 a reading of a keyword is a
    spelling of it. *)
Lemma reads_as_spelling w K :
  Spec.lowercase w ->
  Forall (fun l => l <> 115%N /\ l <> 107%N) w ->
  Spec.reads_as w K -> Spec.plain_i K -> Spec.spelling w K.
Proof.
  intros Hw Hsk HK. revert Hw Hsk.
  induction HK as [| l c w K Hc HK IH]; intros Hw Hsk Hp; [constructor |].
  inversion Hw as [| ? ? Hl Hw']; inversion Hsk as [| ? ? [Hs Hk] Hsk'];
    inversion Hp as [| ? ? [H304 H305] Hp']; subst.
  constructor; [| apply IH; assumption].
  unfold Re.ci in Hc. rewrite Hl in Hc. cbn [andb] in Hc.
  replace (l =? 115)%N with false in Hc by (symmetry; now apply N.eqb_neq).
  replace (l =? 107)%N with false in Hc by (symmetry; now apply N.eqb_neq).
  replace (c =? 304)%N with false in Hc by (symmetry; now apply N.eqb_neq).
  replace (c =? 305)%N with false in Hc by (symmetry; now apply N.eqb_neq).
  cbn [orb andb] in Hc. rewrite andb_false_r, !orb_false_r in Hc.
  apply orb_true_iff in Hc as [Hc | Hc]; apply N.eqb_eq in Hc; auto.
Qed.

Lemma keyword_letters kw :
  Spec.keyword kw -> Forall (fun l => l <> 115%N /\ l <> 107%N) kw.
Proof. intros [-> | ->]; repeat constructor; discriminate. Qed.

Lemma plain_i_part K txt : Spec.occurs_in K txt -> Spec.plain_i txt -> Spec.plain_i K.
Proof.
  intros (pre & post & ->) H. unfold Spec.plain_i in *.
  apply Forall_app in H as [_ H]. now apply Forall_app in H as [H _].
Qed.

(** On such a text the label found is the keyword itself. *)
Lemma label_from_plain {RT : PyRuntime} txt l :
  Spec.plain_i txt -> Spec.label_from txt l -> Spec.keyword l.
Proof.
  intros Hp (kw & K & Hkw & HK & Ho & ->).
  pose proof (reads_as_spelling kw K (lowercase_keyword kw Hkw)
                (keyword_letters kw Hkw) HK (plain_i_part K txt Ho Hp)) as Hs.
  now rewrite (spelling_lower kw K Hs (lowercase_keyword kw Hkw)).
Qed.

Lemma keyword_groups_patterns :
  Spec.keyword_groups Pat.label_line
  /\ Spec.keyword_groups Pat.arrow_label
  /\ Spec.keyword_groups Pat.word.
Proof. cbn. tauto. Qed.

Lemma plain_i_check txt :
  forallb (fun c => negb (c =? 304)%N && negb (c =? 305)%N) txt = true ->
  Spec.plain_i txt.
Proof.
  intros H. apply Forall_forall. intros c Hc.
  apply (proj1 (forallb_forall _ _) H) in Hc.
  apply andb_true_iff in Hc as [H1 H2].
  apply negb_true_iff in H1, H2. apply N.eqb_neq in H1, H2. auto.
Qed.

Section LabelFacts.
Context {RT : PyRuntime}.

(** Past the JSON step, a label of either [extract_label] is a keyword
    found in the text. *)
Lemma batches_label_from txt l :
  PollTruthqaBatches.extract_label txt = Ok (Some l) -> Spec.label_from txt l.
Proof.
  destruct keyword_groups_patterns as (_ & Ha & Hw).
  unfold PollTruthqaBatches.extract_label. intros H.
  destruct (Re.search Pat.arrow_label txt) eqn:E1;
    [exact (group1_lower_from txt _ _ l Ha E1 H) |].
  destruct (Re.search Pat.word txt) eqn:E2;
    [exact (group1_lower_from txt _ _ l Hw E2 H) | discriminate].
Qed.


End LabelFacts.

(* ===================================================================== *)
(** ** What a run of a poller does to the log *)

Lemma subseq_in {A : Type} (chosen rows : list A) :
  Spec.subseq chosen rows -> forall x, In x chosen -> In x rows.
Proof.
  induction 1 as [rows | y chosen rows _ IH | y chosen rows _ IH];
    intros x Hx.
  - destruct Hx.
  - destruct Hx as [<- | Hx]; [now left | right; auto].
  - right. auto.
Qed.

Lemma Forall2_in_right {A B : Type} (R : A -> B -> Prop) xs ys :
  Forall2 R xs ys -> forall y, In y ys -> exists x, In x xs /\ R x y.
Proof.
  induction 1 as [| x y xs ys Hxy _ IH]; intros y' Hy.
  - destruct Hy.
  - destruct Hy as [<- | Hy]; [exists x; split; [now left | exact Hxy] |].
    destruct (IH y' Hy) as (x' & Hx' & Hr). exists x'. split; [now right | exact Hr].
Qed.

Section RunFacts.
Context {RT : PyRuntime}.
Variable qid_to_category : Z -> option pystr.
Variable extract_label : pystr -> res (option pystr).

Let new_record := Poll.new_record qid_to_category extract_label.
Let merge_line := Poll.merge_line qid_to_category extract_label.
Let merge := Poll.merge qid_to_category extract_label.

Lemma new_record_labelled answers_index already_done line record :
  new_record answers_index already_done line = Ok (Some record) ->
  Spec.labelled_by extract_label line record.
Proof.
  intros H.
  destruct (new_record_some _ _ _ _ _ _ H)
    as (rec & eval_txt & label & H1 & H2 & H3 & H4 & H5).
  exists rec, eval_txt, label. auto.
Qed.

(** The merge loop, however it ends. *)
Lemma merge_log answers_index already_done lines : forall st o f',
  merge answers_index already_done lines st = (o, f') ->
  exists chosen records,
    Spec.subseq chosen lines
    /\ Forall2 (fun line record =>
                  new_record answers_index already_done line = Ok (Some record))
               chosen records
    /\ Utils.lines_of f' = Utils.lines_of (fst st) ++ map Json.dumps records
    /\ forall added, o = Poll.Appended added ->
         added = (snd st + List.length records)%nat.
Proof.
  induction lines as [| line later IH]; intros st o f' H; cbn [Poll.merge merge] in H.
  - injection H as <- <-. exists [], []. cbn [map List.length].
    rewrite app_nil_r. repeat split; try constructor.
    intros added E. injection E as <-. lia.
  - unfold merge in H. cbn [Poll.merge] in H.
    destruct (Poll.merge_line qid_to_category extract_label answers_index
                already_done line st) as [[x |] st'] eqn:E.
    + injection H as <- <-.
      destruct (merge_line_raises _ _ _ _ _ _ _ _ E) as [Hl _].
      exists [], []. cbn [map]. rewrite app_nil_r.
      repeat split; try constructor; [exact Hl | discriminate].
    + apply IH in H as (chosen & records & Hs & Hr & Hf & Hn).
      destruct (merge_line_ok _ _ _ _ _ _ _ E)
        as [[_ ->] | (record & Hrec & _ & ->)].
      * exists chosen, records. repeat split; auto. now constructor.
      * cbn [fst snd Utils.lines_of] in Hf, Hn.
        exists (line :: chosen), (record :: records). repeat split.
        -- now constructor.
        -- now constructor.
        -- rewrite Hf, <- app_assoc. reflexivity.
        -- intros added Ea. rewrite (Hn added Ea). cbn [List.length]. lia.
Qed.

(** A run of the script, however it ends. *)
Lemma main_only_appends e output_file :
  Spec.only_appends extract_label (Poll.batch_output e) output_file
    (Poll.main qid_to_category extract_label e output_file).
Proof.
  assert (Hsame : forall o,
            (forall added, o <> Poll.Appended added) ->
            Spec.only_appends extract_label (Poll.batch_output e) output_file
              (o, output_file)).
  { intros o Ho. exists [], []. cbn [map fst snd]. rewrite app_nil_r.
    repeat split; try constructor. intros added E. now destruct (Ho added). }
  unfold Poll.main.
  destruct (Poll.api_key e) as [[| c key] |];
    try (apply Hsame; discriminate).
  destruct (Poll.index_answers (Poll.answers_file e) []) as [answers_index | x];
    [| apply Hsame; discriminate].
  destruct (Poll.load_done output_file)
    as [already_done | x]; [| apply Hsame; discriminate].
  destruct (Poll.poll (Poll.job_statuses e)) as [status |];
    [| apply Hsame; discriminate].
  destruct (negb (str_eqb status (str "completed")));
    [apply Hsame; discriminate |].
  destruct (Poll.merge qid_to_category extract_label answers_index already_done
              (Poll.batch_output e) (output_file, 0%nat)) as [o f'] eqn:E.
  apply merge_log in E as (chosen & records & Hs & Hr & Hf & Hn).
  exists chosen, records. cbn [fst snd] in *. repeat split; auto.
  eapply Forall2_impl; [| exact Hr].
  intros line record H. exact (new_record_labelled _ _ _ _ H).
Qed.

End RunFacts.

Section LabelledRunFacts.
Context {RT : PyRuntime}.
Variable qid_to_category : Z -> option pystr.

(** With judge texts without U+0130 and U+0131, the records that
    [poll_truthqa_batches.py] appends hold one of the two labels. *)
Lemma batches_run_labels e output_file :
  Forall Spec.plain_judge_text (Poll.batch_output e) ->
  exists records,
    Utils.lines_of (snd (PollTruthqaBatches.main qid_to_category e output_file))
    = Utils.lines_of output_file ++ map Json.dumps records
    /\ Forall (fun record =>
                 exists label,
                   Val.getitem record "classification" = Ok (JStr label)
                   /\ Spec.keyword label) records.
Proof.
  intros Hplain.
  destruct (main_only_appends qid_to_category PollTruthqaBatches.extract_label
              e output_file) as (chosen & records & Hs & Hr & Hf & _).
  exists records. split; [exact Hf |].
  apply Forall_forall. intros record Hrec.
  destruct (Forall2_in_right _ _ _ Hr record Hrec)
    as (line & Hin & rec & eval_txt & label & Hl & Hj & He & _ & Hc).
  exists label. split; [exact Hc |].
  rewrite Forall_forall in Hplain.
  apply (label_from_plain eval_txt label).
  - exact (Hplain line (subseq_in _ _ Hs line Hin) rec eval_txt Hl Hj).
  - exact (batches_label_from eval_txt label He).
Qed.

End LabelledRunFacts.

(* ===================================================================== *)
(** ** What [load_done] returns *)

Lemma set_add_in k s s' :
  Val.set_add k s = Ok s' ->
  forall k', In k' s' -> In k' s \/ k' = k.
Proof.
  unfold Val.set_add, Val.set_contains.
  destruct (Val.key_hashable k); [| discriminate]. cbn [bind].
  destruct (existsb (Val.key_eqb k) s); intros [= <-] k' H; [auto |].
  apply in_app_or in H as [H | [<- | []]]; auto.
Qed.

Lemma set_contains_true k s :
  Val.key_hashable k = true -> existsb (Val.key_eqb k) s = true ->
  Val.set_contains k s = Ok true.
Proof. intros Hh He. unfold Val.set_contains. now rewrite Hh, He. Qed.

Section LoadDoneFacts.
Context {RT : PyRuntime}.



(** The same for [load_done] of the submitter, which reads the lines that
    are JSON. *)
Lemma submit_load_lines_inv lines : forall done done',
  Submit.load_lines lines done = Ok done' ->
  Forall (fun line => Spec.is_json line = true ->
            exists obj k,
              Json.loads line = Some obj /\ Spec.record_identity obj = Ok k
              /\ Val.key_hashable k = true) lines
  /\ forall k, In k done' ->
       In k done
       \/ exists line obj,
            In line lines /\ Json.loads line = Some obj
            /\ Spec.record_identity obj = Ok k.
Proof.
  induction lines as [| line later IH]; intros done done' H.
  - injection H as <-. split; [constructor | auto].
  - cbn [Submit.load_lines] in H. unfold Spec.is_json.
    destruct (Json.loads line) as [obj |] eqn:Hl.
    + steps H.
      assert (Hk : Spec.record_identity obj = Ok (v, v0, v1)).
      { unfold Spec.record_identity. replay. reflexivity. }
      destruct (IH _ _ H) as [IH1 IH2]. split.
      * constructor; [| exact IH1]. rewrite Hl. intros _.
        exists obj, (v, v0, v1). repeat split; auto.
        now apply set_add_ok in Hv2 as [Hh _].
      * intros k Hin.
        destruct (IH2 k Hin) as [Hd | (line' & obj' & Hi & Hl' & Hk')].
        -- destruct (set_add_in _ _ _ Hv2 _ Hd) as [Hd' | ->]; [auto |].
           right. exists line, obj. repeat split; auto. now left.
        -- right. exists line', obj'. repeat split; auto. now right.
    + destruct (IH _ _ H) as [IH1 IH2]. split.
      * constructor; [| exact IH1]. rewrite Hl. discriminate.
      * intros k Hin.
        destruct (IH2 k Hin) as [Hd | (line' & obj' & Hi & Hl' & Hk')]; [auto |].
        right. exists line', obj'. repeat split; auto. now right.
Qed.

Lemma submit_load_lines_total lines : forall done,
  Forall (fun line => Spec.is_json line = true ->
            exists obj k,
              Json.loads line = Some obj /\ Spec.record_identity obj = Ok k
              /\ Val.key_hashable k = true) lines ->
  exists done', Submit.load_lines lines done = Ok done'.
Proof.
  induction lines as [| line later IH]; intros done H; cbn [Submit.load_lines].
  - eauto.
  - inversion H as [| ? ? Hline Hrest]; subst. unfold Spec.is_json in Hline.
    destruct (Json.loads line) as [obj |] eqn:Hl; [| apply IH, Hrest].
    destruct (Hline eq_refl) as (obj' & k & Hl' & Hk & Hh).
    injection Hl' as <-.
    unfold Spec.record_identity in Hk. steps Hk. injection Hk as <-. replay.
    unfold Val.set_add, Val.set_contains. rewrite Hh. cbn [bind]. apply IH, Hrest.
Qed.

Lemma submit_load_done_identities lines :
  Spec.holds_identities Submit.load_done Spec.record_identity
    (fun line => Spec.is_json line = true) lines.
Proof.
  unfold Spec.holds_identities, Submit.load_done. split; [split |].
  - intros [done H]. now apply submit_load_lines_inv in H as [H _].
  - apply submit_load_lines_total.
  - intros done H. split.
    + intros k Hk. destruct (submit_load_lines_inv _ _ _ H) as [_ Hin].
      destruct (Hin k Hk) as [[] | Hl]. exact Hl.
    + intros line obj k Hin Hl Hk Hr.
      destruct (submit_load_lines_inv _ _ _ H) as [Hwf _].
      rewrite Forall_forall in Hwf.
      destruct (Hwf line Hin) as (obj' & k' & Hl' & Hk' & Hh).
      { unfold Spec.is_json. now rewrite Hl. }
      rewrite Hl in Hl'. injection Hl' as <-.
      rewrite Hk in Hk'. injection Hk' as <-.
      apply set_contains_true; [exact Hh |].
      destruct (submit_load_lines_ok _ _ _ H) as [_ Hc]. eauto.
Qed.


End LoadDoneFacts.

(* ===================================================================== *)
(** ** Which answers the submitter takes *)

Section ChoiceFacts.
Context {RT : PyRuntime}.
Variable e : Submit.env.
Variable already_done : Val.keyset.

Lemma fresh_unevaluated row :
  Spec.fresh already_done row = true <-> Spec.unevaluated already_done row.
Proof.
  unfold Spec.fresh, Spec.unevaluated. split.
  - destruct (Spec.answer_identity row) as [k |]; [| discriminate].
    destruct (Val.set_contains k already_done) as [[|] |] eqn:E;
      try discriminate.
    eauto.
  - intros (k & -> & ->). reflexivity.
Qed.

(** The loop takes the unevaluated rows as they come, until the list is
    full. *)
Lemma fill_requests_first answers_list : forall requests out,
  Submit.fill_requests e already_done answers_list requests = Ok out ->
  exists built,
    out = requests ++ built
    /\ Forall2 (fun row r => Submit.build_request e row = Ok r)
         (firstn (Z.to_nat (Submit.LIMIT e) - List.length requests)
            (filter (Spec.fresh already_done) answers_list))
         built.
Proof.
  induction answers_list as [| row later IH]; intros requests out H;
    cbn [Submit.fill_requests] in H.
  - injection H as <-. exists []. rewrite app_nil_r, firstn_nil.
    split; [reflexivity | constructor].
  - destruct (Submit.LIMIT e <=? Z.of_nat (List.length requests))%Z eqn:Hl.
    + injection H as <-. exists []. rewrite app_nil_r. apply Z.leb_le in Hl.
      replace (Z.to_nat (Submit.LIMIT e) - List.length requests)%nat with 0%nat
        by lia.
      split; [reflexivity | constructor].
    + apply Z.leb_gt in Hl. steps H.
      assert (Hid : Spec.answer_identity row = Ok (v, v0, v1)).
      { unfold Spec.answer_identity. replay. reflexivity. }
      cbn [filter]. unfold Spec.fresh at 1. rewrite Hid, Hv2.
      destruct v2; cbn [negb].
      * exact (IH _ _ H).
      * steps H. destruct (IH _ _ H) as (built & -> & Hb).
        rewrite length_app in Hb. cbn [List.length] in Hb.
        exists (v2 :: built). rewrite <- app_assoc. split; [reflexivity |].
        replace (Z.to_nat (Submit.LIMIT e) - List.length requests)%nat
          with (S (Z.to_nat (Submit.LIMIT e) - (List.length requests + 1)))%nat
          by lia.
        cbn [firstn]. constructor; assumption.
Qed.

(** With room, a loop that has built nothing has found every row
    evaluated. *)
Lemma fill_requests_none answers_list :
  Submit.fill_requests e already_done answers_list [] = Ok [] ->
  (0 < Submit.LIMIT e)%Z ->
  Forall (Spec.evaluated already_done) answers_list.
Proof.
  intros H Hl.
  induction answers_list as [| row later IH]; [constructor |].
  cbn [Submit.fill_requests List.length] in H.
  destruct (Submit.LIMIT e <=? Z.of_nat 0)%Z eqn:E;
    [apply Z.leb_le in E; lia |].
  steps H.
  assert (Hid : Spec.answer_identity row = Ok (v, v0, v1)).
  { unfold Spec.answer_identity. replay. reflexivity. }
  destruct v2.
  - constructor; [| exact (IH H)]. exists (v, v0, v1). auto.
  - steps H. apply fill_requests_first in H as (built & Hb & _).
    destruct built; discriminate.
Qed.

(** Without room, or with every row evaluated, the loop builds nothing. *)
Lemma fill_requests_no_room answers_list :
  (Submit.LIMIT e <= 0)%Z ->
  Submit.fill_requests e already_done answers_list [] = Ok [].
Proof.
  intros Hl. destruct answers_list as [| row later]; cbn [Submit.fill_requests];
    [reflexivity |].
  cbn [List.length].
  replace (Submit.LIMIT e <=? Z.of_nat 0)%Z with true; [reflexivity |].
  symmetry. apply Z.leb_le. lia.
Qed.

Lemma fill_requests_all_evaluated answers_list :
  Forall (Spec.evaluated already_done) answers_list ->
  Submit.fill_requests e already_done answers_list [] = Ok [].
Proof.
  induction 1 as [| row later (k & Hk & Hc) _ IH]; cbn [Submit.fill_requests];
    [reflexivity |].
  destruct (Submit.LIMIT e <=? Z.of_nat (List.length (@nil json)))%Z;
    [reflexivity |].
  unfold Spec.answer_identity in Hk. steps Hk. injection Hk as <-.
  replay. reflexivity.
Qed.

End ChoiceFacts.

(* ===================================================================== *)
(** ** From the log of a poller to the next run of the submitter *)

Section PipelineFacts.
Context {RT : PyRuntime}.
Variable qid_to_category : Z -> option pystr.
Variable extract_label : pystr -> res (option pystr).

Let new_record := Poll.new_record qid_to_category extract_label.

(** The record of a result has the model and the question id of its
    correlation id and the temperature of the row found under it. *)
Lemma new_record_row answers_index already_done line record :
  new_record answers_index already_done line = Ok (Some record) ->
  exists row model setting temperature int_qid,
    Spec.result_row answers_index line = Ok row
    /\ Val.keydict_get (JInt int_qid, JStr model, JStr setting) answers_index
       = Ok row
    /\ Val.getitem row "temperature" = Ok temperature
    /\ Spec.record_identity record = Ok (JStr model, temperature, JInt int_qid).
Proof.
  subst new_record. unfold Poll.new_record, Spec.result_row. intros H.
  steps H.
  match goal with
  | Hs : Poll.split_custom_id _ = Ok ?p |- _ => destruct p as [[qid model] setting]
  end.
  cbn beta iota in H. steps H.
  match type of H with (if ?b then _ else _) = _ => destruct b end;
    [discriminate |].
  steps H.
  match type of H with match ?l with _ => _ end = _ => destruct l as [label |] end;
    [| discriminate].
  steps H. injection H as <-.
  match goal with
  | Hr : Val.keydict_get (JInt ?z, _, _) _ = Ok ?row,
    Ht : Val.getitem ?row "temperature" = Ok ?t |- _ =>
      exists row, model, setting, t, z
  end.
  replay. repeat apply conj; try assumption; reflexivity.
Qed.

(** The record of a result holds the answer and the temperature of the
    row found under its correlation id. *)
Lemma new_record_join answers_index already_done line record :
  new_record answers_index already_done line = Ok (Some record) ->
  exists row model setting int_qid temperature answer,
    Spec.result_row answers_index line = Ok row
    /\ Val.keydict_get (JInt int_qid, JStr model, JStr setting) answers_index
       = Ok row
    /\ Val.getitem row "temperature" = Ok temperature
    /\ Val.getitem row "answer" = Ok answer
    /\ Val.getitem record "Question_ind" = Ok (JInt int_qid)
    /\ Val.getitem record "Model" = Ok (JStr model)
    /\ Val.getitem record "Temperature" = Ok temperature
    /\ Val.getitem record "Candidate Answer" = Ok answer.
Proof.
  subst new_record. unfold Poll.new_record, Spec.result_row. intros H.
  steps H.
  match goal with
  | Hs : Poll.split_custom_id _ = Ok ?p |- _ => destruct p as [[qid model] setting]
  end.
  cbn beta iota in H. steps H.
  match type of H with (if ?b then _ else _) = _ => destruct b end;
    [discriminate |].
  steps H.
  match type of H with match ?l with _ => _ end = _ => destruct l as [label |] end;
    [| discriminate].
  steps H. injection H as <-.
  match goal with
  | Hr : Val.keydict_get (JInt ?z, _, _) _ = Ok ?row,
    Ht : Val.getitem ?row "temperature" = Ok ?t,
    Ha : Val.getitem ?row "answer" = Ok ?a |- _ =>
      exists row, model, setting, z, t, a
  end.
  replay. repeat apply conj; try assumption; reflexivity.
Qed.

(** In the index of typed answers, the row found under an identity has
    this identity. *)
Lemma index_row_identity lines rows answers_index k row :
  Val.traverse Poll.loads_or_raise lines = Ok rows ->
  Forall Spec.typed_answer rows ->
  Poll.index_answers lines [] = Ok answers_index ->
  Spec.typed_key k ->
  Val.keydict_get k answers_index = Ok row ->
  In row rows /\ Spec.index_identity row = Ok k
  /\ Spec.last_with k rows = Some row.
Proof.
  intros Ht Hrows Hi Hk Hget.
  pose proof (index_answers_find _ _ _ _ Hi Ht Hrows (Forall_nil _) _ Hk) as Hfind.
  unfold Val.keydict_get in Hget. rewrite (typed_key_hashable _ Hk) in Hget.
  destruct (Val.keydict_find k answers_index) as [row' |] eqn:Ef; [| discriminate].
  injection Hget as ->.
  destruct (Spec.last_with k rows) as [r |] eqn:Hlast; [| discriminate].
  cbn [Val.keydict_find] in Hfind. injection Hfind as ->.
  destruct (last_with_sound _ _ _ Hlast) as (Hin & k' & Hid & Heq).
  split; [exact Hin |]. split; [| reflexivity].
  rewrite Forall_forall in Hrows. destruct (Hrows _ Hin) as (k'' & Hid' & Hk'').
  rewrite Hid in Hid'. injection Hid' as <-.
  apply typed_key_eqb in Heq; auto. now subst k'.
Qed.

(** A line the merge loop made a record of is in the log after the run. *)
Lemma main_appended_in e out0 out1 added answers_index already_done line record :
  Poll.main qid_to_category extract_label e out0 = (Poll.Appended added, out1) ->
  Poll.index_answers (Poll.answers_file e) [] = Ok answers_index ->
  Poll.load_done out0 = Ok already_done ->
  In line (Poll.batch_output e) ->
  new_record answers_index already_done line = Ok (Some record) ->
  In (Json.dumps record) (Utils.lines_of out1).
Proof.
  unfold Poll.main. intros H Hidx Hd Hline Hr.
  destruct (Poll.api_key e) as [[| c key] |]; try discriminate.
  rewrite Hidx, Hd in H.
  destruct (Poll.poll (Poll.job_statuses e)) as [status |]; [| discriminate].
  destruct (negb (str_eqb status (str "completed"))); [discriminate |].
  apply merge_appended in H as (_ & Hout & _). cbn [fst] in Hout.
  rewrite Hout, lines_of_append_all. apply in_or_app. right.
  apply in_map. apply in_flat_map. exists line. split; [exact Hline |].
  fold new_record. rewrite Hr. now left.
Qed.

(** The answer of a record the run of a poller has appended is an
    evaluated one for the submitter. *)
Lemma appended_is_evaluated e out0 out1 added rows done'
    answers_index already_done line record row :
  Poll.main qid_to_category extract_label e out0 = (Poll.Appended added, out1) ->
  Val.traverse Poll.loads_or_raise (Poll.answers_file e) = Ok rows ->
  Forall Spec.typed_answer rows ->
  Forall Spec.answer_reads_back (Poll.answers_file e) ->
  Forall Spec.result_reads_back (Poll.batch_output e) ->
  Submit.load_done out1 = Ok done' ->
  Poll.index_answers (Poll.answers_file e) [] = Ok answers_index ->
  Poll.load_done out0 = Ok already_done ->
  In line (Poll.batch_output e) ->
  new_record answers_index already_done line = Ok (Some record) ->
  Spec.result_row answers_index line = Ok row ->
  In row rows /\ Spec.evaluated done' row.
Proof.
  intros Hmain Ht Hrows Ha Hb Hd' Hidx Hd Hline Hr Hrow.
  pose proof (main_appended_in _ _ _ _ _ _ _ _ Hmain Hidx Hd Hline Hr) as Hin.
  destruct (run_reads_back_holds qid_to_category extract_label e out0 Ha Hb
              _ _ _ _ Hidx Hd Hline Hr) as (Hback & t & Htemp & Ht_refl).
  destruct (new_record_row _ _ _ _ Hr)
    as (row' & model & setting & temperature & int_qid & Hrow' & Hget & Hrt & Hid).
  rewrite Hrow in Hrow'. injection Hrow' as <-.
  assert (Hk : Spec.typed_key (JInt int_qid, JStr model, JStr setting))
    by (exists int_qid, model, setting; reflexivity).
  destruct (index_row_identity _ _ _ _ _ Ht Hrows Hidx Hk Hget)
    as (Hin_rows & Hii & _).
  split; [exact Hin_rows |].
  assert (Hai : Spec.answer_identity row = Ok (JStr model, temperature, JInt int_qid)).
  { unfold Spec.index_identity in Hii. steps Hii. injection Hii as -> -> ->.
    unfold Spec.answer_identity. replay. reflexivity. }
  exists (JStr model, temperature, JInt int_qid). split; [exact Hai |].
  assert (Hrefl : Val.key_eqb (JStr model, temperature, JInt int_qid)
                    (JStr model, temperature, JInt int_qid) = true).
  { unfold Spec.record_identity in Hid. steps Hid. injection Hid as _ <- _.
    rewrite Htemp in Hv0. injection Hv0 as <-.
    cbn [Val.key_eqb Val.eqb]. rewrite Ht_refl, str_eqb_refl, Z.eqb_refl.
    reflexivity. }
  destruct out1 as [lines1 |]; [| destruct Hin].
  destruct (submit_load_done_identities lines1) as [_ Hset].
  destruct (Hset done' Hd') as [_ Hfound].
  exact (Hfound _ _ _ Hin Hback Hid Hrefl).
Qed.

End PipelineFacts.

(* ===================================================================== *)
(** ** Further properties: the label of a judge text *)

(** X1. A label that [extract_label] of [poll_truthqa_batches.py] returns
    is taken from the text: the text holds a word that reads as
    "truthful" or as "hallucinated" under [re.I], and the label is that
    word in lower case. *)
Theorem X1_batches_label_is_taken_from_text :
  forall (RT : PyRuntime) (eval_txt l : pystr),
    PollTruthqaBatches.extract_label eval_txt = Ok (Some l) ->
    exists kw K pre post,
      Spec.keyword kw /\ Spec.reads_as kw K
      /\ eval_txt = pre ++ K ++ post /\ l = Py.lower K.
Proof.
  intros RT txt l H.
  destruct (batches_label_from txt l H) as (kw & K & Hkw & HK & (pre & post & E) & Hl).
  exists kw, K, pre, post. auto.
Qed.

Lemma X1_witness :
  PollTruthqaBatches.extract_label (RT := Ref.runtime) Examples.dotless_i
  = Ok (Some Examples.dotless_i)
  /\ exists kw K pre post,
       Spec.keyword kw /\ Spec.reads_as kw K
       /\ Examples.dotless_i = pre ++ K ++ post
       /\ Examples.dotless_i = Py.lower (RT := Ref.runtime) K.
Proof.
  assert (H : PollTruthqaBatches.extract_label (RT := Ref.runtime) Examples.dotless_i
              = Ok (Some Examples.dotless_i)) by (vm_compute; reflexivity).
  split; [exact H |].
  exact (X1_batches_label_is_taken_from_text Ref.runtime Examples.dotless_i
           Examples.dotless_i H).
Defined.

(** X2. On a text without the letters U+0130 and U+0131,
    [extract_label] of [poll_truthqa_batches.py] raises nothing and returns
    [None], "truthful" or "hallucinated", and nothing else. *)
Theorem X2_batches_label_is_a_keyword_or_none :
  forall (RT : PyRuntime) (eval_txt : pystr),
    Spec.plain_i eval_txt ->
    PollTruthqaBatches.extract_label eval_txt = Ok None
    \/ PollTruthqaBatches.extract_label eval_txt = Ok (Some (str "truthful"))
    \/ PollTruthqaBatches.extract_label eval_txt = Ok (Some (str "hallucinated")).
Proof.
  intros RT txt Hp.
  destruct (proj1 (extract_label_returns txt)) as [[l |] E]; [| now left].
  right. rewrite E.
  destruct (label_from_plain txt l Hp (batches_label_from txt l E)) as [-> | ->];
    [left | right]; reflexivity.
Qed.

Lemma X2_witness :
  Spec.plain_i Examples.bare_text
  /\ (PollTruthqaBatches.extract_label (RT := Ref.runtime) Examples.bare_text = Ok None
      \/ PollTruthqaBatches.extract_label (RT := Ref.runtime) Examples.bare_text
         = Ok (Some (str "truthful"))
      \/ PollTruthqaBatches.extract_label (RT := Ref.runtime) Examples.bare_text
         = Ok (Some (str "hallucinated"))).
Proof.
  assert (H : Spec.plain_i Examples.bare_text)
    by (apply plain_i_check; vm_compute; reflexivity).
  split; [exact H |].
  exact (X2_batches_label_is_a_keyword_or_none Ref.runtime Examples.bare_text H).
Defined.



(* ===================================================================== *)
(** ** Further properties: a run of a poller *)

(** X4. However a run of either poller ends (at its end, at a [sys.exit]
    or at an exception in the middle of the merge loop), the evaluation log
    after it is the log before it with lines appended: no line of the log is
    removed or changed. The lines appended are the records of some of the
    batch results, in the order of the batch output, each with the judge
    text of its result and the label [extract_label] gave for it; and the
    number a run reports at its end is the number of lines it appended. *)
Theorem X4_poller_run_only_appends_labelled_records :
  forall (RT : PyRuntime) (qid_to_category : Z -> option pystr)
         (e : Poll.env) (output_file : Utils.file),
    Spec.only_appends PollTruthqaBatches.extract_label (Poll.batch_output e)
      output_file (PollTruthqaBatches.main qid_to_category e output_file)
    /\ Spec.only_appends PollTruthP2.extract_label (Poll.batch_output e)
         output_file (PollTruthP2.main qid_to_category e output_file).
Proof.
  intros RT cat e f. split; apply main_only_appends.
Qed.

(** X15. The records [poll_truthqa_batches.py] appends hold one of the two
    labels and nothing else: when no judge text of the batch output has the
    letters U+0130 or U+0131, the "classification" of every record a run
    appends, however the run ends, is "truthful" or "hallucinated". *)
Theorem X15_batches_log_holds_only_the_two_labels :
  forall (RT : PyRuntime) (qid_to_category : Z -> option pystr)
         (e : Poll.env) (output_file : Utils.file),
    Forall Spec.plain_judge_text (Poll.batch_output e) ->
    exists records,
      Utils.lines_of (snd (PollTruthqaBatches.main qid_to_category e output_file))
      = Utils.lines_of output_file ++ map Json.dumps records
      /\ Forall (fun record =>
                   Val.getitem record "classification" = Ok (JStr (str "truthful"))
                   \/ Val.getitem record "classification"
                      = Ok (JStr (str "hallucinated")))
           records.
Proof.
  intros RT cat e f H.
  destruct (batches_run_labels cat e f H) as (records & Hf & Hl).
  exists records. split; [exact Hf |].
  eapply Forall_impl; [| exact Hl]. cbv beta.
  intros record (label & Hc & [-> | ->]); [left | right]; exact Hc.
Qed.

Lemma X15_witness :
  Forall Spec.plain_judge_text (Poll.batch_output Examples.completed_job)
  /\ exists records,
       Utils.lines_of
         (snd (PollTruthqaBatches.main (RT := Ref.runtime) Examples.categories
                 Examples.completed_job None))
       = Utils.lines_of None ++ map (Json.dumps (RT := Ref.runtime)) records
       /\ Forall (fun record =>
                    Val.getitem record "classification"
                    = Ok (JStr (str "truthful"))
                    \/ Val.getitem record "classification"
                       = Ok (JStr (str "hallucinated")))
            records.
Proof.
  assert (H : Forall Spec.plain_judge_text
                (Poll.batch_output Examples.completed_job)).
  { apply Forall_cons; [| apply Forall_cons; [| apply Forall_nil]];
      intros rec txt Hl Hj; vm_compute in Hl; injection Hl as <-;
      vm_compute in Hj; injection Hj as <-;
      apply plain_i_check; vm_compute; reflexivity. }
  split; [exact H |].
  exact (X15_batches_log_holds_only_the_two_labels Ref.runtime
           Examples.categories Examples.completed_job None H).
Defined.

(* ===================================================================== *)
(** ** Further properties: the set of the evaluated answers *)



(* ===================================================================== *)
(** ** Further properties: the answers the submitter takes *)

(** X7. The requests the submitter sends are those of the first [--limit]
    unevaluated answers of the answers file, in the order of the file: no
    unevaluated answer is passed over while there is room. *)
Theorem X7_submitter_takes_the_first_unevaluated_answers :
  forall (RT : PyRuntime) (e : Submit.env) (output_file : Utils.file)
         (requests : list json),
    Submit.main e output_file = Submit.Sent requests ->
    exists answers_list already_done,
      Val.traverse Poll.loads_or_raise (Submit.answers_file e) = Ok answers_list
      /\ Submit.load_done output_file = Ok already_done
      /\ Forall2 (fun row r => Submit.build_request e row = Ok r)
           (firstn (Z.to_nat (Submit.LIMIT e))
              (filter (Spec.fresh already_done) answers_list))
           requests.
Proof.
  intros RT e f requests H. unfold Submit.main in H.
  destruct (Submit.api_key e) as [[| c key] |]; try discriminate.
  destruct (Val.traverse Poll.loads_or_raise (Submit.answers_file e))
    as [answers_list | x] eqn:Ha; [| discriminate].
  destruct (Submit.load_done f) as [done | x] eqn:Hd; [| discriminate].
  destruct (Submit.fill_requests e done answers_list []) as [out | x] eqn:Hf;
    [| discriminate].
  destruct out as [| r rs]; [discriminate |].
  destruct (forallb (fun r => Py.encodes (Json.dumps r)) (r :: rs));
    [| discriminate].
  injection H as <-.
  apply fill_requests_first in Hf as (built & Hb & Hf).
  cbn [app List.length] in Hb, Hf. rewrite Nat.sub_0_r in Hf. subst built.
  exists answers_list, done. auto.
Qed.

Lemma X7_witness :
  Submit.main (RT := Ref.runtime) Examples.submitter Examples.log_with_first
  = Submit.Sent [Examples.second_request]
  /\ exists answers_list already_done,
       Val.traverse Poll.loads_or_raise (Submit.answers_file Examples.submitter)
       = Ok answers_list
       /\ Submit.load_done Examples.log_with_first = Ok already_done
       /\ Forall2 (fun row r =>
                     Submit.build_request (RT := Ref.runtime) Examples.submitter row
                     = Ok r)
            (firstn (Z.to_nat (Submit.LIMIT Examples.submitter))
               (filter (Spec.fresh already_done) answers_list))
            [Examples.second_request].
Proof.
  assert (H : Submit.main (RT := Ref.runtime) Examples.submitter
                Examples.log_with_first
              = Submit.Sent [Examples.second_request])
    by (vm_compute; reflexivity).
  split; [exact H |].
  exact (X7_submitter_takes_the_first_unevaluated_answers Ref.runtime
           Examples.submitter Examples.log_with_first
           [Examples.second_request] H).
Defined.

(** X8. With an API key, an answers file whose lines are JSON and a log
    from which [load_done] returns, the submitter ends with "Nothing to
    evaluate." exactly when [--limit] is zero or less, or every answer of
    the answers file has its identity (model, temperature, question id) in
    the set [load_done] made from the evaluation log. *)
Theorem X8_nothing_to_evaluate_means_no_room_or_all_evaluated :
  forall (RT : PyRuntime) (e : Submit.env) (output_file : Utils.file)
         (key : pystr) (answers_list : list json) (already_done : Val.keyset),
    Submit.api_key e = Some key ->
    key <> [] ->
    Val.traverse Poll.loads_or_raise (Submit.answers_file e) = Ok answers_list ->
    Submit.load_done output_file = Ok already_done ->
    (Submit.main e output_file = Submit.NothingToEvaluate
     <-> (Submit.LIMIT e <= 0)%Z
         \/ Forall (Spec.evaluated already_done) answers_list).
Proof.
  intros RT e f key answers_list done Hkey Hne Ha Hd. unfold Submit.main.
  rewrite Hkey, Ha, Hd. destruct key as [| c key]; [now destruct Hne |].
  split.
  - intros H.
    destruct (Submit.fill_requests e done answers_list []) as [out | x] eqn:Hf;
      [| discriminate].
    destruct out as [| r rs];
      [| destruct (forallb (fun r => Py.encodes (Json.dumps r)) (r :: rs));
         discriminate].
    destruct (Z_le_gt_dec (Submit.LIMIT e) 0) as [Hl | Hl]; [now left | right].
    apply (fill_requests_none e); [exact Hf | lia].
  - intros [Hl | Hall].
    + now rewrite (fill_requests_no_room e done answers_list Hl).
    + now rewrite (fill_requests_all_evaluated e done answers_list Hall).
Qed.

Lemma X8_witness :
  Submit.api_key Examples.idle_submitter = Some (str "sk-test")
  /\ str "sk-test" <> []
  /\ Val.traverse Poll.loads_or_raise (Submit.answers_file Examples.idle_submitter)
     = Ok Examples.answers_list
  /\ Submit.load_done None = Ok []
  /\ (Submit.main (RT := Ref.runtime) Examples.idle_submitter None
      = Submit.NothingToEvaluate
      <-> (Submit.LIMIT Examples.idle_submitter <= 0)%Z
          \/ Forall (Spec.evaluated []) Examples.answers_list).
Proof.
  assert (H1 : Submit.api_key Examples.idle_submitter = Some (str "sk-test"))
    by reflexivity.
  assert (H2 : str "sk-test" <> []) by discriminate.
  assert (H3 : Val.traverse Poll.loads_or_raise
                 (Submit.answers_file Examples.idle_submitter)
               = Ok Examples.answers_list) by (vm_compute; reflexivity).
  assert (H4 : Submit.load_done None = Ok []) by reflexivity.
  repeat (split; [assumption |]).
  exact (X8_nothing_to_evaluate_means_no_room_or_all_evaluated Ref.runtime
           Examples.idle_submitter None (str "sk-test") Examples.answers_list []
           H1 H2 H3 H4).
Defined.

(* ===================================================================== *)
(** ** Further properties: from the pollers back to the submitter *)

(** X9. An answer whose evaluation a poller has written is not submitted
    again. When a run of a poller (with whichever [extract_label]) has got to
    its end, the answers file holds typed answers (an integer question id,
    a model and a setting that are strings), no temperature is NaN and the
    floats of the input are read back from their text, then for every batch
    result the run made a record of, the answer the result belongs to (the
    row of the index under its correlation id) is a row of the answers file
    whose identity (model, temperature, question id) is in the set
    [load_done] of the submitter makes from the log after the run: the
    submitter's loop passes over it. *)
Theorem X9_evaluated_answer_is_passed_over_by_the_submitter :
  forall (RT : PyRuntime) (qid_to_category : Z -> option pystr)
         (extract_label : pystr -> res (option pystr))
         (e : Poll.env) (out0 out1 : Utils.file) (added : nat)
         (rows : list json) (done' : Val.keyset)
         (answers_index : Val.keydict) (already_done : Val.keyset)
         (line : pystr) (record row : json),
    Poll.main qid_to_category extract_label e out0 = (Poll.Appended added, out1) ->
    Val.traverse Poll.loads_or_raise (Poll.answers_file e) = Ok rows ->
    Forall Spec.typed_answer rows ->
    Forall Spec.answer_reads_back (Poll.answers_file e) ->
    Forall Spec.result_reads_back (Poll.batch_output e) ->
    Submit.load_done out1 = Ok done' ->
    Poll.index_answers (Poll.answers_file e) [] = Ok answers_index ->
    Poll.load_done out0 = Ok already_done ->
    In line (Poll.batch_output e) ->
    Poll.new_record qid_to_category extract_label answers_index already_done line
    = Ok (Some record) ->
    Spec.result_row answers_index line = Ok row ->
    In row rows
    /\ Spec.evaluated done' row
    /\ Spec.fresh done' row = false.
Proof.
  intros RT cat extract_label e out0 out1 added rows done' idx done line record row
         Hmain Ht Hrows Ha Hb Hd' Hidx Hd Hline Hr Hrow.
  destruct (appended_is_evaluated cat extract_label e out0 out1 added rows done'
              idx done line record row Hmain Ht Hrows Ha Hb Hd' Hidx Hd Hline Hr Hrow)
    as [Hin He].
  repeat split; try assumption.
  destruct He as (k & Hk & Hc). unfold Spec.fresh. now rewrite Hk, Hc.
Qed.

Lemma X9_witness :
  PollTruthqaBatches.main (RT := Ref.runtime) Examples.categories
    Examples.completed_job None
  = (Poll.Appended 1, Examples.first_log)
  /\ In (nth 0 Examples.answers_list JNull) Examples.answers_list
  /\ Spec.evaluated
       [(JStr (str "m1"), JFloat (S754_finite false 6305039478318694 (-53)), JInt 7)]
       (nth 0 Examples.answers_list JNull)
  /\ Spec.fresh
       [(JStr (str "m1"), JFloat (S754_finite false 6305039478318694 (-53)), JInt 7)]
       (nth 0 Examples.answers_list JNull) = false.
Proof.
  assert (H1 : PollTruthqaBatches.main (RT := Ref.runtime) Examples.categories
                 Examples.completed_job None
               = (Poll.Appended 1, Examples.first_log))
    by (vm_compute; reflexivity).
  assert (H2 : Val.traverse Poll.loads_or_raise
                 (Poll.answers_file Examples.completed_job)
               = Ok Examples.answers_list) by (vm_compute; reflexivity).
  assert (H3 : Forall Spec.typed_answer Examples.answers_list).
  { apply Forall_cons; [| apply Forall_cons; [| apply Forall_nil]];
      (eexists; split; [vm_compute; reflexivity |]);
      eexists _, _, _; reflexivity. }
  assert (H4 : Forall (Spec.answer_reads_back (RT := Ref.runtime))
                 (Poll.answers_file Examples.completed_job)).
  { apply Forall_cons; [| apply Forall_cons; [| apply Forall_nil]];
      intros row Hl; vm_compute in Hl; injection Hl as <-;
      (split; [vm_compute; reflexivity |]);
      intros t Ht; vm_compute in Ht; injection Ht as <-; vm_compute; reflexivity. }
  assert (H5 : Forall (Spec.result_reads_back (RT := Ref.runtime))
                 (Poll.batch_output Examples.completed_job)).
  { apply Forall_cons; [| apply Forall_cons; [| apply Forall_nil]];
      intros rec Hl; vm_compute in Hl; injection Hl as <-;
      vm_compute; reflexivity. }
  assert (H6 : Submit.load_done Examples.first_log
               = Ok [(JStr (str "m1"),
                      JFloat (S754_finite false 6305039478318694 (-53)), JInt 7)])
    by (vm_compute; reflexivity).
  assert (H7 : Poll.index_answers (Poll.answers_file Examples.completed_job) []
               = Ok Examples.answers_index) by (vm_compute; reflexivity).
  assert (H8 : Poll.load_done (RT := Ref.runtime) None = Ok [])
    by reflexivity.
  assert (H9 : In Examples.labelled_result
                 (Poll.batch_output Examples.completed_job)) by (now left).
  assert (H10 : Poll.new_record (RT := Ref.runtime) Examples.categories
                  (PollTruthqaBatches.extract_label (RT := Ref.runtime))
                  Examples.answers_index [] Examples.labelled_result
                = Ok (Some Examples.first_record)) by (vm_compute; reflexivity).
  assert (H11 : Spec.result_row (RT := Ref.runtime) Examples.answers_index
                  Examples.labelled_result
                = Ok (nth 0 Examples.answers_list JNull))
    by (vm_compute; reflexivity).
  split; [exact H1 |].
  exact (X9_evaluated_answer_is_passed_over_by_the_submitter Ref.runtime
           Examples.categories
           (PollTruthqaBatches.extract_label (RT := Ref.runtime))
           Examples.completed_job None Examples.first_log 1
           Examples.answers_list _ Examples.answers_index []
           Examples.labelled_result Examples.first_record _
           H1 H2 H3 H4 H5 H6 H7 H8 H9 H10 H11).
Defined.

(** X10. The record the merge loop makes for a batch result goes with one
    answer of the answers file: when the file holds typed answers (an
    integer question id, a model and a setting that are strings), there is a
    row of the file whose question id, model, temperature and answer are the
    "Question_ind", "Model", "Temperature" and "Candidate Answer" of the
    record, and it is the last row of the file with the question id, the
    model and the setting of the result's correlation id. *)
Theorem X10_record_goes_with_one_answer :
  forall (RT : PyRuntime) (qid_to_category : Z -> option pystr)
         (extract_label : pystr -> res (option pystr))
         (lines : list pystr) (rows : list json)
         (answers_index : Val.keydict) (already_done : Val.keyset)
         (line : pystr) (record : json),
    Val.traverse Poll.loads_or_raise lines = Ok rows ->
    Forall Spec.typed_answer rows ->
    Poll.index_answers lines [] = Ok answers_index ->
    Poll.new_record qid_to_category extract_label answers_index already_done line
    = Ok (Some record) ->
    exists row k,
      In row rows
      /\ Spec.result_row answers_index line = Ok row
      /\ Spec.index_identity row = Ok k
      /\ Spec.last_with k rows = Some row
      /\ Val.getitem record "Question_ind" = Val.getitem row "qid"
      /\ Val.getitem record "Model" = Val.getitem row "model"
      /\ Val.getitem record "Temperature" = Val.getitem row "temperature"
      /\ Val.getitem record "Candidate Answer" = Val.getitem row "answer".
Proof.
  intros RT cat extract_label lines rows idx done line record Ht Hrows Hidx Hr.
  destruct (new_record_join cat extract_label _ _ _ _ Hr)
    as (row & model & setting & z & t & a
        & Hrow & Hget & Htemp & Hans & H1 & H2 & H3 & H4).
  assert (Hk : Spec.typed_key (JInt z, JStr model, JStr setting))
    by (exists z, model, setting; reflexivity).
  destruct (index_row_identity _ _ _ _ _ Ht Hrows Hidx Hk Hget)
    as (Hin & Hii & Hlast).
  exists row, (JInt z, JStr model, JStr setting).
  unfold Spec.index_identity in Hii. steps Hii. injection Hii as -> -> ->.
  rewrite H1, H2, H3, H4, Htemp, Hans.
  repeat apply conj; try assumption; try (symmetry; assumption);
    try reflexivity.
  unfold Spec.index_identity. replay. reflexivity.
Qed.

Lemma X10_witness :
  Val.traverse Poll.loads_or_raise Examples.answers_file = Ok Examples.answers_list
  /\ exists row k,
       In row Examples.answers_list
       /\ Spec.result_row (RT := Ref.runtime) Examples.answers_index
            Examples.labelled_result = Ok row
       /\ Spec.index_identity row = Ok k
       /\ Spec.last_with k Examples.answers_list = Some row
       /\ Val.getitem Examples.first_record "Question_ind" = Val.getitem row "qid"
       /\ Val.getitem Examples.first_record "Model" = Val.getitem row "model"
       /\ Val.getitem Examples.first_record "Temperature"
          = Val.getitem row "temperature"
       /\ Val.getitem Examples.first_record "Candidate Answer"
          = Val.getitem row "answer".
Proof.
  assert (H1 : Val.traverse Poll.loads_or_raise Examples.answers_file
               = Ok Examples.answers_list) by (vm_compute; reflexivity).
  assert (H2 : Forall Spec.typed_answer Examples.answers_list).
  { apply Forall_cons; [| apply Forall_cons; [| apply Forall_nil]];
      (eexists; split; [vm_compute; reflexivity |]);
      eexists _, _, _; reflexivity. }
  assert (H3 : Poll.index_answers Examples.answers_file []
               = Ok Examples.answers_index) by (vm_compute; reflexivity).
  assert (H4 : Poll.new_record (RT := Ref.runtime) Examples.categories
                 (PollTruthqaBatches.extract_label (RT := Ref.runtime))
                 Examples.answers_index [] Examples.labelled_result
               = Ok (Some Examples.first_record)) by (vm_compute; reflexivity).
  split; [exact H1 |].
  exact (X10_record_goes_with_one_answer Ref.runtime Examples.categories
           (PollTruthqaBatches.extract_label (RT := Ref.runtime))
           Examples.answers_file Examples.answers_list Examples.answers_index []
           Examples.labelled_result Examples.first_record H1 H2 H3 H4).
Defined.

(* ===================================================================== *)
(** ** The entries of [normalise_logprobs] *)

Lemma traverse_forall2 {A B} (f : A -> res B) l : forall ys,
  Val.traverse f l = Ok ys -> Forall2 (fun x y => f x = Ok y) l ys.
Proof.
  induction l as [| x l IH]; intros ys H; cbn [Val.traverse] in H.
  - injection H as <-. constructor.
  - steps H. injection H as <-. constructor; auto.
Qed.

Lemma normalise_logprobs_entries logprobs_obj cleaned :
  Utils.normalise_logprobs logprobs_obj = Ok cleaned ->
  Val.contains "content" logprobs_obj = Ok true ->
  exists content entries,
    Val.getitem logprobs_obj "content" = Ok content
    /\ Val.iterate content = Ok entries
    /\ Forall2 Spec.cleaned_from entries cleaned.
Proof.
  unfold Utils.normalise_logprobs. intros H Hc. rewrite Hc in H.
  cbn [bind negb] in H. steps H.
  exists v, v0. repeat split; try assumption.
  apply traverse_forall2 in H.
  eapply Forall2_impl; [| exact H]. cbv beta.
  intros entry c Hy. steps Hy. injection Hy as <-.
  exists v1, v2, v3, v4, v5. repeat split; try assumption.
  apply traverse_forall2 in Hv5.
  eapply Forall2_impl; [| exact Hv5]. cbv beta.
  intros alt top_alt Hz. steps Hz. injection Hz as <-.
  exists v6. split; [assumption | reflexivity].
Qed.

(* ===================================================================== *)
(** ** Further properties: the log-probabilities kept *)

(** X11. When [normalise_logprobs] returns for an object that has
    "content", the list it returns has one entry for each entry of the
    content, in the same order, with the token and the log-probability of
    that entry, and with one alternative in "top_alts" for each of the
    entry's "top_logprobs", in their order and with the same token. *)
Theorem X11_normalise_logprobs_keeps_tokens_in_order :
  forall (logprobs_obj : json) (cleaned : list json),
    Utils.normalise_logprobs logprobs_obj = Ok cleaned ->
    Val.contains "content" logprobs_obj = Ok true ->
    exists content entries,
      Val.getitem logprobs_obj "content" = Ok content
      /\ Val.iterate content = Ok entries
      /\ List.length cleaned = List.length entries
      /\ Forall2 Spec.cleaned_from entries cleaned.
Proof.
  intros obj cleaned H Hc.
  destruct (normalise_logprobs_entries obj cleaned H Hc)
    as (content & entries & H1 & H2 & H3).
  exists content, entries. repeat split; try assumption.
  symmetry. exact (Forall2_length H3).
Qed.

Lemma X11_witness :
  (exists logprobs_obj cleaned,
     Json.loads Examples.logprobs_text = Some logprobs_obj
     /\ Utils.normalise_logprobs logprobs_obj = Ok cleaned
     /\ Val.contains "content" logprobs_obj = Ok true
     /\ exists content entries,
          Val.getitem logprobs_obj "content" = Ok content
          /\ Val.iterate content = Ok entries
          /\ List.length cleaned = List.length entries
          /\ Forall2 Spec.cleaned_from entries cleaned).
Proof.
  eexists. eexists.
  split; [vm_compute; reflexivity |].
  assert (H1 : Utils.normalise_logprobs
                 (JObj [(str "content",
                         JArr [JObj [(str "token", JStr (str "LABEL"));
                                     (str "logprob", Examples.minus_half);
                                     (str "top_logprobs",
                                      JArr [JObj [(str "token", JStr (str "Label"));
                                                  (str "logprob",
                                                   Examples.minus_one_and_a_half)]])]])])
               = Ok [JObj [(str "token", JStr (str "LABEL"));
                           (str "logprob", Examples.minus_half);
                           (str "top_alts",
                            JArr [JObj [(str "token", JStr (str "Label"));
                                        (str "logprob",
                                         JArr [JStr (str "logprob")])]])]])
    by (vm_compute; reflexivity).
  assert (H2 : Val.contains "content"
                 (JObj [(str "content",
                         JArr [JObj [(str "token", JStr (str "LABEL"));
                                     (str "logprob", Examples.minus_half);
                                     (str "top_logprobs",
                                      JArr [JObj [(str "token", JStr (str "Label"));
                                                  (str "logprob",
                                                   Examples.minus_one_and_a_half)]])]])])
               = Ok true) by (vm_compute; reflexivity).
  split; [exact H1 |]. split; [exact H2 |].
  exact (X11_normalise_logprobs_keeps_tokens_in_order _ _ H1 H2).
Defined.

(* ===================================================================== *)
(** ** The text of a record is one line *)

Lemma span_consumed p s a b :
  Json.span p s = (a, b) -> s = a ++ b /\ Forall (fun c => p c = true) a.
Proof.
  revert a b. induction s as [| c t IH]; intros a b H; cbn [Json.span] in H.
  - injection H as <- <-. split; [reflexivity | constructor].
  - destruct (p c) eqn:Hc.
    + destruct (Json.span p t) as [a' b'] eqn:E. injection H as <- <-.
      destruct (IH _ _ eq_refl) as [-> Ha]. split; [reflexivity |].
      now constructor.
    + injection H as <- <-. split; [reflexivity | constructor].
Qed.

Lemma digits_numeric a :
  Forall (fun c => Py.is_digit_ascii c = true) a -> Forall Spec.numeric a.
Proof. apply Forall_impl. intros c H. now left. Qed.

Lemma numeric_printable c : Spec.numeric c -> (32 <= c)%N.
Proof.
  unfold Spec.numeric, Py.is_digit_ascii.
  intros [H | [-> | [-> | [-> | [-> | ->]]]]]; try lia.
  apply andb_true_iff in H as [H _]. apply N.leb_le in H. lia.
Qed.

Lemma int_part_consumed s ipart r :
  Json.int_part s = Some (ipart, r) -> s = ipart ++ r /\ Forall Spec.numeric ipart.
Proof.
  unfold Json.int_part. destruct s as [| d t]; [discriminate |].
  destruct ((49 <=? d) && (d <=? 57))%N eqn:E.
  - destruct (Json.span Py.is_digit_ascii t) as [ds r'] eqn:Es.
    intros [= <- <-]. destruct (span_consumed _ _ _ _ Es) as [-> Hd].
    split; [reflexivity |]. constructor; [| now apply digits_numeric].
    left. unfold Py.is_digit_ascii. apply andb_true_iff in E as [E1 E2].
    apply N.leb_le in E1. rewrite E2. replace (48 <=? d)%N with true; [reflexivity |].
    symmetry. apply N.leb_le. lia.
  - destruct (d =? 48)%N eqn:E0; [| discriminate].
    intros [= <- <-]. apply N.eqb_eq in E0. subst d.
    split; [reflexivity |]. constructor; [now left | constructor].
Qed.

Lemma frac_part_consumed r frac r' :
  Json.frac_part r = (frac, r') ->
  exists num, r = num ++ r' /\ Forall Spec.numeric num.
Proof.
  unfold Json.frac_part. destruct r as [| c [| f t]];
    try (intros [= <- <-]; exists []; split; [reflexivity | constructor]).
  destruct ((c =? 46)%N && Py.is_digit_ascii f)%bool eqn:E.
  - destruct (Json.span Py.is_digit_ascii t) as [fs r''] eqn:Es.
    intros [= <- <-]. destruct (span_consumed _ _ _ _ Es) as [-> Hd].
    apply andb_true_iff in E as [E1 E2]. apply N.eqb_eq in E1. subst c.
    exists (46%N :: f :: fs). split; [reflexivity |].
    constructor; [unfold Spec.numeric; auto 10 |].
    constructor; [now left | now apply digits_numeric].
  - intros [= <- <-]. exists []. split; [reflexivity | constructor].
Qed.

Lemma exp_digits_consumed eneg t r expo r' pre :
  r = pre ++ t -> Forall Spec.numeric pre ->
  Json.exp_digits eneg t r = (expo, r') ->
  exists num, r = num ++ r' /\ Forall Spec.numeric num.
Proof.
  intros Hr Hpre. unfold Json.exp_digits.
  destruct (Json.span Py.is_digit_ascii t) as [es r''] eqn:Es.
  destruct (span_consumed _ _ _ _ Es) as [-> Hd].
  destruct es as [| e0 es].
  - intros [= <- <-]. exists []. split; [reflexivity | constructor].
  - intros [= <- <-]. exists (pre ++ e0 :: es).
    split; [now rewrite Hr, <- app_assoc |].
    apply Forall_app. split; [exact Hpre | now apply digits_numeric].
Qed.

Lemma exp_part_consumed r expo r' :
  Json.exp_part r = (expo, r') ->
  exists num, r = num ++ r' /\ Forall Spec.numeric num.
Proof.
  assert (Hnone : forall s : pystr, exists num, s = num ++ s /\ Forall Spec.numeric num)
    by (intros s; exists []; split; [reflexivity | constructor]).
  unfold Json.exp_part. destruct r as [| e t]; [intros [= <- <-]; apply Hnone |].
  destruct ((e =? 101) || (e =? 69))%N eqn:E;
    [| intros [= <- <-]; apply Hnone].
  assert (He : Spec.numeric e).
  { apply orb_true_iff in E as [E | E]; apply N.eqb_eq in E; subst e;
      unfold Spec.numeric; auto 10. }
  destruct t as [| c u]; [intros [= <- <-]; apply Hnone |].
  destruct (c =? 45)%N eqn:E1.
  - apply N.eqb_eq in E1. subst c.
    apply (exp_digits_consumed _ _ _ _ _ [e; 45%N]); [reflexivity |].
    constructor; [exact He |]. constructor; [unfold Spec.numeric; auto 10 | constructor].
  - destruct (c =? 43)%N eqn:E2.
    + apply N.eqb_eq in E2. subst c.
      apply (exp_digits_consumed _ _ _ _ _ [e; 43%N]); [reflexivity |].
      constructor; [exact He |]. constructor; [unfold Spec.numeric; auto 10 | constructor].
    + apply (exp_digits_consumed _ _ _ _ _ [e]); [reflexivity |].
      constructor; [exact He | constructor].
Qed.

Lemma number_after_sign_consumed neg s v r :
  Json.number_after_sign neg s = Some (v, r) ->
  exists num, s = num ++ r /\ Forall Spec.numeric num.
Proof.
  unfold Json.number_after_sign.
  destruct (Json.int_part s) as [[ipart r0] |] eqn:Ei; [| discriminate].
  destruct (Json.frac_part r0) as [frac r1] eqn:Ef.
  destruct (Json.exp_part r1) as [expo r2] eqn:Ee.
  destruct (int_part_consumed _ _ _ Ei) as [-> Hi].
  destruct (frac_part_consumed _ _ _ Ef) as (nf & -> & Hf).
  destruct (exp_part_consumed _ _ _ Ee) as (ne & -> & He).
  intros H.
  assert (r = r2) as -> by (destruct frac, expo; injection H as _ <-; reflexivity).
  exists (ipart ++ nf ++ ne). split; [now rewrite <- !app_assoc |].
  apply Forall_app. split; [exact Hi |]. apply Forall_app. now split.
Qed.

Lemma match_number_consumed s v r :
  Json.match_number s = Some (v, r) ->
  exists num, s = num ++ r /\ Forall Spec.numeric num.
Proof.
  unfold Json.match_number. destruct s as [| c t]; [discriminate |].
  destruct (c =? 45)%N eqn:E.
  - apply N.eqb_eq in E. subst c. intros H.
    apply number_after_sign_consumed in H as (num & -> & Hn).
    exists (45%N :: num). split; [reflexivity |].
    constructor; [unfold Spec.numeric; auto 10 | exact Hn].
  - apply number_after_sign_consumed.
Qed.

Lemma one_line_check s :
  forallb (fun c => (32 <=? c)%N) s = true -> Spec.one_line s.
Proof.
  intros H. apply Forall_forall. intros c Hc.
  apply N.leb_le. exact (proj1 (forallb_forall _ _) H c Hc).
Qed.

Lemma one_line_app a b : Spec.one_line a -> Spec.one_line b -> Spec.one_line (a ++ b).
Proof. intros Ha Hb. apply Forall_app. now split. Qed.

Lemma hexdigit_printable n : (32 <= Json.hexdigit n)%N.
Proof. unfold Json.hexdigit. destruct (n <? 10)%N; lia. Qed.

Lemma escape_char_one_line c : Spec.one_line (Json.escape_char c).
Proof.
  unfold Json.escape_char, Spec.one_line.
  repeat match goal with
         | |- context [if ?b then _ else _] => destruct b eqn:?
         end;
    repeat (constructor; try lia; try apply hexdigit_printable).
  match goal with H : (c <? 32)%N = false |- _ => apply N.ltb_ge in H; exact H end.
Qed.

Lemma encode_basestring_one_line s : Spec.one_line (Json.encode_basestring s).
Proof.
  unfold Json.encode_basestring. constructor; [lia |].
  apply one_line_app; [| constructor; [lia | constructor]].
  induction s as [| c t IH]; cbn [flat_map]; [constructor |].
  apply one_line_app; [apply escape_char_one_line | exact IH].
Qed.

Lemma join_one_line sep parts :
  Spec.one_line sep -> Forall Spec.one_line parts ->
  Spec.one_line (Json.join sep parts).
Proof.
  intros Hs. induction 1 as [| p ps Hp Hps IH]; [constructor |].
  rewrite join_cons. apply one_line_app; [exact Hp |].
  destruct ps; [constructor |]. apply one_line_app; assumption.
Qed.

Lemma str_of_int_one_line z : Spec.one_line (Num.str_of_int z).
Proof.
  assert (Hd : forall u, Spec.one_line (Num.chars_of_uint u)).
  { intros u. eapply Forall_impl; [| apply chars_of_uint_digits].
    intros c Hc. apply numeric_printable. now left. }
  destruct z; cbn [Num.str_of_int];
    [apply one_line_check; reflexivity | apply Hd |].
  constructor; [lia | apply Hd].
Qed.

Section LineFacts.
Context {RT : PyRuntime}.

Lemma floatstr_one_line f :
  Spec.float_reads_back f = true -> Spec.one_line (Json.floatstr f).
Proof.
  assert (Hrepr : forall g,
            match Json.match_number (float_repr g) with
            | Some (JFloat h, []) => Spec.float_is g h
            | _ => false
            end = true -> Spec.one_line (float_repr g)).
  { intros g H.
    destruct (Json.match_number (float_repr g)) as [[v r] |] eqn:E;
      [| discriminate].
    destruct (match_number_consumed _ _ _ E) as (num & Hs & Hn).
    destruct v; try discriminate. destruct r; [| discriminate].
    rewrite Hs, app_nil_r. eapply Forall_impl; [| exact Hn].
    apply numeric_printable. }
  destruct f as [s | [|] | | s m e]; cbn [Json.floatstr Spec.float_reads_back];
    intros H; try (apply one_line_check; reflexivity); now apply Hrepr.
Qed.

(** What [json.dumps] writes has no line break in it. *)
Lemma dumps_one_line v :
  Spec.floats_read_back v = true -> Spec.one_line (Json.dumps v).
Proof.
  induction v as [| b | z | f | s | l IH | kvs IH] using json_induction;
    cbn [Json.dumps Spec.floats_read_back]; intros H.
  - apply one_line_check. reflexivity.
  - destruct b; apply one_line_check; reflexivity.
  - apply str_of_int_one_line.
  - now apply floatstr_one_line.
  - apply encode_basestring_one_line.
  - constructor; [lia |]. apply one_line_app; [| constructor; [lia | constructor]].
    apply join_one_line; [apply one_line_check; reflexivity |].
    apply Forall_map. rewrite Forall_forall in IH |- *.
    intros x Hx. apply (IH x Hx).
    exact (proj1 (forallb_forall _ _) H x Hx).
  - constructor; [lia |]. apply one_line_app; [| constructor; [lia | constructor]].
    apply join_one_line; [apply one_line_check; reflexivity |].
    apply Forall_map. rewrite Forall_forall in IH |- *.
    intros kv Hkv. apply one_line_app; [apply encode_basestring_one_line |].
    apply one_line_app; [apply one_line_check; reflexivity |].
    apply (IH kv Hkv). exact (proj1 (forallb_forall _ _) H kv Hkv).
Qed.

End LineFacts.

(* ===================================================================== *)
(** ** Further properties: the line of a record *)

(** X12. When [append_jsonl] returns for a record (whose dicts hold each
    key once and whose floats are read back from the text [repr] gives for
    them), the file is the file before with one line more, or a new file of
    one line; the line has no control character in it, so no line break
    splits it, and [json.loads] of the line is the record. When
    [append_jsonl] raises, it is the [UnicodeEncodeError] of a text that
    cannot be encoded, and the file holds the lines it held. *)
Theorem X12_append_jsonl_writes_one_line_that_reads_back :
  forall (RT : PyRuntime) (record : json) (f f' : Utils.file) (raised : option exn),
    Spec.round_trips record = true ->
    Utils.append_jsonl record f = (raised, f') ->
    match raised with
    | None =>
        exists line,
          f' = Some (Utils.lines_of f ++ [line])
          /\ Spec.one_line line
          /\ Json.loads line = Some record
    | Some x =>
        x = UnicodeEncodeError
        /\ Utils.lines_of f' = Utils.lines_of f
        /\ Py.encodes (Json.dumps record) = false
    end.
Proof.
  intros RT record f f' raised Hr H. unfold Utils.append_jsonl in H.
  unfold Spec.round_trips in Hr. apply andb_true_iff in Hr as [Hk Hf].
  destruct (Py.encodes (Json.dumps record)) eqn:E; injection H as <- <-.
  - exists (Json.dumps record). repeat split.
    + now apply dumps_one_line.
    + now apply loads_dumps.
  - repeat split.
Qed.

Lemma X12_witness :
  Spec.round_trips (RT := Ref.runtime) Examples.first_record = true
  /\ exists line,
       Examples.first_log = Some (Utils.lines_of None ++ [line])
       /\ Spec.one_line line
       /\ Json.loads line = Some Examples.first_record.
Proof.
  assert (H1 : Spec.round_trips (RT := Ref.runtime) Examples.first_record = true)
    by (vm_compute; reflexivity).
  assert (H2 : Utils.append_jsonl (RT := Ref.runtime) Examples.first_record None
               = (None, Examples.first_log)) by (vm_compute; reflexivity).
  split; [exact H1 |].
  exact (X12_append_jsonl_writes_one_line_that_reads_back Ref.runtime
           Examples.first_record None Examples.first_log None H1 H2).
Defined.

(* ===================================================================== *)
(** ** A run appends no line the log holds *)

Section NewLineFacts.
Context {RT : PyRuntime}.
Variable qid_to_category : Z -> option pystr.
Variable extract_label : pystr -> res (option pystr).

Let new_record := Poll.new_record qid_to_category extract_label.

(** A record the merge loop makes is not written in the log that the set
    of the evaluated answers was made from. *)
Lemma new_record_not_logged answers_index already_done output_file line record :
  Poll.load_done output_file = Ok already_done ->
  new_record answers_index already_done line = Ok (Some record) ->
  Spec.submitter_id line ->
  Spec.reads_back record ->
  ~ In (Json.dumps record) (Utils.lines_of output_file).
Proof.
  intros Hd Hr Hid Hback Hin.
  destruct (new_record_key _ _ _ _ _ _ Hr)
    as (model & temperature & qid & present & Hk & Hc & Hp & _).
  destruct output_file as [lines |]; [| destruct Hin].
  cbn [Utils.lines_of Poll.load_done] in Hin, Hd.
  pose proof (appended_key_loaded qid_to_category extract_label _ _ _ _ _ _ _ _
                Hr Hk Hid Hback Hin Hd) as He.
  unfold Val.set_contains in Hc.
  destruct (Val.key_hashable (JStr model, temperature, JStr qid));
    [| discriminate].
  rewrite He in Hc. injection Hc as <-. specialize (Hp eq_refl). discriminate.
Qed.

Lemma main_appends_new_lines e output_file :
  Forall Spec.submitter_id (Poll.batch_output e) ->
  Forall Spec.answer_reads_back (Poll.answers_file e) ->
  Forall Spec.result_reads_back (Poll.batch_output e) ->
  Spec.appends_new_lines output_file
    (Poll.main qid_to_category extract_label e output_file).
Proof.
  intros Hids Ha Hb.
  pose proof (run_reads_back_holds qid_to_category extract_label e output_file
                Ha Hb) as Hback.
  assert (Hsame : forall o, Spec.appends_new_lines output_file (o, output_file)).
  { intros o. exists []. cbn [snd]. rewrite app_nil_r.
    split; [reflexivity | intros ? []]. }
  unfold Poll.main.
  destruct (Poll.api_key e) as [[| c key] |]; try apply Hsame.
  destruct (Poll.index_answers (Poll.answers_file e) [])
    as [answers_index | x] eqn:Hidx; [| apply Hsame].
  destruct (Poll.load_done output_file) as [already_done | x] eqn:Hd;
    [| apply Hsame].
  destruct (Poll.poll (Poll.job_statuses e)) as [status |]; [| apply Hsame].
  destruct (negb (str_eqb status (str "completed"))); [apply Hsame |].
  destruct (Poll.merge qid_to_category extract_label answers_index already_done
              (Poll.batch_output e) (output_file, 0%nat)) as [o f'] eqn:E.
  apply merge_log in E as (chosen & records & Hs & Hr & Hf & _).
  exists (map Json.dumps records). cbn [fst snd] in *. split; [exact Hf |].
  intros l Hl. apply in_map_iff in Hl as (record & <- & Hrec).
  assert (Hline : exists line, In line (Poll.batch_output e)
                    /\ new_record answers_index already_done line
                       = Ok (Some record)).
  { destruct (Forall2_in_right _ _ _ Hr record Hrec) as (line & Hin & Hnr).
    exists line. split; [exact (subseq_in _ _ Hs line Hin) | exact Hnr]. }
  destruct Hline as (line & Hline & Hnr).
  rewrite Forall_forall in Hids.
  exact (new_record_not_logged _ _ _ _ _ Hd Hnr (Hids _ Hline)
           (Hback _ _ _ _ Hidx Hd Hline Hnr)).
Qed.

End NewLineFacts.

(* ===================================================================== *)
(** ** Further properties: no line twice over runs *)

(** X13. A run of either poller appends no line that the evaluation log
    holds already, however the run ends and whatever wrote the log (an
    earlier run that got to its end, or one that raised in the middle of the
    merge loop): provided that the correlation ids are of the form the
    submitter writes, that the temperature of no answer is NaN and that the
    floats of the input are read back from their text. *)
Theorem X13_poller_appends_no_line_of_the_log :
  forall (RT : PyRuntime) (qid_to_category : Z -> option pystr)
         (e : Poll.env) (output_file : Utils.file),
    Forall Spec.submitter_id (Poll.batch_output e) ->
    Forall Spec.answer_reads_back (Poll.answers_file e) ->
    Forall Spec.result_reads_back (Poll.batch_output e) ->
    Spec.appends_new_lines output_file
      (PollTruthqaBatches.main qid_to_category e output_file)
    /\ Spec.appends_new_lines output_file
         (PollTruthP2.main qid_to_category e output_file).
Proof.
  intros RT cat e f Hids Ha Hb. split; now apply main_appends_new_lines.
Qed.

Lemma X13_witness :
  Forall Spec.submitter_id (Poll.batch_output Examples.completed_job)
  /\ Forall (Spec.answer_reads_back (RT := Ref.runtime))
        (Poll.answers_file Examples.completed_job)
  /\ Forall (Spec.result_reads_back (RT := Ref.runtime))
        (Poll.batch_output Examples.completed_job)
  /\ PollTruthqaBatches.main (RT := Ref.runtime) Examples.categories
       Examples.completed_job Examples.log_with_second
     = (Poll.Appended 1,
        Some (Utils.lines_of Examples.log_with_second
              ++ Utils.lines_of Examples.first_log))
  /\ Spec.appends_new_lines Examples.log_with_second
       (PollTruthqaBatches.main (RT := Ref.runtime) Examples.categories
          Examples.completed_job Examples.log_with_second)
  /\ Spec.appends_new_lines Examples.log_with_second
       (PollTruthP2.main (RT := Ref.runtime) Examples.categories
          Examples.completed_job Examples.log_with_second).
Proof.
  assert (H1 : Forall Spec.submitter_id (Poll.batch_output Examples.completed_job)).
  { apply Forall_cons; [| apply Forall_cons; [| apply Forall_nil]].
    - intros rec cid Hl Hc. exists 7%Z, (str "m1|warm").
      vm_compute in Hl. injection Hl as <-. vm_compute in Hc. injection Hc as <-.
      reflexivity.
    - intros rec cid Hl Hc. exists 8%Z, (str "m1|warm").
      vm_compute in Hl. injection Hl as <-. vm_compute in Hc. injection Hc as <-.
      reflexivity. }
  assert (H2 : Forall (Spec.answer_reads_back (RT := Ref.runtime))
                 (Poll.answers_file Examples.completed_job)).
  { apply Forall_cons; [| apply Forall_cons; [| apply Forall_nil]];
      intros row Hl; vm_compute in Hl; injection Hl as <-;
      (split; [vm_compute; reflexivity |]);
      intros t Ht; vm_compute in Ht; injection Ht as <-; vm_compute; reflexivity. }
  assert (H3 : Forall (Spec.result_reads_back (RT := Ref.runtime))
                 (Poll.batch_output Examples.completed_job)).
  { apply Forall_cons; [| apply Forall_cons; [| apply Forall_nil]];
      intros rec Hl; vm_compute in Hl; injection Hl as <-;
      vm_compute; reflexivity. }
  repeat (split; [assumption |]).
  split; [vm_compute; reflexivity |].
  exact (X13_poller_appends_no_line_of_the_log Ref.runtime Examples.categories
           Examples.completed_job Examples.log_with_second H1 H2 H3).
Defined.

(* ===================================================================== *)
(** ** The polling loop *)


Section PollingFacts.
Context {RT : PyRuntime}.
Variable qid_to_category : Z -> option pystr.
Variable extract_label : pystr -> res (option pystr).


End PollingFacts.

(* ===================================================================== *)
(** ** Further properties: the polling loop *)



(* ===================================================================== *)
(** ** The correlation ids of a batch *)

Lemma subseq_map {A B : Type} (f : A -> B) chosen rows :
  Spec.subseq chosen rows -> Spec.subseq (map f chosen) (map f rows).
Proof. induction 1; cbn [map]; now constructor. Qed.

Lemma subseq_NoDup {A : Type} (chosen rows : list A) :
  Spec.subseq chosen rows -> NoDup rows -> NoDup chosen.
Proof.
  induction 1 as [rows | x chosen rows Hs IH | x chosen rows Hs IH]; intros Hn.
  - constructor.
  - inversion Hn as [| ? ? Hx Hn']; subst. constructor; [| auto].
    intros Hin. apply Hx. exact (subseq_in _ _ Hs x Hin).
  - inversion Hn; auto.
Qed.

(** The text of a correlation id tells the question id, the model and
    the setting it was made from. *)
Lemma custom_id_parts z model setting :
  ~ In 124%N model -> ~ In 124%N setting ->
  Py.split 124 (Num.str_of_int z ++ [124%N] ++ model ++ [124%N] ++ setting)
  = [Num.str_of_int z; model; setting].
Proof.
  intros Hm Hs. cbn [app].
  rewrite (@split_at_sep 124%N _ _ (str_of_int_no_bar z)).
  rewrite (@split_at_sep 124%N _ _ Hm), (@split_no_sep 124%N _ Hs).
  reflexivity.
Qed.

Section IdFacts.
Context {RT : PyRuntime}.
Variable e : Submit.env.

Lemma custom_id_inj z model setting z' model' setting' :
  ~ In 124%N model -> ~ In 124%N setting ->
  ~ In 124%N model' -> ~ In 124%N setting' ->
  Num.str_of_int z ++ [124%N] ++ model ++ [124%N] ++ setting
  = Num.str_of_int z' ++ [124%N] ++ model' ++ [124%N] ++ setting' ->
  z = z' /\ model = model' /\ setting = setting'.
Proof.
  intros Hm Hs Hm' Hs' H. apply (f_equal (Py.split 124)) in H.
  rewrite !custom_id_parts in H by assumption.
  injection H as Hz -> ->. repeat split.
  pose proof (int_of_str_of_int z) as H1.
  pose proof (int_of_str_of_int z') as H2.
  rewrite Hz in H1. rewrite H1 in H2. now injection H2.
Qed.

Lemma build_request_custom_id row request z model setting :
  Submit.build_request e row = Ok request ->
  Spec.index_identity row = Ok (JInt z, JStr model, JStr setting) ->
  Val.getitem request "custom_id"
  = Ok (JStr (Num.str_of_int z ++ [124%N] ++ model ++ [124%N] ++ setting)).
Proof.
  intros Hb Hid. unfold Spec.index_identity in Hid. steps Hid.
  injection Hid as -> -> ->.
  unfold Submit.build_request in Hb. steps Hb. injection Hb as <-.
  repeat match goal with
         | H1 : ?m = Ok ?a, H2 : ?m = Ok ?b |- _ =>
             rewrite H1 in H2; injection H2 as <-
         end.
  reflexivity.
Qed.

(** Answers with distinct identities get requests with distinct ids. *)
Lemma requests_distinct chosen : forall built,
  Forall2 (fun row r => Submit.build_request e row = Ok r) chosen built ->
  Forall Spec.plain_answer chosen ->
  NoDup (map Spec.index_identity chosen) ->
  NoDup (map (fun r => Val.getitem r "custom_id") built).
Proof.
  induction chosen as [| row chosen IH]; intros built Hb Hp Hn;
    inversion Hb as [| ? r ? built' Hr Hb']; subst; cbn [map]; [constructor |].
  inversion Hp as [| ? ? (z & m & s & Hid & Hm & Hs) Hp']; subst.
  cbn [map] in Hn. inversion Hn as [| ? ? Hx Hn']; subst.
  constructor; [| now apply IH].
  intros Hin. apply Hx. apply in_map_iff in Hin as (r' & Heq & Hr').
  destruct (Forall2_in_right _ _ _ Hb' r' Hr') as (row' & Hrow' & Hbr').
  rewrite Forall_forall in Hp'.
  destruct (Hp' row' Hrow') as (z' & m' & s' & Hid' & Hm' & Hs').
  rewrite (build_request_custom_id _ _ _ _ _ Hr Hid) in Heq.
  rewrite (build_request_custom_id _ _ _ _ _ Hbr' Hid') in Heq.
  injection Heq as Heq.
  destruct (custom_id_inj _ _ _ _ _ _ Hm' Hs' Hm Hs Heq) as (-> & -> & ->).
  rewrite Hid, <- Hid'. now apply in_map.
Qed.

End IdFacts.

(* ===================================================================== *)
(** ** Further properties: the correlation ids of a batch *)

(** X16. The requests of a batch have distinct correlation ids when the
    answers have distinct identities: if the rows of the answers file have
    an integer question id and a model and a setting that are strings
    without "|", and no two rows have the same (question id, model,
    setting), then no two requests the submitter sends have the same
    "custom_id". *)
Theorem X16_requests_have_distinct_custom_ids :
  forall (RT : PyRuntime) (e : Submit.env) (output_file : Utils.file)
         (requests rows : list json),
    Submit.main e output_file = Submit.Sent requests ->
    Val.traverse Poll.loads_or_raise (Submit.answers_file e) = Ok rows ->
    Forall Spec.plain_answer rows ->
    NoDup (map Spec.index_identity rows) ->
    NoDup (map (fun r => Val.getitem r "custom_id") requests).
Proof.
  intros RT e f requests rows H Ha Hp Hn. unfold Submit.main in H.
  destruct (Submit.api_key e) as [[| c key] |]; try discriminate.
  rewrite Ha in H.
  destruct (Submit.load_done f) as [done | x] eqn:Hd; [| discriminate].
  destruct (Submit.fill_requests e done rows []) as [out | x] eqn:Hf;
    [| discriminate].
  destruct out as [| r rs]; [discriminate |].
  destruct (forallb (fun r => Py.encodes (Json.dumps r)) (r :: rs));
    [| discriminate].
  injection H as <-.
  apply fill_requests_ok in Hf as (chosen & built & Hout & Hs & Hb & _).
  cbn [app] in Hout. subst built.
  apply (requests_distinct e chosen); [exact Hb | |].
  - rewrite Forall_forall in Hp |- *. intros row Hrow.
    exact (Hp row (subseq_in _ _ Hs row Hrow)).
  - exact (subseq_NoDup _ _ (subseq_map Spec.index_identity _ _ Hs) Hn).
Qed.

Lemma X16_witness :
  Submit.main (RT := Ref.runtime) Examples.submitter Examples.log_with_first
  = Submit.Sent [Examples.second_request]
  /\ NoDup (map (fun r => Val.getitem r "custom_id") [Examples.second_request]).
Proof.
  assert (H1 : Submit.main (RT := Ref.runtime) Examples.submitter
                 Examples.log_with_first
               = Submit.Sent [Examples.second_request])
    by (vm_compute; reflexivity).
  assert (H2 : Val.traverse Poll.loads_or_raise
                 (Submit.answers_file Examples.submitter)
               = Ok Examples.answers_list) by (vm_compute; reflexivity).
  assert (H3 : Forall Spec.plain_answer Examples.answers_list).
  { apply Forall_cons; [| apply Forall_cons; [| apply Forall_nil]];
      eexists _, _, _; (split; [vm_compute; reflexivity |]);
      split; intros Hin; vm_compute in Hin; intuition discriminate. }
  assert (H4 : NoDup (map Spec.index_identity Examples.answers_list)).
  { apply NoDup_cons; [| apply NoDup_cons; [intros [] | apply NoDup_nil]].
    intros Hin. vm_compute in Hin. intuition discriminate. }
  split; [exact H1 |].
  exact (X16_requests_have_distinct_custom_ids Ref.runtime Examples.submitter
           Examples.log_with_first [Examples.second_request]
           Examples.answers_list H1 H2 H3 H4).
Defined.

(* ===================================================================== *)
(** ** The merge loop from its start to its end *)

Section LoopFacts.
Context {RT : PyRuntime}.
Variable qid_to_category : Z -> option pystr.
Variable extract_label : pystr -> res (option pystr).

Let new_record := Poll.new_record qid_to_category extract_label.
Let merge := Poll.merge qid_to_category extract_label.




End LoopFacts.

(* ===================================================================== *)
(** ** Further properties: the merge loop from its start to its end *)

(** X17. A run of a poller (with whichever [extract_label]) that gets to
    its end has appended one line for every batch result whose turn made a
    record, in the order of the batch output, and counted these lines; no
    result raised. Whether a turn makes a record is decided against the set
    of the evaluated answers as [load_done] made it before the loop: the set
    is not added to, so that of two results of one batch with the same
    identity both are appended. *)
Theorem X17_complete_run_appends_the_record_of_every_turn :
  forall (RT : PyRuntime) (qid_to_category : Z -> option pystr)
         (extract_label : pystr -> res (option pystr))
         (e : Poll.env) (out0 out1 : Utils.file) (added : nat),
    Poll.main qid_to_category extract_label e out0 = (Poll.Appended added, out1) ->
    exists answers_index already_done,
      Poll.index_answers (Poll.answers_file e) [] = Ok answers_index
      /\ Poll.load_done out0 = Ok already_done
      /\ Forall (fun line =>
                   exists r,
                     Poll.new_record qid_to_category extract_label answers_index
                       already_done line = Ok r)
           (Poll.batch_output e)
      /\ Utils.lines_of out1
         = Utils.lines_of out0
           ++ map Json.dumps
                (Spec.records_of qid_to_category extract_label answers_index
                   already_done (Poll.batch_output e))
      /\ added
         = List.length
             (Spec.records_of qid_to_category extract_label answers_index
                already_done (Poll.batch_output e)).
Proof.
  intros RT cat extract_label e out0 out1 added H. unfold Poll.main in H.
  destruct (Poll.api_key e) as [[| c key] |]; try discriminate.
  destruct (Poll.index_answers (Poll.answers_file e) []) as [idx | x] eqn:Hidx;
    [| discriminate].
  destruct (Poll.load_done out0) as [done | x] eqn:Hd; [| discriminate].
  destruct (Poll.poll (Poll.job_statuses e)) as [status |]; [| discriminate].
  destruct (negb (str_eqb status (str "completed"))); [discriminate |].
  apply merge_appended in H as (Hall & Hout & Hn). cbn [fst snd] in Hout, Hn.
  exists idx, done. repeat split; try assumption.
  rewrite Hout, lines_of_append_all. reflexivity.
Qed.

Lemma X17_witness :
  PollTruthqaBatches.main (RT := Ref.runtime) Examples.categories
    Examples.twin_job None
  = (Poll.Appended 2, Some Examples.twin_log)
  /\ exists answers_index already_done,
       Poll.index_answers (Poll.answers_file Examples.twin_job) []
       = Ok answers_index
       /\ Poll.load_done (RT := Ref.runtime) None = Ok already_done
       /\ Forall (fun line =>
                    exists r,
                      Poll.new_record (RT := Ref.runtime) Examples.categories
                        (PollTruthqaBatches.extract_label (RT := Ref.runtime))
                        answers_index already_done line = Ok r)
            (Poll.batch_output Examples.twin_job)
       /\ Utils.lines_of (Some Examples.twin_log)
          = Utils.lines_of None
            ++ map (Json.dumps (RT := Ref.runtime))
                 (Spec.records_of (RT := Ref.runtime) Examples.categories
                    (PollTruthqaBatches.extract_label (RT := Ref.runtime))
                    answers_index already_done
                    (Poll.batch_output Examples.twin_job))
       /\ 2%nat
          = List.length
              (Spec.records_of (RT := Ref.runtime) Examples.categories
                 (PollTruthqaBatches.extract_label (RT := Ref.runtime))
                 answers_index already_done
                 (Poll.batch_output Examples.twin_job)).
Proof.
  assert (H : PollTruthqaBatches.main (RT := Ref.runtime) Examples.categories
                Examples.twin_job None
              = (Poll.Appended 2, Some Examples.twin_log))
    by (vm_compute; reflexivity).
  split; [exact H |].
  exact (X17_complete_run_appends_the_record_of_every_turn Ref.runtime
           Examples.categories
           (PollTruthqaBatches.extract_label (RT := Ref.runtime))
           Examples.twin_job None (Some Examples.twin_log) 2 H).
Defined.



